(** * Whispero: the TTFU / Evidence / Review workflow of the API routes

    A shallow embedding of the route handlers that create TTFUs, update
    their status, accept evidence and accept reviews, over an in-memory
    model of the Prisma tables they touch.

    - tables are lists of rows in insertion order; the primary key and the
      foreign keys of the SQL schema are checked by the [create] operations,
      which raise the way the Prisma client does;
    - a handler is a computation in a small state-and-exception monad: it
      reads and writes the tables, may leave early with a response
      ([return NextResponse.json(...)]) and may throw; the [try]/[catch] of
      each handler turns what was thrown into a response;
    - a request body is a JSON value, examined by the zod schema of the
      route; what zod takes for a URL and what [new Date] reads are
      parameters of the routes that use them;
    - the names a route module binds are part of the model where a handler
      uses a name its module does not import. *)

From Stdlib Require Import String Ascii List ZArith Bool Lia.
From Stdlib Require Import Sorting.Permutation Sorting.Sorted.
Import ListNotations.
Local Open Scope string_scope.
Local Open Scope Z_scope.

(* ------------------------------------------------------------------ *)
(** ** JavaScript values the handlers look at *)

(** A string is falsy exactly when it is empty. *)
Definition truthy (s : string) : bool := negb (s =? "")%string.

(** [v] of type [string | undefined]: [!v]. *)
Definition falsy (v : option string) : bool :=
  match v with
  | Some s => negb (truthy s)
  | None => true
  end.

(** [a || b] where [a : string | undefined] and [b : string]. *)
Definition or_else (a : option string) (b : string) : string :=
  match a with
  | Some s => if truthy s then s else b
  | None => b
  end.

(** [a || null] where [a : string | undefined]. *)
Definition or_null (a : option string) : option string :=
  match a with
  | Some s => if truthy s then Some s else None
  | None => None
  end.

(** [haystack.includes(needle)]. *)
Fixpoint includes (needle haystack : string) : bool :=
  String.prefix needle haystack
  || match haystack with
     | EmptyString => false
     | String _ rest => includes needle rest
     end.

(** The value [request.json()] resolves to. *)
#[local] Set Warnings "-register-all".
Inductive Json : Type :=
| JNull
| JBool (b : bool)
| JNum (n : Z)
| JStr (s : string)
| JArr (items : list Json)
| JObj (props : list (string * Json)).
#[local] Set Warnings "+register-all".

(** [o[k]]: [None] stands for [undefined]. *)
Fixpoint prop (o : list (string * Json)) (k : string) : option Json :=
  match o with
  | [] => None
  | (k', v) :: rest => if (k' =? k)%string then Some v else prop rest k
  end.

(* ------------------------------------------------------------------ *)
(** ** The enums and models of the Prisma schema *)

Inductive GlobalRole := ADMIN | SPV | REVIEWER | USER.
Inductive TtfuStatus := OPEN | IN_PROGRESS | DONE | REJECTED.
Inductive EvidenceType := link | file.
Inductive ReviewStatus := approved | rejected | needs_revision.

Definition GlobalRole_eqb (a b : GlobalRole) : bool :=
  match a, b with
  | ADMIN, ADMIN | SPV, SPV | REVIEWER, REVIEWER | USER, USER => true
  | _, _ => false
  end.

Definition GlobalRole_name (r : GlobalRole) : string :=
  match r with
  | ADMIN => "ADMIN" | SPV => "SPV" | REVIEWER => "REVIEWER" | USER => "USER"
  end.

Record User := {
  user_id : string;
  user_name : string;
  user_email : string;
  user_globalRole : GlobalRole
}.

Record Meeting := {
  meeting_id : string;
  meeting_title : string;
  meeting_date : Z;
  meeting_createdById : string
}.

Record TTFU := {
  ttfu_id : string;
  ttfu_meetingId : string;
  ttfu_title : string;
  ttfu_description : option string;
  ttfu_assigneeId : string;
  ttfu_reviewerId : string;
  ttfu_status : TtfuStatus;
  ttfu_dueDate : option Z;
  ttfu_createdAt : Z;
  ttfu_updatedAt : Z
}.

Record Evidence := {
  evidence_id : string;
  evidence_ttfuId : string;
  evidence_type : EvidenceType;
  evidence_url : option string;
  evidence_filePath : option string;
  evidence_description : option string;
  evidence_submittedById : string;
  evidence_createdAt : Z
}.

Record Review := {
  review_id : string;
  review_evidenceId : string;
  review_reviewerId : string;
  review_status : ReviewStatus;
  review_comment : option string;
  review_createdAt : Z
}.

(** The tables. *)
Record DB := {
  users : list User;
  meetings : list Meeting;
  ttfus : list TTFU;
  evidences : list Evidence;
  reviews : list Review
}.

(** What the database supplies for a new row: [@default(cuid())] and
    [@default(now())]. *)
Record Gen := {
  cuid : string;
  now : Z
}.

(** The session [getServerSession] resolves to; [None] is [null]. *)
Record Session := {
  session_user_id : string;
  session_user_globalRole : string
}.

(* ------------------------------------------------------------------ *)
(** ** Errors and responses *)

(** What a handler can throw: a [ZodError] with its issues (the paths of
    the offending fields), or another [Error] with its message. *)
Inductive Exn :=
| ZodError (issues : list string)
| JsError (message : string).

Inductive Details :=
| NoDetails
| Issues (issues : list string)
| Message (message : string).

(** What the request resolves to: [{ success: true, data }] with status
    200, [{ error, details? }] with an error status, or nothing at all
    when the handler itself throws. *)
Inductive Reply (A : Type) :=
| Json200 (data : A)
| JsonError (status : Z) (error : string) (details : Details)
| Uncaught (e : Exn).
Arguments Json200 {A} data.
Arguments JsonError {A} status error details.
Arguments Uncaught {A} e.

Definition status_of {A} (r : Reply A) : Z :=
  match r with
  | Json200 _ => 200
  | JsonError s _ _ => s
  | Uncaught _ => 500
  end.

Definition is_success {A} (r : Reply A) : bool :=
  match r with Json200 _ => true | _ => false end.

(** The taxonomy of errors by HTTP status. *)
Definition is_authorization_error {A} (r : Reply A) : bool :=
  match r with
  | JsonError s _ _ => (s =? 401) || (s =? 403)
  | _ => false
  end.

Definition is_not_found {A} (r : Reply A) : bool :=
  match r with JsonError s _ _ => s =? 404 | _ => false end.

Definition is_validation_error {A} (r : Reply A) : bool :=
  match r with
  | JsonError s e _ => (s =? 400) && negb (e =? "You have already reviewed this evidence")%string
  | _ => false
  end.

(** The duplicate-review rejection (sent with status 400). *)
Definition is_conflict_error {A} (r : Reply A) : bool :=
  match r with
  | JsonError s e _ => (s =? 400) && (e =? "You have already reviewed this evidence")%string
  | _ => false
  end.

(* ------------------------------------------------------------------ *)
(** ** The handler monad *)

(** A step of a handler either goes on with a value, leaves the handler
    with a response, or throws. *)
Inductive Outcome (R A : Type) :=
| Val (a : A)
| Return (r : Reply R)
| Throw (e : Exn).
Arguments Val {R A} a.
Arguments Return {R A} r.
Arguments Throw {R A} e.

Definition M (R A : Type) : Type := DB -> Outcome R A * DB.

Definition ret {R A} (a : A) : M R A := fun db => (Val a, db).

Definition bind {R A B} (c : M R A) (k : A -> M R B) : M R B :=
  fun db =>
    match c db with
    | (Val a, db') => k a db'
    | (Return r, db') => (Return r, db')
    | (Throw e, db') => (Throw e, db')
    end.

Definition respond {R A} (r : Reply R) : M R A := fun db => (Return r, db).
Definition throw {R A} (e : Exn) : M R A := fun db => (Throw e, db).
Definition query {R A} (f : DB -> A) : M R A := fun db => (Val (f db), db).
Definition write {R} (f : DB -> DB) : M R unit := fun db => (Val tt, f db).

(** [if (c) return r;] *)
Definition return_if {R} (c : bool) (r : Reply R) : M R unit :=
  if c then respond r else ret tt.

Declare Scope handler_scope.
Delimit Scope handler_scope with handler.
Notation "x <- c ;; k" := (bind c (fun x => k))
  (at level 61, c at next level, right associativity) : handler_scope.
Notation "c ;; k" := (bind c (fun _ => k))
  (at level 61, right associativity) : handler_scope.
Local Open Scope handler_scope.

(** [try { body } catch (error) { handler }], where the body ends in a
    [return] and the handler may throw in its turn. *)
Definition try_catch {R} (body : M R (Reply R)) (handler : Exn -> Reply R + Exn)
  : DB -> Reply R * DB :=
  fun db =>
    match body db with
    | (Val r, db') => (r, db')
    | (Return r, db') => (r, db')
    | (Throw e, db') =>
        match handler e with
        | inl r => (r, db')
        | inr e' => (Uncaught e', db')
        end
    end.

Definition request_json {R} (body : option Json) : M R Json :=
  match body with
  | Some j => ret j
  | None => throw (JsError "Unexpected end of JSON input")
  end.

(** [if (!session?.user?.id) return 401], then [session.user]. *)
Definition require_session {R} (session : option Session) : M R Session :=
  match session with
  | Some s =>
      if truthy (session_user_id s) then ret s
      else respond (JsonError 401 "Unauthorized" NoDetails)
  | None => respond (JsonError 401 "Unauthorized" NoDetails)
  end.

(* ------------------------------------------------------------------ *)
(** ** zod *)

(** The result of checking one field: [None] is an issue. *)
Definition z_string (v : option Json) : option string :=
  match v with
  | Some (JStr s) => Some s
  | _ => None
  end.

Definition z_string_min1 (v : option Json) : option string :=
  match v with
  | Some (JStr s) => if truthy s then Some s else None
  | _ => None
  end.

Definition z_string_optional (v : option Json) : option (option string) :=
  match v with
  | None => Some None
  | Some (JStr s) => Some (Some s)
  | Some _ => None
  end.

Fixpoint assoc {A} (options : list (string * A)) (s : string) : option A :=
  match options with
  | [] => None
  | (k, a) :: rest => if (k =? s)%string then Some a else assoc rest s
  end.

Definition z_enum {A} (options : list (string * A)) (v : option Json) : option A :=
  match v with
  | Some (JStr s) => assoc options s
  | _ => None
  end.

Definition issue {A} (path : string) (checked : option A) : list string :=
  match checked with
  | Some _ => []
  | None => [path]
  end.

(** [schema.parse(body)]: the data, or a [ZodError]. *)
Definition parse {R D} (schema : Json -> list string + D) (body : Json) : M R D :=
  match schema body with
  | inr d => ret d
  | inl issues => throw (ZodError issues)
  end.

Record UpdateInput := {
  upd_status : TtfuStatus;
  upd_notes : option string
}.

(** [z.object({ status: z.enum(["OPEN", "IN_PROGRESS", "DONE", "REJECTED"]),
    notes: z.string().optional() })] *)
Definition updateSchema (body : Json) : list string + UpdateInput :=
  match body with
  | JObj o =>
      let status :=
        z_enum [("OPEN", OPEN); ("IN_PROGRESS", IN_PROGRESS);
                ("DONE", DONE); ("REJECTED", REJECTED)] (prop o "status") in
      let notes := z_string_optional (prop o "notes") in
      match status, notes with
      | Some s, Some n => inr {| upd_status := s; upd_notes := n |}
      | _, _ => inl (issue "status" status ++ issue "notes" notes)%list
      end
  | _ => inl [""]
  end.

Record ReviewInput := {
  rev_status : ReviewStatus;
  rev_comment : option string
}.

(** [z.object({ status: z.enum(["approved", "rejected", "needs_revision"]),
    comment: z.string().optional() })] *)
Definition createReviewSchema (body : Json) : list string + ReviewInput :=
  match body with
  | JObj o =>
      let status :=
        z_enum [("approved", approved); ("rejected", rejected);
                ("needs_revision", needs_revision)] (prop o "status") in
      let comment := z_string_optional (prop o "comment") in
      match status, comment with
      | Some s, Some c => inr {| rev_status := s; rev_comment := c |}
      | _, _ => inl (issue "status" status ++ issue "comment" comment)%list
      end
  | _ => inl [""]
  end.

Record TTFUInput := {
  in_meetingId : string;
  in_title : string;
  in_description : option string;
  in_assigneeId : option string;
  in_reviewerId : option string;
  in_dueDate : option string
}.

(** [z.object({ meetingId: z.string(), title: z.string().min(1, ...),
    description, assigneeId, reviewerId, dueDate: z.string().optional() })] *)
Definition createTTFUSchema (body : Json) : list string + TTFUInput :=
  match body with
  | JObj o =>
      let meetingId := z_string (prop o "meetingId") in
      let title := z_string_min1 (prop o "title") in
      let description := z_string_optional (prop o "description") in
      let assigneeId := z_string_optional (prop o "assigneeId") in
      let reviewerId := z_string_optional (prop o "reviewerId") in
      let dueDate := z_string_optional (prop o "dueDate") in
      match meetingId, title, description, assigneeId, reviewerId, dueDate with
      | Some m, Some t, Some d, Some a, Some r, Some due =>
          inr {| in_meetingId := m; in_title := t; in_description := d;
                 in_assigneeId := a; in_reviewerId := r; in_dueDate := due |}
      | _, _, _, _, _, _ =>
          inl (issue "meetingId" meetingId ++ issue "title" title
               ++ issue "description" description ++ issue "assigneeId" assigneeId
               ++ issue "reviewerId" reviewerId ++ issue "dueDate" dueDate)%list
      end
  | _ => inl [""]
  end.

Record EvidenceInput := {
  ein_type : EvidenceType;
  ein_url : option string;
  ein_filePath : option string;
  ein_description : option string
}.

(* ------------------------------------------------------------------ *)
(** ** The Prisma client over the tables *)

Definition is_some {A} (o : option A) : bool :=
  match o with Some _ => true | None => false end.

Definition user_findUnique (id : string) (db : DB) : option User :=
  find (fun u => (user_id u =? id)%string) (users db).

Definition meeting_findUnique (id : string) (db : DB) : option Meeting :=
  find (fun m => (meeting_id m =? id)%string) (meetings db).

Definition ttfu_findUnique (id : string) (db : DB) : option TTFU :=
  find (fun t => (ttfu_id t =? id)%string) (ttfus db).

Definition evidence_findUnique (id : string) (db : DB) : option Evidence :=
  find (fun e => (evidence_id e =? id)%string) (evidences db).

Definition review_findUnique (id : string) (db : DB) : option Review :=
  find (fun r => (review_id r =? id)%string) (reviews db).

(** [prisma.user.findFirst({ where: { globalRole: { in: roles } } })] *)
Definition user_findFirst_globalRole_in (roles : list GlobalRole) (db : DB)
  : option User :=
  find (fun u => existsb (GlobalRole_eqb (user_globalRole u)) roles) (users db).

(** [prisma.review.findFirst({ where: { evidenceId, reviewerId } })] *)
Definition review_findFirst (evidenceId reviewerId : string) (db : DB)
  : option Review :=
  find (fun r => (review_evidenceId r =? evidenceId)%string
                 && (review_reviewerId r =? reviewerId)%string) (reviews db).

Definition with_ttfus (db : DB) (l : list TTFU) : DB :=
  {| users := users db; meetings := meetings db; ttfus := l;
     evidences := evidences db; reviews := reviews db |}.

Definition with_evidences (db : DB) (l : list Evidence) : DB :=
  {| users := users db; meetings := meetings db; ttfus := ttfus db;
     evidences := l; reviews := reviews db |}.

Definition with_reviews (db : DB) (l : list Review) : DB :=
  {| users := users db; meetings := meetings db; ttfus := ttfus db;
     evidences := evidences db; reviews := l |}.

Definition unique_violation : Exn :=
  JsError "Unique constraint failed on the fields: (`id`)".
Definition foreign_key_violation : Exn :=
  JsError "Foreign key constraint violated".
Definition record_not_found : Exn :=
  JsError "Record to update not found.".
Definition invalid_date : Exn :=
  JsError "Invalid value for argument `dueDate`: Provided Date object is invalid. Expected Date.".

(** [prisma.tTFU.create({ data })]: the status defaults to [OPEN]. *)
Definition ttfu_create {R} (g : Gen) (meetingId title : string)
    (description : option string) (assigneeId reviewerId : string)
    (dueDate : option Z) : M R TTFU :=
  fun db =>
    if is_some (ttfu_findUnique (cuid g) db) then (Throw unique_violation, db)
    else if negb (is_some (meeting_findUnique meetingId db))
            || negb (is_some (user_findUnique assigneeId db))
            || negb (is_some (user_findUnique reviewerId db))
    then (Throw foreign_key_violation, db)
    else
      let row := {| ttfu_id := cuid g; ttfu_meetingId := meetingId;
                    ttfu_title := title; ttfu_description := description;
                    ttfu_assigneeId := assigneeId; ttfu_reviewerId := reviewerId;
                    ttfu_status := OPEN; ttfu_dueDate := dueDate;
                    ttfu_createdAt := now g; ttfu_updatedAt := now g |} in
      (Val row, with_ttfus db (ttfus db ++ [row])).

Definition set_status (status : TtfuStatus) (at_ : Z) (t : TTFU) : TTFU :=
  {| ttfu_id := ttfu_id t; ttfu_meetingId := ttfu_meetingId t;
     ttfu_title := ttfu_title t; ttfu_description := ttfu_description t;
     ttfu_assigneeId := ttfu_assigneeId t; ttfu_reviewerId := ttfu_reviewerId t;
     ttfu_status := status; ttfu_dueDate := ttfu_dueDate t;
     ttfu_createdAt := ttfu_createdAt t; ttfu_updatedAt := at_ |}.

(** [prisma.tTFU.update({ where: { id }, data: { status } })]; [@updatedAt]
    is refreshed. *)
Definition ttfu_update_status {R} (g : Gen) (id : string) (status : TtfuStatus)
  : M R TTFU :=
  fun db =>
    match ttfu_findUnique id db with
    | None => (Throw record_not_found, db)
    | Some t =>
        (Val (set_status status (now g) t),
         with_ttfus db
           (map (fun t' => if (ttfu_id t' =? id)%string
                           then set_status status (now g) t' else t')
                (ttfus db)))
    end.

(** [prisma.evidence.create({ data })] *)
Definition evidence_create {R} (g : Gen) (ttfuId : string) (type : EvidenceType)
    (url filePath description : option string) (submittedById : string)
  : M R Evidence :=
  fun db =>
    if is_some (evidence_findUnique (cuid g) db) then (Throw unique_violation, db)
    else if negb (is_some (ttfu_findUnique ttfuId db))
            || negb (is_some (user_findUnique submittedById db))
    then (Throw foreign_key_violation, db)
    else
      let row := {| evidence_id := cuid g; evidence_ttfuId := ttfuId;
                    evidence_type := type; evidence_url := url;
                    evidence_filePath := filePath;
                    evidence_description := description;
                    evidence_submittedById := submittedById;
                    evidence_createdAt := now g |} in
      (Val row, with_evidences db (evidences db ++ [row])).

(** [prisma.review.create({ data })] *)
Definition review_create {R} (g : Gen) (evidenceId reviewerId : string)
    (status : ReviewStatus) (comment : option string) : M R Review :=
  fun db =>
    if is_some (review_findUnique (cuid g) db) then (Throw unique_violation, db)
    else if negb (is_some (evidence_findUnique evidenceId db))
            || negb (is_some (user_findUnique reviewerId db))
    then (Throw foreign_key_violation, db)
    else
      let row := {| review_id := cuid g; review_evidenceId := evidenceId;
                    review_reviewerId := reviewerId; review_status := status;
                    review_comment := comment; review_createdAt := now g |} in
      (Val row, with_reviews db (reviews db ++ [row])).

(** *** [include] *)

Record ReviewView := {
  rv_review : Review;
  rv_reviewer : option User
}.

Record EvidenceView := {
  ev_evidence : Evidence;
  ev_submittedBy : option User;
  ev_reviews : list ReviewView
}.

(** A TTFU with its meeting, assignee and reviewer. *)
Record TTFUView := {
  tv_ttfu : TTFU;
  tv_meeting : option Meeting;
  tv_assignee : option User;
  tv_reviewer : option User
}.

(** The same with its evidences. *)
Record TTFUDetail := {
  td_ttfu : TTFUView;
  td_evidences : list EvidenceView
}.

(** [orderBy: { createdAt: "desc" }] *)
Fixpoint insert_desc {A} (key : A -> Z) (a : A) (l : list A) : list A :=
  match l with
  | [] => [a]
  | x :: rest =>
      if key x <=? key a then a :: x :: rest
      else x :: insert_desc key a rest
  end.

Definition orderBy_desc {A} (key : A -> Z) (l : list A) : list A :=
  fold_right (insert_desc key) [] l.

Definition include_reviewer (db : DB) (r : Review) : ReviewView :=
  {| rv_review := r; rv_reviewer := user_findUnique (review_reviewerId r) db |}.

Definition reviews_of (db : DB) (evidenceId : string) : list Review :=
  filter (fun r => (review_evidenceId r =? evidenceId)%string) (reviews db).

Definition include_evidence (db : DB) (e : Evidence) : EvidenceView :=
  {| ev_evidence := e;
     ev_submittedBy := user_findUnique (evidence_submittedById e) db;
     ev_reviews := map (include_reviewer db) (reviews_of db (evidence_id e)) |}.

Definition evidences_of (db : DB) (ttfuId : string) : list Evidence :=
  filter (fun e => (evidence_ttfuId e =? ttfuId)%string) (evidences db).

Definition include_ttfu (db : DB) (t : TTFU) : TTFUView :=
  {| tv_ttfu := t;
     tv_meeting := meeting_findUnique (ttfu_meetingId t) db;
     tv_assignee := user_findUnique (ttfu_assigneeId t) db;
     tv_reviewer := user_findUnique (ttfu_reviewerId t) db |}.

Definition include_ttfu_detail (db : DB) (t : TTFU) : TTFUDetail :=
  {| td_ttfu := include_ttfu db t;
     td_evidences :=
       map (include_evidence db)
           (orderBy_desc evidence_createdAt (evidences_of db (ttfu_id t))) |}.

(* ------------------------------------------------------------------ *)
(** ** The route handlers *)

Section Routes.

(** [z.string().url()] accepts what zod takes for a URL, and [new Date(s)]
    reads a date the way the JavaScript engine does ([None] is an invalid
    date); both are outside the repository. *)
Variable isURL : string -> bool.
Variable parseDate : string -> option Z.

Definition z_string_url_optional (v : option Json) : option (option string) :=
  match v with
  | None => Some None
  | Some (JStr s) => if isURL s then Some (Some s) else None
  | Some _ => None
  end.

(** [z.object({ type: z.enum(["link", "file"]), url: z.string().url().optional(),
    filePath: z.string().optional(), description: z.string().optional() })] *)
Definition createEvidenceSchema (body : Json) : list string + EvidenceInput :=
  match body with
  | JObj o =>
      let type := z_enum [("link", link); ("file", file)] (prop o "type") in
      let url := z_string_url_optional (prop o "url") in
      let filePath := z_string_optional (prop o "filePath") in
      let description := z_string_optional (prop o "description") in
      match type, url, filePath, description with
      | Some t, Some u, Some f, Some d =>
          inr {| ein_type := t; ein_url := u; ein_filePath := f;
                 ein_description := d |}
      | _, _, _, _ =>
          inl (issue "type" type ++ issue "url" url
               ++ issue "filePath" filePath ++ issue "description" description)%list
      end
  | _ => inl [""]
  end.

(** The [catch] of the POST routes. *)
Definition catch_route {R} (e : Exn) : Reply R + Exn :=
  match e with
  | ZodError issues => inl (JsonError 400 "Validation error" (Issues issues))
  | JsError m =>
      if includes "Can't reach database server" m
      then inl (JsonError 503 "Database connection error. Please try again later."
                  NoDetails)
      else inl (JsonError 500 "Internal server error" (Message m))
  end.

(** *** POST /api/ttfu *)

Definition spv_or_user (currentUser : option User) : bool :=
  match currentUser with
  | Some cu => GlobalRole_eqb (user_globalRole cu) SPV
               || GlobalRole_eqb (user_globalRole cu) USER
  | None => false
  end.

(** The auto assignment: the pair [(assigneeId, reviewerId)] after it. *)
Definition auto_assign {R} (currentUser : option User)
    (assigneeId reviewerId : option string)
  : M R (option string * option string) :=
  if falsy assigneeId || falsy reviewerId then
    match currentUser with
    | Some cu =>
        if spv_or_user currentUser then
          reviewer <- query (user_findFirst_globalRole_in [REVIEWER; ADMIN]) ;;
          ret (Some (user_id cu),
               Some (or_else (option_map user_id reviewer) (user_id cu)))
        else
          ret (Some (or_else assigneeId (or_else (Some (user_id cu)) "")),
               Some (or_else reviewerId (or_else (Some (user_id cu)) "")))
    | None =>
        ret (Some (or_else assigneeId (or_else None "")),
             Some (or_else reviewerId (or_else None "")))
    end
  else ret (assigneeId, reviewerId).

(** [validatedData.dueDate ? new Date(validatedData.dueDate) : null]; the
    outer [None] is an invalid date, which the client refuses to store. *)
Definition new_Date_or_null (dueDate : option string) : option (option Z) :=
  match dueDate with
  | Some s => if truthy s then option_map Some (parseDate s) else Some None
  | None => Some None
  end.

Definition dueDate_of {R} (dueDate : option string) : M R (option Z) :=
  match new_Date_or_null dueDate with
  | Some d => ret d
  | None => throw invalid_date
  end.

Definition POST_ttfu (g : Gen) (session : option Session) (body : option Json)
  : DB -> Reply TTFUView * DB :=
  try_catch
    (s <- require_session session ;;
     body <- request_json body ;;
     validatedData <- parse createTTFUSchema body ;;
     currentUser <- query (user_findUnique (session_user_id s)) ;;
     ids <- auto_assign currentUser (in_assigneeId validatedData)
                        (in_reviewerId validatedData) ;;
     let assigneeId := fst ids in
     let reviewerId := snd ids in
     return_if (falsy assigneeId || falsy reviewerId)
       (JsonError 400 "Unable to assign TTFU. No valid assignee or reviewer found."
          NoDetails) ;;
     dueDate <- dueDate_of (in_dueDate validatedData) ;;
     ttfu <- ttfu_create g (in_meetingId validatedData) (in_title validatedData)
               (in_description validatedData)
               (or_else assigneeId "") (or_else reviewerId "") dueDate ;;
     data <- query (fun db => include_ttfu db ttfu) ;;
     ret (Json200 data))
    catch_route.

(** *** POST /api/ttfu/[id]/evidence *)

Definition EvidenceType_eqb (a b : EvidenceType) : bool :=
  match a, b with
  | link, link | file, file => true
  | _, _ => false
  end.

Definition POST_evidence (g : Gen) (session : option Session) (id : string)
    (body : option Json) : DB -> Reply EvidenceView * DB :=
  try_catch
    (s <- require_session session ;;
     body <- request_json body ;;
     validatedData <- parse createEvidenceSchema body ;;
     ttfu <- query (ttfu_findUnique id) ;;
     return_if (negb (is_some ttfu)) (JsonError 404 "TTFU not found" NoDetails) ;;
     return_if (EvidenceType_eqb (ein_type validatedData) link
                && falsy (ein_url validatedData))
       (JsonError 400 "URL is required for link evidence" NoDetails) ;;
     return_if (EvidenceType_eqb (ein_type validatedData) file
                && falsy (ein_filePath validatedData))
       (JsonError 400 "File path is required for file evidence" NoDetails) ;;
     evidence <- evidence_create g id (ein_type validatedData)
                   (or_null (ein_url validatedData))
                   (or_null (ein_filePath validatedData))
                   (or_null (ein_description validatedData))
                   (session_user_id s) ;;
     data <- query (fun db => include_evidence db evidence) ;;
     ret (Json200 data))
    catch_route.

(** *** POST /api/ttfu/[id]/evidence/[evidenceId]/review *)

(** [evidence.ttfu.reviewerId], the TTFU being the one included in the
    evidence. *)
Definition ttfu_reviewerId_of {R} (e : Evidence) : M R string :=
  t <- query (ttfu_findUnique (evidence_ttfuId e)) ;;
  match t with
  | Some t => ret (ttfu_reviewerId t)
  | None => throw (JsError "Cannot read properties of null (reading 'reviewerId')")
  end.

Definition POST_review (g : Gen) (session : option Session)
    (id evidenceId : string) (body : option Json)
  : DB -> Reply ReviewView * DB :=
  try_catch
    (s <- require_session session ;;
     body <- request_json body ;;
     validatedData <- parse createReviewSchema body ;;
     return_if (negb (session_user_globalRole s =? "REVIEWER")%string
                && negb (session_user_globalRole s =? "ADMIN")%string)
       (JsonError 403 "Only reviewers and admins can review evidence" NoDetails) ;;
     evidence <- query (evidence_findUnique evidenceId) ;;
     match evidence with
     | None => respond (JsonError 404 "Evidence not found" NoDetails)
     | Some evidence =>
         reviewerId <- ttfu_reviewerId_of evidence ;;
         return_if (negb (reviewerId =? session_user_id s)%string
                    && negb (session_user_globalRole s =? "ADMIN")%string)
           (JsonError 403 "You are not the assigned reviewer for this TTFU"
              NoDetails) ;;
         existingReview <- query (review_findFirst evidenceId (session_user_id s)) ;;
         return_if (is_some existingReview)
           (JsonError 400 "You have already reviewed this evidence" NoDetails) ;;
         review <- review_create g evidenceId (session_user_id s)
                     (rev_status validatedData)
                     (or_null (rev_comment validatedData)) ;;
         data <- query (fun db => include_reviewer db review) ;;
         ret (Json200 data)
     end)
    catch_route.

(** *** GET and PATCH /api/ttfu/[id] *)

Definition GET_ttfu (session : option Session) (id : string)
  : DB -> Reply TTFUDetail * DB :=
  try_catch
    (s <- require_session session ;;
     ttfu <- query (ttfu_findUnique id) ;;
     match ttfu with
     | None => respond (JsonError 404 "TTFU not found" NoDetails)
     | Some t =>
         data <- query (fun db => include_ttfu_detail db t) ;;
         ret (Json200 data)
     end)
    (fun _ => inl (JsonError 500 "Internal server error" NoDetails)).

(** The names a module binds: its imports and its own declarations.
    Evaluating a name the module does not bind throws a [ReferenceError]. *)
Definition bound (scope : list string) (name : string) : bool :=
  existsb (String.eqb name) scope.

Definition reference {R} (scope : list string) (name : string) : M R unit :=
  if bound scope name then ret tt
  else throw (JsError (name ++ " is not defined")).

(** The handler in a module that binds the names of [scope]. The schema is
    built from [z] inside the [try]; the [catch] names [z.ZodError]. *)
Definition PATCH_ttfu_in (scope : list string) (g : Gen)
    (session : option Session) (id : string) (body : option Json)
  : DB -> Reply TTFUDetail * DB :=
  try_catch
    (s <- require_session session ;;
     body <- request_json body ;;
     reference scope "z" ;;
     validatedData <- parse updateSchema body ;;
     existingTTFU <- query (ttfu_findUnique id) ;;
     return_if (negb (is_some existingTTFU))
       (JsonError 404 "TTFU not found" NoDetails) ;;
     updatedTTFU <- ttfu_update_status g id (upd_status validatedData) ;;
     data <- query (fun db => include_ttfu_detail db updatedTTFU) ;;
     ret (Json200 data))
    (fun e =>
       if bound scope "z" then
         match e with
         | ZodError issues =>
             inl (JsonError 400 "Validation error" (Issues issues))
         | JsError _ => inl (JsonError 500 "Internal server error" NoDetails)
         end
       else inr (JsError "z is not defined")).

(** What the module of this route imports: [NextRequest] and [NextResponse]
    from "next/server", [getServerSession], [authOptions] and [prisma]. *)
Definition route_imports : list string :=
  ["NextRequest"; "NextResponse"; "getServerSession"; "authOptions"; "prisma"].

Definition PATCH_ttfu := PATCH_ttfu_in route_imports.

End Routes.

(* ------------------------------------------------------------------ *)
(** ** The seeded database *)

(** The rows the seed script creates, in the order it creates them. *)
Module Seed.

Definition admin : User :=
  {| user_id := "u_admin"; user_name := "Admin User";
     user_email := "admin@example.com"; user_globalRole := ADMIN |}.
Definition spv : User :=
  {| user_id := "u_spv"; user_name := "Supervisor User";
     user_email := "spv@example.com"; user_globalRole := SPV |}.
Definition reviewer : User :=
  {| user_id := "u_reviewer"; user_name := "Reviewer User";
     user_email := "reviewer@example.com"; user_globalRole := REVIEWER |}.
Definition user : User :=
  {| user_id := "u_user"; user_name := "Regular User";
     user_email := "user@example.com"; user_globalRole := USER |}.

Definition meeting : Meeting :=
  {| meeting_id := "m_weekly"; meeting_title := "Weekly Team Meeting";
     meeting_date := 1705312800000; meeting_createdById := "u_spv" |}.

Definition ttfu1 : TTFU :=
  {| ttfu_id := "t_docs"; ttfu_meetingId := "m_weekly";
     ttfu_title := "Complete project documentation";
     ttfu_description :=
       Some "Update all project documentation and share with team";
     ttfu_assigneeId := "u_user"; ttfu_reviewerId := "u_reviewer";
     ttfu_status := OPEN; ttfu_dueDate := Some 1705942800000;
     ttfu_createdAt := 1705000000005; ttfu_updatedAt := 1705000000005 |}.

Definition ttfu2 : TTFU :=
  {| ttfu_id := "t_code"; ttfu_meetingId := "m_weekly";
     ttfu_title := "Review code changes";
     ttfu_description := Some "Review and approve pending code changes";
     ttfu_assigneeId := "u_reviewer"; ttfu_reviewerId := "u_spv";
     ttfu_status := IN_PROGRESS; ttfu_dueDate := Some 1705770000000;
     ttfu_createdAt := 1705000000006; ttfu_updatedAt := 1705000000006 |}.

Definition evidence : Evidence :=
  {| evidence_id := "e_docs"; evidence_ttfuId := "t_docs";
     evidence_type := link;
     evidence_url := Some "https://docs.google.com/document/d/example";
     evidence_filePath := None;
     evidence_description := Some "Updated project documentation link";
     evidence_submittedById := "u_user";
     evidence_createdAt := 1705000000007 |}.

Definition review : Review :=
  {| review_id := "r_docs"; review_evidenceId := "e_docs";
     review_reviewerId := "u_reviewer"; review_status := approved;
     review_comment := Some "Documentation looks good and comprehensive";
     review_createdAt := 1705000000008 |}.

Definition db : DB :=
  {| users := [admin; spv; reviewer; user];
     meetings := [meeting];
     ttfus := [ttfu1; ttfu2];
     evidences := [evidence];
     reviews := [review] |}.

(** A directory without a reviewer or an admin. *)
Definition db_no_reviewer : DB :=
  {| users := [spv; user]; meetings := [meeting];
     ttfus := []; evidences := []; reviews := [] |}.

Definition session_of (u : User) : Session :=
  {| session_user_id := user_id u;
     session_user_globalRole := GlobalRole_name (user_globalRole u) |}.

(** A URL check and a date reader to run the handlers with: the first
    takes what starts with [http://] or [https://], the second reads
    nothing. *)
Definition isURL (s : string) : bool :=
  String.prefix "https://" s || String.prefix "http://" s.

Definition parseDate (s : string) : option Z := None.

(** Requests to run the handlers with. *)
Definition g_new : Gen := {| cuid := "c_new"; now := 1705000009000 |}.
Definition g_evidence : Gen := {| cuid := "c_evidence"; now := 1705000010000 |}.
Definition g_review : Gen := {| cuid := "c_review"; now := 1705000011000 |}.

Definition approve : Json :=
  JObj [("status", JStr "approved"); ("comment", JStr "ok")].
Definition approve_input : ReviewInput :=
  {| rev_status := approved; rev_comment := Some "ok" |}.
Definition undecided : Json := JObj [("status", JStr "maybe")].

Definition new_ttfu_body : Json :=
  JObj [("meetingId", JStr "m_weekly"); ("title", JStr "Prepare the demo")].
Definition new_ttfu_input : TTFUInput :=
  {| in_meetingId := "m_weekly"; in_title := "Prepare the demo";
     in_description := None; in_assigneeId := None; in_reviewerId := None;
     in_dueDate := None |}.

Definition link_props : list (string * Json) :=
  [("type", JStr "link"); ("url", JStr "https://example.com/report")].
Definition malformed_link_props : list (string * Json) :=
  [("type", JStr "link"); ("url", JStr "not a url")].
Definition link_and_file_props : list (string * Json) :=
  [("type", JStr "link"); ("url", JStr "https://example.com/report");
   ("filePath", JStr "uploads/report.pdf")].

Definition link_input : EvidenceInput :=
  {| ein_type := link; ein_url := Some "https://example.com/report";
     ein_filePath := None; ein_description := None |}.
Definition link_and_file_input : EvidenceInput :=
  {| ein_type := link; ein_url := Some "https://example.com/report";
     ein_filePath := Some "uploads/report.pdf"; ein_description := None |}.

Definition done_body : Json := JObj [("status", JStr "DONE")].

(** The reviewer creates a TTFU without naming anybody, then submits
    evidence for it. *)
Definition db_created : DB :=
  snd (POST_ttfu parseDate g_new (Some (session_of reviewer))
         (Some new_ttfu_body) db).
Definition db_submitted : DB :=
  snd (POST_evidence isURL g_evidence (Some (session_of reviewer)) "c_new"
         (Some (JObj link_props)) db_created).

End Seed.

(* ------------------------------------------------------------------ *)
(** ** GET /api/ttfu and the reviewer dashboard that reads it *)

(** A number as the listing meets it: [parseInt] yields an integer, an
    infinity or [NaN], and the arithmetic of the route keeps to these
    (doubles are exact on the integers below 2^53; a zero stands for both
    zeros, which no answer tells apart). *)
Inductive Num :=
| NaN
| Infinity (negative : bool)
| Int (z : Z).

(** [n - 1] *)
Definition num_pred (n : Num) : Num :=
  match n with
  | Int z => Int (z - 1)
  | other => other
  end.

(** [a * b] *)
Definition num_mul (a b : Num) : Num :=
  match a, b with
  | NaN, _ | _, NaN => NaN
  | Int x, Int y => Int (x * y)
  | Infinity na, Infinity nb => Infinity (xorb na nb)
  | Infinity n, Int z | Int z, Infinity n =>
      if z =? 0 then NaN else Infinity (xorb n (z <? 0))
  end.

(** [Math.ceil(total / limit)] for a count [total]. *)
Definition ceil_div (total : Z) (limit : Num) : Num :=
  match limit with
  | NaN => NaN
  | Infinity _ => Int 0
  | Int l =>
      if l =? 0 then (if total =? 0 then NaN else Infinity false)
      else Int (- ((- total) / l))
  end.

(** A number in a JSON answer: [NaN] and the infinities are written
    [null]. *)
Definition json_number (n : Num) : option Z :=
  match n with
  | Int z => Some z
  | _ => None
  end.

(** The search parameters the route reads: [searchParams.get(name)], [None]
    for [null]. *)
Record Query := {
  q_meetingId : option string;
  q_status : option string;
  q_assigneeId : option string;
  q_reviewerId : option string;
  q_page : option string;
  q_limit : option string
}.

(** An evidence with its reviews, and a TTFU of the list with its
    evidences. *)
Record EvidenceReviews := {
  er_evidence : Evidence;
  er_reviews : list ReviewView
}.

Record TTFUListItem := {
  li_ttfu : TTFUView;
  li_evidences : list EvidenceReviews
}.

Record Pagination := {
  pg_total : Z;
  pg_page : option Z;
  pg_limit : option Z;
  pg_totalPages : option Z
}.

Record TTFUPage := {
  page_data : list TTFUListItem;
  page_pagination : Pagination
}.

Definition include_reviews (db : DB) (e : Evidence) : EvidenceReviews :=
  {| er_evidence := e;
     er_reviews := map (include_reviewer db) (reviews_of db (evidence_id e)) |}.

Definition include_list_item (db : DB) (t : TTFU) : TTFUListItem :=
  {| li_ttfu := include_ttfu db t;
     li_evidences := map (include_reviews db) (evidences_of db (ttfu_id t)) |}.

(** [if (v) where.field = v]: the row passes when the parameter is absent
    or empty, or equal to the field. *)
Definition passes (v : option string) (field : string) : bool :=
  match or_null v with
  | Some x => (field =? x)%string
  | None => true
  end.

(** The status of the [where], which the client checks against the enum of
    the schema. *)
Definition where_status (v : option string) : Exn + option TtfuStatus :=
  match or_null v with
  | None => inr None
  | Some name =>
      match assoc [("OPEN", OPEN); ("IN_PROGRESS", IN_PROGRESS);
                   ("DONE", DONE); ("REJECTED", REJECTED)] name with
      | Some st => inr (Some st)
      | None =>
          inl (JsError "Invalid value for argument `status`. Expected TtfuStatus.")
      end
  end.

Definition TtfuStatus_eqb (a b : TtfuStatus) : bool :=
  match a, b with
  | OPEN, OPEN | IN_PROGRESS, IN_PROGRESS | DONE, DONE | REJECTED, REJECTED => true
  | _, _ => false
  end.

Definition where_matches (q : Query) (status : option TtfuStatus) (t : TTFU) : bool :=
  passes (q_meetingId q) (ttfu_meetingId t)
  && match status with
     | Some st => TtfuStatus_eqb (ttfu_status t) st
     | None => true
     end
  && passes (q_assigneeId q) (ttfu_assigneeId t)
  && passes (q_reviewerId q) (ttfu_reviewerId t).

(** A [skip] or [take] the database takes as a row count. *)
Definition row_count (n : Num) : option nat :=
  match n with
  | Int z => if (0 <=? z) && (z <? 2 ^ 31) then Some (Z.to_nat z) else None
  | _ => None
  end.

Section Listing.

(** [parseInt] of the JavaScript engine, and what the Prisma client does
    with a [skip] or a [take] that is no row count (negative, beyond 32
    bits, infinite or [NaN]); both are outside the repository. *)
Variable parseInt : string -> Num.
Variable findMany_irregular : Num -> Num -> list TTFU -> Exn + list TTFU.

(** [prisma.tTFU.findMany({ where, orderBy: { createdAt: "desc" }, skip, take })] *)
Definition ttfu_findMany {R} (q : Query) (skip take : Num) : M R (list TTFU) :=
  fun db =>
    match where_status (q_status q) with
    | inl e => (Throw e, db)
    | inr status =>
        let rows := orderBy_desc ttfu_createdAt
                      (filter (where_matches q status) (ttfus db)) in
        match row_count skip, row_count take with
        | Some s, Some t => (Val (firstn t (skipn s rows)), db)
        | _, _ =>
            match findMany_irregular skip take rows with
            | inl e => (Throw e, db)
            | inr page => (Val page, db)
            end
        end
    end.

(** [prisma.tTFU.count({ where })] *)
Definition ttfu_count {R} (q : Query) : M R Z :=
  fun db =>
    match where_status (q_status q) with
    | inl e => (Throw e, db)
    | inr status =>
        (Val (Z.of_nat (length (filter (where_matches q status) (ttfus db)))), db)
    end.

Definition GET_ttfus (session : option Session) (q : Query)
  : DB -> Reply TTFUPage * DB :=
  try_catch
    (s <- require_session session ;;
     let page := parseInt (or_else (q_page q) "1") in
     let limit := parseInt (or_else (q_limit q) "10") in
     let skip := num_mul (num_pred page) limit in
     ttfus <- ttfu_findMany q skip limit ;;
     total <- ttfu_count q ;;
     data <- query (fun db => map (include_list_item db) ttfus) ;;
     let totalPages := ceil_div total limit in
     ret (Json200
            {| page_data := data;
               page_pagination :=
                 {| pg_total := total; pg_page := json_number page;
                    pg_limit := json_number limit;
                    pg_totalPages := json_number totalPages |} |}))
    (fun _ => inl (JsonError 500 "Internal server error" NoDetails)).

End Listing.

(** The rows a [where] selects, newest first. *)
Definition selected (q : Query) (status : option TtfuStatus) (db : DB) : list TTFU :=
  orderBy_desc ttfu_createdAt (filter (where_matches q status) (ttfus db)).

(** The request of [fetch("/api/ttfu")]: no search parameter. *)
Definition no_params : Query :=
  {| q_meetingId := None; q_status := None; q_assigneeId := None;
     q_reviewerId := None; q_page := None; q_limit := None |}.

(** A query with every empty parameter left out. *)
Definition without_empty (q : Query) : Query :=
  {| q_meetingId := or_null (q_meetingId q); q_status := or_null (q_status q);
     q_assigneeId := or_null (q_assigneeId q);
     q_reviewerId := or_null (q_reviewerId q);
     q_page := or_null (q_page q); q_limit := or_null (q_limit q) |}.

(** Two queries with the same filters. *)
Definition same_filters (q q' : Query) : Prop :=
  q_meetingId q' = q_meetingId q /\ q_status q' = q_status q
  /\ q_assigneeId q' = q_assigneeId q /\ q_reviewerId q' = q_reviewerId q.

(** The TTFUs an answer lists. *)
Definition listed (r : Reply TTFUPage) : list TTFU :=
  match r with
  | Json200 pg => map (fun item => tv_ttfu (li_ttfu item)) (page_data pg)
  | _ => []
  end.

(** *** The reviewer dashboard *)

(** [l.filter(f)] and [l.some(f)] for a callback that may throw ([None]):
    [filter] calls it on every element, [some] stops at the first hit. *)
Fixpoint filter_throwing {A} (f : A -> option bool) (l : list A)
  : option (list A) :=
  match l with
  | [] => Some []
  | x :: rest =>
      match f x with
      | None => None
      | Some keep =>
          match filter_throwing f rest with
          | None => None
          | Some kept => Some (if keep then x :: kept else kept)
          end
      end
  end.

Fixpoint some_throwing {A} (f : A -> option bool) (l : list A) : option bool :=
  match l with
  | [] => Some false
  | x :: rest =>
      match f x with
      | None => None
      | Some true => Some true
      | Some false => some_throwing f rest
      end
  end.

(** [ttfu.reviewer.id === userId]; reading [id] of a reviewer that is
    [null] throws. *)
Definition reviewer_is (userId : string) (item : TTFUListItem) : option bool :=
  match tv_reviewer (li_ttfu item) with
  | Some u => Some (user_id u =? userId)%string
  | None => None
  end.

(** [evidence.reviews.some(review => review.reviewer.id === userId)] *)
Definition reviewed_by (userId : string) (ev : EvidenceReviews) : option bool :=
  some_throwing
    (fun r => match rv_reviewer r with
              | Some u => Some (user_id u =? userId)%string
              | None => None
              end)
    (er_reviews ev).

Definition not_reviewed_by (userId : string) (ev : EvidenceReviews) : option bool :=
  option_map negb (reviewed_by userId ev).

Definition assignedTTFUs (userRole userId : string) (ttfuList : list TTFUListItem)
  : option (list TTFUListItem) :=
  filter_throwing
    (fun item => if (userRole =? "ADMIN")%string then Some true
                 else reviewer_is userId item)
    ttfuList.

Definition pendingReviewTTFUs (userRole userId : string)
    (ttfuList : list TTFUListItem) : option (list TTFUListItem) :=
  match assignedTTFUs userRole userId ttfuList with
  | Some assigned =>
      filter_throwing
        (fun item => some_throwing (not_reviewed_by userId) (li_evidences item))
        assigned
  | None => None
  end.

Definition pendingEvidences (userId : string) (item : TTFUListItem)
  : option (list EvidenceReviews) :=
  filter_throwing (not_reviewed_by userId) (li_evidences item).

(** [ttfuData?.data || []] for the answer to [fetch("/api/ttfu")]. *)
Definition ttfuList_of (r : Reply TTFUPage) : list TTFUListItem :=
  match r with
  | Json200 pg => page_data pg
  | _ => []
  end.

(* ------------------------------------------------------------------ *)
(** ** The pages that call the routes *)

(** *** The form that creates a TTFU under a meeting *)

(** A user as [/api/users] lists them. *)
Record ListedUser := {
  lu_id : string;
  lu_name : string;
  lu_email : string;
  lu_globalRole : string
}.

(** The values of the form: the title, and the description and due date
    when the form has them. *)
Record TTFUForm := {
  form_title : string;
  form_description : option string;
  form_dueDate : option string
}.

(** The ids [onSubmit] works out: [(assigneeId, reviewerId)]. *)
Definition form_ids (users : list ListedUser) (sessionUserId : option string)
  : string * string :=
  let currentUser :=
    match sessionUserId with
    | Some id => find (fun u => (lu_id u =? id)%string) users
    | None => None
    end in
  let currentUserRole := or_else (option_map lu_globalRole currentUser) "user" in
  if (currentUserRole =? "supervisor")%string || (currentUserRole =? "user")%string
  then
    let reviewer :=
      find (fun u => (lu_globalRole u =? "manager")%string
                     || (lu_globalRole u =? "admin")%string) users in
    (or_else (option_map lu_id currentUser) "",
     or_else (option_map lu_id reviewer) "")
  else
    (or_else (option_map lu_id currentUser) "",
     or_else (option_map lu_id currentUser) "").

Definition optional_prop (k : string) (v : option string) : list (string * Json) :=
  match v with
  | Some x => [(k, JStr x)]
  | None => []
  end.

(** [JSON.stringify({ ...data, meetingId, assigneeId, reviewerId })] as the
    route reads it back. *)
Definition form_body (data : TTFUForm) (meetingId : string) (ids : string * string)
  : Json :=
  JObj ([("title", JStr (form_title data))]
        ++ optional_prop "description" (form_description data)
        ++ optional_prop "dueDate" (form_dueDate data)
        ++ [("meetingId", JStr meetingId); ("assigneeId", JStr (fst ids));
            ("reviewerId", JStr (snd ids))])%list.

(** *** The form that submits evidence *)

(** [JSON.stringify({ ...data, type: evidenceType })] with the two inputs
    the form registers and [evidenceType = "link"]. *)
Definition evidence_form_body (url description : string) : Json :=
  JObj [("type", JStr "link"); ("url", JStr url); ("description", JStr description)].

(** *** The page that reviews an evidence *)

Definition canReview (userRole : string) : bool :=
  (userRole =? "REVIEWER")%string || (userRole =? "ADMIN")%string.

(** [ttfu?.data?.evidences?.find(e => e.id === evidenceId)] on the answer
    of [GET /api/ttfu/[id]]. *)
Definition page_evidence (r : Reply TTFUDetail) (evidenceId : string)
  : option EvidenceView :=
  match r with
  | Json200 detail =>
      find (fun v => (evidence_id (ev_evidence v) =? evidenceId)%string)
           (td_evidences detail)
  | _ => None
  end.

(** *** The badges *)

Definition getStatusColor (status : string) : string :=
  if (status =? "OPEN")%string then "bg-gray-100 text-gray-800"
  else if (status =? "IN_PROGRESS")%string then "bg-yellow-100 text-yellow-800"
  else if (status =? "DONE")%string then "bg-green-100 text-green-800"
  else if (status =? "REJECTED")%string then "bg-red-100 text-red-800"
  else if (status =? "approved")%string then "bg-green-100 text-green-800"
  else if (status =? "rejected")%string then "bg-red-100 text-red-800"
  else if (status =? "needs_revision")%string then "bg-orange-100 text-orange-800"
  else "bg-gray-100 text-gray-800".

Definition getRoleColor (role : string) : string :=
  if (role =? "ADMIN")%string then "bg-purple-100 text-purple-800"
  else if (role =? "SPV")%string then "bg-blue-100 text-blue-800"
  else if (role =? "REVIEWER")%string then "bg-orange-100 text-orange-800"
  else if (role =? "USER")%string then "bg-gray-100 text-gray-800"
  else "bg-gray-100 text-gray-800".

Definition ReviewStatus_name (st : ReviewStatus) : string :=
  match st with
  | approved => "approved" | rejected => "rejected"
  | needs_revision => "needs_revision"
  end.

(* ------------------------------------------------------------------ *)
(** ** Signing in *)

(** The credentials of the form, the object [authorize] returns, the
    token and the user of the session. *)
Record Credentials := {
  cred_email : option string;
  cred_password : option string
}.

Record AuthUser := {
  au_id : string;
  au_email : string;
  au_name : string;
  au_globalRole : string
}.

Record Token := {
  token_sub : option string;
  token_globalRole : option string
}.

Record SessionUser := {
  su_name : option string;
  su_email : option string;
  su_image : option string;
  su_id : option string;
  su_globalRole : option string
}.

Section Auth.

(** The [passwordHash] column of a user, which the rows above leave out,
    and [bcrypt.compare]. *)
Variable passwordHash : User -> option string.
Variable bcrypt_compare : string -> string -> bool.

(** [prisma.user.findUnique({ where: { email } })] *)
Definition user_findUnique_email (email : string) (db : DB) : option User :=
  find (fun u => (user_email u =? email)%string) (users db).

Definition authorize (credentials : option Credentials) (db : DB)
  : option AuthUser :=
  match credentials with
  | None => None
  | Some c =>
      if falsy (cred_email c) || falsy (cred_password c) then None
      else
        match user_findUnique_email (or_else (cred_email c) "") db with
        | None => None
        | Some u =>
            if falsy (passwordHash u) then None
            else if bcrypt_compare (or_else (cred_password c) "")
                      (or_else (passwordHash u) "")
            then Some {| au_id := user_id u; au_email := user_email u;
                         au_name := user_name u;
                         au_globalRole := GlobalRole_name (user_globalRole u) |}
            else None
        end
  end.

End Auth.

(** The [jwt] callback: the role is copied into the token when a user
    signs in. *)
Definition jwt (token : Token) (user : option AuthUser) : Token :=
  match user with
  | Some u => {| token_sub := token_sub token;
                 token_globalRole := Some (au_globalRole u) |}
  | None => token
  end.

(** The [session] callback. *)
Definition session_callback (user : SessionUser) (token : option Token)
  : SessionUser :=
  match token with
  | Some t => {| su_name := su_name user; su_email := su_email user;
                 su_image := su_image user; su_id := token_sub t;
                 su_globalRole := token_globalRole t |}
  | None => user
  end.

(** The session as the routes read it: an absent id is as falsy as the
    empty one, an absent role as different from every role name. *)
Definition session_for_routes (user : SessionUser) : Session :=
  {| session_user_id := match su_id user with Some id => id | None => "" end;
     session_user_globalRole :=
       match su_globalRole user with Some r => r | None => "" end |}.

(* ------------------------------------------------------------------ *)
(** ** Joining a meeting *)

Inductive MeetingRole := spv_role | reviewer_role | participant_role.

Record MeetingParticipant := {
  mp_id : string;
  mp_meetingId : string;
  mp_userId : string;
  mp_role : MeetingRole;
  mp_createdAt : Z
}.

(** The tables above with the participants of the meetings. *)
Record Store := {
  store_db : DB;
  participants : list MeetingParticipant
}.

Record ParticipantView := {
  pv_participant : MeetingParticipant;
  pv_user : option User
}.

(** [z.object({ role: z.enum(["spv", "reviewer", "participant"]) })] *)
Definition joinMeetingSchema (body : Json) : list string + MeetingRole :=
  match body with
  | JObj o =>
      let role := z_enum [("spv", spv_role); ("reviewer", reviewer_role);
                          ("participant", participant_role)] (prop o "role") in
      match role with
      | Some r => inr r
      | None => inl (issue "role" role)
      end
  | _ => inl [""]
  end.

(** [prisma.meetingParticipant.findUnique({ where: { meetingId_userId } })] *)
Definition participant_findUnique (meetingId userId : string) (st : Store)
  : option MeetingParticipant :=
  find (fun p => (mp_meetingId p =? meetingId)%string
                 && (mp_userId p =? userId)%string) (participants st).

(** [prisma.meetingParticipant.create({ data })]: the row, or the error of
    the key that refuses it. *)
Definition participant_create (g : Gen) (meetingId userId : string)
    (role : MeetingRole) (st : Store) : Exn + MeetingParticipant :=
  if existsb (fun p => (mp_id p =? cuid g)%string) (participants st)
  then inl unique_violation
  else if is_some (participant_findUnique meetingId userId st)
  then inl (JsError "Unique constraint failed on the fields: (`meetingId`,`userId`)")
  else if negb (is_some (meeting_findUnique meetingId (store_db st)))
          || negb (is_some (user_findUnique userId (store_db st)))
  then inl foreign_key_violation
  else inr {| mp_id := cuid g; mp_meetingId := meetingId; mp_userId := userId;
              mp_role := role; mp_createdAt := now g |}.

(** POST /api/meetings/[id]/join. The session is only checked for being
    there. *)
Definition POST_join (g : Gen) (session : option Session) (id : string)
    (body : option Json) (st : Store) : Reply ParticipantView * Store :=
  match session with
  | None => (JsonError 401 "Unauthorized" NoDetails, st)
  | Some s =>
      match body with
      | None => (JsonError 500 "Internal server error" NoDetails, st)
      | Some b =>
          match joinMeetingSchema b with
          | inl issues => (JsonError 400 "Validation error" (Issues issues), st)
          | inr role =>
              if is_some (participant_findUnique id (session_user_id s) st)
              then (JsonError 400 "Already a participant in this meeting"
                      NoDetails, st)
              else
                match participant_create g id (session_user_id s) role st with
                | inl _ => (JsonError 500 "Internal server error" NoDetails, st)
                | inr row =>
                    (Json200
                       {| pv_participant := row;
                          pv_user := user_findUnique (mp_userId row) (store_db st) |},
                     {| store_db := store_db st;
                        participants := participants st ++ [row] |})
                end
          end
      end
  end.

(** A user is in a meeting at most once. *)
Definition joined_once (st : Store) : Prop :=
  NoDup (map (fun p => (mp_meetingId p, mp_userId p)) (participants st)).

(* ------------------------------------------------------------------ *)
(** ** Review calls that overlap *)

(** The review route awaits each of its lookups and its insert, and runs
    them in no transaction: between the lookup of an existing review and
    the insert another request can be served. The handler in two parts,
    cut at that point: its checks, which end in the caller and the
    validated body, and the insert with its answer. *)
Definition review_checks (session : option Session) (id evidenceId : string)
    (body : option Json) : M ReviewView (Session * ReviewInput) :=
  s <- require_session session ;;
  body <- request_json body ;;
  validatedData <- parse createReviewSchema body ;;
  return_if (negb (session_user_globalRole s =? "REVIEWER")%string
             && negb (session_user_globalRole s =? "ADMIN")%string)
    (JsonError 403 "Only reviewers and admins can review evidence" NoDetails) ;;
  evidence <- query (evidence_findUnique evidenceId) ;;
  match evidence with
  | None => respond (JsonError 404 "Evidence not found" NoDetails)
  | Some evidence =>
      reviewerId <- ttfu_reviewerId_of evidence ;;
      return_if (negb (reviewerId =? session_user_id s)%string
                 && negb (session_user_globalRole s =? "ADMIN")%string)
        (JsonError 403 "You are not the assigned reviewer for this TTFU"
           NoDetails) ;;
      existingReview <- query (review_findFirst evidenceId (session_user_id s)) ;;
      return_if (is_some existingReview)
        (JsonError 400 "You have already reviewed this evidence" NoDetails) ;;
      ret (s, validatedData)
  end.

Definition review_insert (g : Gen) (evidenceId : string)
    (checked : Session * ReviewInput) : M ReviewView (Reply ReviewView) :=
  review <- review_create g evidenceId (session_user_id (fst checked))
              (rev_status (snd checked))
              (or_null (rev_comment (snd checked))) ;;
  data <- query (fun db => include_reviewer db review) ;;
  ret (Json200 data).

(** A call whose checks came out as [checked] goes on, on the tables as
    they are by then. *)
Definition review_resume (g : Gen) (evidenceId : string)
    (checked : Outcome ReviewView (Session * ReviewInput))
  : DB -> Reply ReviewView * DB :=
  try_catch
    (c <- (fun db => (checked, db)) ;; review_insert g evidenceId c)
    catch_route.

(** Two calls of which the second makes its checks before the first
    inserts: the two answers and the tables after both. *)
Definition overlapping_reviews (g1 g2 : Gen) (session1 session2 : option Session)
    (id1 id2 evidenceId1 evidenceId2 : string) (body1 body2 : option Json)
    (db : DB) : (Reply ReviewView * Reply ReviewView) * DB :=
  let checked1 := review_checks session1 id1 evidenceId1 body1 db in
  let checked2 := review_checks session2 id2 evidenceId2 body2 (snd checked1) in
  let done1 := review_resume g1 evidenceId1 (fst checked1) (snd checked2) in
  let done2 := review_resume g2 evidenceId2 (fst checked2) (snd done1) in
  ((fst done1, fst done2), snd done2).

(* ------------------------------------------------------------------ *)
(** ** The keys of the schema *)

(** The primary keys are unique and every reference finds its row. *)
Record integrity (db : DB) : Prop := {
  users_pk : NoDup (map user_id (users db));
  meetings_pk : NoDup (map meeting_id (meetings db));
  ttfus_pk : NoDup (map ttfu_id (ttfus db));
  evidences_pk : NoDup (map evidence_id (evidences db));
  reviews_pk : NoDup (map review_id (reviews db));
  ttfu_fk : forall t, In t (ttfus db) ->
      is_some (meeting_findUnique (ttfu_meetingId t) db) = true
      /\ is_some (user_findUnique (ttfu_assigneeId t) db) = true
      /\ is_some (user_findUnique (ttfu_reviewerId t) db) = true;
  evidence_fk : forall e, In e (evidences db) ->
      is_some (ttfu_findUnique (evidence_ttfuId e) db) = true
      /\ is_some (user_findUnique (evidence_submittedById e) db) = true;
  review_fk : forall r, In r (reviews db) ->
      is_some (evidence_findUnique (review_evidenceId r) db) = true
      /\ is_some (user_findUnique (review_reviewerId r) db) = true
}.

(* ------------------------------------------------------------------ *)
(** ** More of the seeded database *)

Module Examples.

Import Seed.

(** Stand-ins to run the routes with: a [parseInt] that reads plain
    decimal numerals, a client that refuses every irregular page, a hash
    that is the password behind a prefix. *)
Definition digit (c : ascii) : option Z :=
  let n := Z.of_nat (nat_of_ascii c) in
  if (48 <=? n) && (n <=? 57) then Some (n - 48) else None.

Fixpoint digits (acc : Z) (s : string) : option Z :=
  match s with
  | EmptyString => Some acc
  | String c rest =>
      match digit c with
      | Some d => digits (10 * acc + d) rest
      | None => None
      end
  end.

Definition parseInt (s : string) : Num :=
  match s with
  | EmptyString => NaN
  | _ => match digits 0 s with Some z => Int z | None => NaN end
  end.

Definition findMany_irregular (skip take : Num) (rows : list TTFU)
  : Exn + list TTFU :=
  inl (JsError "Invalid value provided for skip or take").

Definition passwordHash (u : User) : option string :=
  Some ("hash of " ++ user_name u).

Definition bcrypt_compare (password hash : string) : bool :=
  (hash =? "hash of " ++ password)%string.

Definition nobody : Session :=
  {| session_user_id := "u_ghost"; session_user_globalRole := "USER" |}.

(** Bodies that name users. *)
Definition named_body : Json :=
  JObj [("meetingId", JStr "m_weekly"); ("title", JStr "Book the room");
        ("assigneeId", JStr "u_user"); ("reviewerId", JStr "u_reviewer")].
Definition named_input : TTFUInput :=
  {| in_meetingId := "m_weekly"; in_title := "Book the room";
     in_description := None; in_assigneeId := Some "u_user";
     in_reviewerId := Some "u_reviewer"; in_dueDate := None |}.
Definition assignee_only_body : Json :=
  JObj [("meetingId", JStr "m_weekly"); ("title", JStr "Book the room");
        ("assigneeId", JStr "u_user")].
Definition assignee_only_input : TTFUInput :=
  {| in_meetingId := "m_weekly"; in_title := "Book the room";
     in_description := None; in_assigneeId := Some "u_user";
     in_reviewerId := None; in_dueDate := None |}.

Definition file_without_path : Json := JObj [("type", JStr "file")].
Definition file_without_path_input : EvidenceInput :=
  {| ein_type := file; ein_url := None; ein_filePath := None;
     ein_description := None |}.
Definition file_with_bad_url : list (string * Json) :=
  [("type", JStr "file"); ("filePath", JStr "uploads/a.pdf");
   ("url", JStr "see attachment")].

(** Queries. *)
Definition open_page (page : string) : Query :=
  {| q_meetingId := Some "m_weekly"; q_status := None; q_assigneeId := None;
     q_reviewerId := None; q_page := Some page; q_limit := Some "1" |}.
Definition ask (p : Z) : Query := open_page (if p =? 1 then "1" else "2").
Definition lowercase_status : Query :=
  {| q_meetingId := None; q_status := Some "done"; q_assigneeId := None;
     q_reviewerId := None; q_page := None; q_limit := None |}.

(** The reviewer, assignee of the second TTFU of the seed, submits
    evidence for it; its reviewer is the supervisor. *)
Definition db_code_evidence : DB :=
  snd (POST_evidence isURL g_evidence (Some (session_of reviewer)) "t_code"
         (Some (JObj link_props)) db).

(** The users as the form lists them, and what it is filled with. *)
Definition as_listed (u : User) : ListedUser :=
  {| lu_id := user_id u; lu_name := user_name u; lu_email := user_email u;
     lu_globalRole := GlobalRole_name (user_globalRole u) |}.
Definition listed_users : list ListedUser := map as_listed (users db).
Definition filled_form : TTFUForm :=
  {| form_title := "Prepare the demo"; form_description := Some "";
     form_dueDate := Some "" |}.

(** Signing in. *)
Definition admin_credentials : Credentials :=
  {| cred_email := Some "admin@example.com"; cred_password := Some "Admin User" |}.
Definition admin_auth : AuthUser :=
  {| au_id := "u_admin"; au_email := "admin@example.com"; au_name := "Admin User";
     au_globalRole := "ADMIN" |}.
Definition fresh_token : Token :=
  {| token_sub := Some "u_admin"; token_globalRole := None |}.
Definition blank_user : SessionUser :=
  {| su_name := Some "Admin User"; su_email := Some "admin@example.com";
     su_image := None; su_id := None; su_globalRole := None |}.

(** The participants the seed gives its meeting. *)
Definition participant (n userId : string) (role : MeetingRole)
  : MeetingParticipant :=
  {| mp_id := n; mp_meetingId := "m_weekly"; mp_userId := userId;
     mp_role := role; mp_createdAt := 1705000000004 |}.
Definition store : Store :=
  {| store_db := db;
     participants := [participant "p_1" "u_spv" spv_role;
                      participant "p_2" "u_reviewer" reviewer_role;
                      participant "p_3" "u_user" participant_role] |}.
Definition join_as_spv : Json := JObj [("role", JStr "spv")].
Definition join_as_participant : Json := JObj [("role", JStr "participant")].

End Examples.

(* ------------------------------------------------------------------ *)
(** ** Notions the further properties are stated with *)

(** A request without a usable session: [!session?.user?.id]. *)
Definition unauthenticated (session : option Session) : bool :=
  match session with
  | Some s => negb (truthy (session_user_id s))
  | None => true
  end.

(** At most one review of an evidence by a reviewer. *)
Definition one_review_each (db : DB) : Prop :=
  NoDup (map (fun r => (review_evidenceId r, review_reviewerId r)) (reviews db)).

(** The tables of [db'] are those of [db] with rows added at the end. *)
Definition extends (db db' : DB) : Prop :=
  users db' = users db /\ meetings db' = meetings db
  /\ (exists added, ttfus db' = ttfus db ++ added)%list
  /\ (exists added, evidences db' = evidences db ++ added)%list
  /\ (exists added, reviews db' = reviews db ++ added)%list.

(* ------------------------------------------------------------------ *)
(** ** Properties *)

(** The authorization rule of a review, in the words of the
    specification: the caller's global role is reviewer or admin, and the
    caller is the designated reviewer of the TTFU or an admin. *)
Definition authorized_reviewer (s : Session) (t : TTFU) : bool :=
  ((session_user_globalRole s =? "REVIEWER")%string
   || (session_user_globalRole s =? "ADMIN")%string)
  && ((ttfu_reviewerId t =? session_user_id s)%string
      || (session_user_globalRole s =? "ADMIN")%string).

(** The Review row a successful call writes. *)
Definition new_review (g : Gen) (s : Session) (evidenceId : string)
    (input : ReviewInput) : Review :=
  {| review_id := cuid g; review_evidenceId := evidenceId;
     review_reviewerId := session_user_id s;
     review_status := rev_status input;
     review_comment := or_null (rev_comment input);
     review_createdAt := now g |}.

(** The TTFU row a successful creation writes. *)
Definition new_ttfu (g : Gen) (input : TTFUInput) (assigneeId reviewerId : string)
    (dueDate : option Z) : TTFU :=
  {| ttfu_id := cuid g; ttfu_meetingId := in_meetingId input;
     ttfu_title := in_title input; ttfu_description := in_description input;
     ttfu_assigneeId := assigneeId; ttfu_reviewerId := reviewerId;
     ttfu_status := OPEN; ttfu_dueDate := dueDate;
     ttfu_createdAt := now g; ttfu_updatedAt := now g |}.

(** The Evidence row a successful submission writes. *)
Definition new_evidence (g : Gen) (s : Session) (ttfuId : string)
    (input : EvidenceInput) : Evidence :=
  {| evidence_id := cuid g; evidence_ttfuId := ttfuId;
     evidence_type := ein_type input;
     evidence_url := or_null (ein_url input);
     evidence_filePath := or_null (ein_filePath input);
     evidence_description := or_null (ein_description input);
     evidence_submittedById := session_user_id s;
     evidence_createdAt := now g |}.

(** A role that may review. *)
Definition reviewer_or_admin (r : GlobalRole) : bool :=
  GlobalRole_eqb r REVIEWER || GlobalRole_eqb r ADMIN.

(** An evidence list in the order [createdAt: "desc"] asks for. *)
Definition newest_first (l : list EvidenceView) : Prop :=
  StronglySorted
    (fun x y => evidence_createdAt (ev_evidence y)
                <= evidence_createdAt (ev_evidence x)) l.

(** The invariant of the data model on an Evidence row, in the words of
    the specification: exactly one of url and file reference is populated,
    the one the kind names. *)
Definition exactly_one_populated (e : Evidence) : bool :=
  match evidence_type e with
  | link => is_some (evidence_url e) && negb (is_some (evidence_filePath e))
  | file => is_some (evidence_filePath e) && negb (is_some (evidence_url e))
  end.

(** The name of a status in a request body. *)
Definition TtfuStatus_name (st : TtfuStatus) : string :=
  match st with
  | OPEN => "OPEN" | IN_PROGRESS => "IN_PROGRESS"
  | DONE => "DONE" | REJECTED => "REJECTED"
  end.

(** The table after [ttfu_update_status]. *)
Definition ttfus_with_status (g : Gen) (id : string) (st : TtfuStatus)
    (db : DB) : DB :=
  with_ttfus db
    (map (fun t' => if (ttfu_id t' =? id)%string
                    then set_status st (now g) t' else t') (ttfus db)).

Ltac case_match :=
  match goal with
  | |- context [match ?x with _ => _ end] => destruct x eqn:?
  | H : context [match ?x with _ => _ end] |- _ => destruct x eqn:?
  end.

Ltac unfold_monad :=
  cbv beta iota zeta delta
    [try_catch bind ret respond throw query write return_if
     require_session request_json parse] in *.

Lemma find_some_iff_is_some {A} (f : A -> bool) (l : list A) :
  is_some (find f l) = existsb f l.
Proof.
  induction l as [|x l IH]; simpl; [reflexivity|].
  destruct (f x); simpl; auto.
Qed.

Lemma find_snoc {A} (f : A -> bool) (l : list A) (x : A) :
  find f (l ++ [x])
  = match find f l with
    | Some y => Some y
    | None => if f x then Some x else None
    end.
Proof.
  induction l as [|a l IH]; simpl; [reflexivity|].
  destruct (f a); [reflexivity|exact IH].
Qed.

(** What [POST_review] does for an authenticated caller with a body that
    passes the schema, check after check. *)
Lemma POST_review_run g s id evidenceId body input db :
  truthy (session_user_id s) = true ->
  createReviewSchema body = inr input ->
  POST_review g (Some s) id evidenceId (Some body) db =
    if negb (session_user_globalRole s =? "REVIEWER")%string
       && negb (session_user_globalRole s =? "ADMIN")%string
    then (JsonError 403 "Only reviewers and admins can review evidence" NoDetails, db)
    else
      match evidence_findUnique evidenceId db with
      | None => (JsonError 404 "Evidence not found" NoDetails, db)
      | Some e =>
          match ttfu_findUnique (evidence_ttfuId e) db with
          | None =>
              (JsonError 500 "Internal server error"
                 (Message "Cannot read properties of null (reading 'reviewerId')"), db)
          | Some t =>
              if negb (authorized_reviewer s t)
              then (JsonError 403 "You are not the assigned reviewer for this TTFU"
                      NoDetails, db)
              else if is_some (review_findFirst evidenceId (session_user_id s) db)
              then (JsonError 400 "You have already reviewed this evidence" NoDetails, db)
              else if is_some (review_findUnique (cuid g) db)
              then (JsonError 500 "Internal server error"
                      (Message "Unique constraint failed on the fields: (`id`)"), db)
              else if negb (is_some (user_findUnique (session_user_id s) db))
              then (JsonError 500 "Internal server error"
                      (Message "Foreign key constraint violated"), db)
              else
                let row := new_review g s evidenceId input in
                let db' := with_reviews db (reviews db ++ [row]) in
                (Json200 (include_reviewer db' row), db')
          end
      end.
Proof.
  intros Hid Hbody.
  unfold POST_review, ttfu_reviewerId_of, review_create, authorized_reviewer.
  unfold_monad. rewrite Hid, Hbody.
  destruct (session_user_globalRole s =? "REVIEWER")%string eqn:Hr,
           (session_user_globalRole s =? "ADMIN")%string eqn:Ha; simpl;
    try reflexivity;
    destruct (evidence_findUnique evidenceId db) as [e|] eqn:He; try reflexivity;
    destruct (ttfu_findUnique (evidence_ttfuId e) db) as [t|] eqn:Ht; try reflexivity;
    simpl; rewrite ?orb_true_r, ?orb_false_r; simpl;
    try destruct (ttfu_reviewerId t =? session_user_id s)%string eqn:Hd; simpl;
    try reflexivity;
    destruct (is_some (review_findFirst evidenceId (session_user_id s) db)); simpl;
    try reflexivity;
    destruct (is_some (review_findUnique (cuid g) db)); simpl; try reflexivity;
    rewrite He; simpl;
    destruct (is_some (user_findUnique (session_user_id s) db)); reflexivity.
Qed.

(** Whatever the session and the body, [POST_review] writes to no table
    but the reviews, and to that one only when it answers with success. *)
Lemma POST_review_frame g session id evidenceId body db :
  let db' := snd (POST_review g session id evidenceId body db) in
  users db' = users db /\ meetings db' = meetings db
  /\ ttfus db' = ttfus db /\ evidences db' = evidences db
  /\ (is_success (fst (POST_review g session id evidenceId body db)) = false ->
      db' = db).
Proof.
  destruct session as [s|]; [|simpl; repeat split; reflexivity].
  destruct (truthy (session_user_id s)) eqn:Hid.
  2:{ unfold POST_review. unfold_monad. rewrite Hid. simpl.
      repeat split; reflexivity. }
  destruct body as [body|].
  2:{ unfold POST_review. unfold_monad. rewrite Hid. simpl.
      repeat split; reflexivity. }
  destruct (createReviewSchema body) as [issues|input] eqn:Hbody.
  { unfold POST_review. unfold_monad. rewrite Hid, Hbody. simpl.
    repeat split; reflexivity. }
  rewrite (POST_review_run g s id evidenceId body input db Hid Hbody).
  repeat case_match; simpl; repeat split; congruence.
Qed.

(** What [POST_review] answers before it looks at the role: without a
    session, with a body that is not JSON, with a body the schema
    refuses. *)
Lemma POST_review_early g session id evidenceId body db :
  POST_review g session id evidenceId body db =
    match session with
    | None => (JsonError 401 "Unauthorized" NoDetails, db)
    | Some s =>
        if truthy (session_user_id s) then
          match body with
          | None =>
              (JsonError 500 "Internal server error"
                 (Message "Unexpected end of JSON input"), db)
          | Some b =>
              match createReviewSchema b with
              | inl issues => (JsonError 400 "Validation error" (Issues issues), db)
              | inr _ => POST_review g session id evidenceId body db
              end
          end
        else (JsonError 401 "Unauthorized" NoDetails, db)
    end.
Proof.
  destruct session as [s|]; [|reflexivity].
  destruct (truthy (session_user_id s)) eqn:Hid.
  2:{ unfold POST_review. unfold_monad. rewrite Hid. reflexivity. }
  destruct body as [b|].
  2:{ unfold POST_review. unfold_monad. rewrite Hid. reflexivity. }
  destruct (createReviewSchema b) eqn:Hb; [|reflexivity].
  unfold POST_review. unfold_monad. rewrite Hid, Hb. reflexivity.
Qed.

(** C1. Once a Review row by a reviewer on an evidence exists, every
    further submit-review call of that reviewer on that evidence is
    rejected and leaves the tables as they are; when the call is otherwise
    in order (valid body, authorized caller) the rejection is the conflict
    error. A call on the same evidence by another authorized reviewer (the
    designated reviewer of the TTFU or an admin) who has no review of
    their own there succeeds and appends one Review row: the review table
    after the call is the one before with that row at its end, the lookup
    of the route finds it for the new reviewer and still finds the earlier
    review of the first, and no other table changes. *)
Theorem C1_duplicate_review_conflict
    (g : Gen) (id evidenceId : string) (db : DB) (s : Session)
    (Hprior : is_some (review_findFirst evidenceId (session_user_id s) db) = true) :
  (forall body,
      snd (POST_review g (Some s) id evidenceId body db) = db
      /\ is_success (fst (POST_review g (Some s) id evidenceId body db)) = false)
  /\ (forall b input e t,
         truthy (session_user_id s) = true ->
         createReviewSchema b = inr input ->
         evidence_findUnique evidenceId db = Some e ->
         ttfu_findUnique (evidence_ttfuId e) db = Some t ->
         authorized_reviewer s t = true ->
         POST_review g (Some s) id evidenceId (Some b) db =
           (JsonError 400 "You have already reviewed this evidence" NoDetails, db)
         /\ is_conflict_error
              (fst (POST_review g (Some s) id evidenceId (Some b) db)) = true)
  /\ (forall s' b input e t,
         is_some (review_findFirst evidenceId (session_user_id s') db) = false ->
         truthy (session_user_id s') = true ->
         createReviewSchema b = inr input ->
         evidence_findUnique evidenceId db = Some e ->
         ttfu_findUnique (evidence_ttfuId e) db = Some t ->
         authorized_reviewer s' t = true ->
         is_some (user_findUnique (session_user_id s') db) = true ->
         is_some (review_findUnique (cuid g) db) = false ->
         let row := new_review g s' evidenceId input in
         let db' := with_reviews db (reviews db ++ [row]) in
         let after := snd (POST_review g (Some s') id evidenceId (Some b) db) in
         POST_review g (Some s') id evidenceId (Some b) db =
           (Json200 (include_reviewer db' row), db')
         /\ reviews after = (reviews db ++ [row])%list
         /\ review_findFirst evidenceId (session_user_id s') after = Some row
         /\ review_findFirst evidenceId (session_user_id s) after
            = review_findFirst evidenceId (session_user_id s) db
         /\ users after = users db /\ meetings after = meetings db
         /\ ttfus after = ttfus db /\ evidences after = evidences db).
Proof.
  split; [|split].
  - intros body.
    assert (Hfail : is_success (fst (POST_review g (Some s) id evidenceId body db)) = false).
    { rewrite POST_review_early.
      destruct (truthy (session_user_id s)) eqn:Hid; [|reflexivity].
      destruct body as [b|]; [|reflexivity].
      destruct (createReviewSchema b) as [issues|input] eqn:Hb; [reflexivity|].
      rewrite (POST_review_run g s id evidenceId b input db Hid Hb).
      rewrite Hprior. repeat case_match; reflexivity. }
    split; [|exact Hfail].
    apply (POST_review_frame g (Some s) id evidenceId body db). exact Hfail.
  - intros b input e t Hid Hb He Ht Hauth.
    rewrite (POST_review_run g s id evidenceId b input db Hid Hb).
    unfold authorized_reviewer in Hauth.
    apply andb_true_iff in Hauth as [Hrole Hdes].
    apply orb_true_iff in Hrole.
    assert (Hr : negb (session_user_globalRole s =? "REVIEWER")%string
                 && negb (session_user_globalRole s =? "ADMIN")%string = false).
    { destruct Hrole as [-> | ->]; simpl; auto using andb_false_r. }
    rewrite Hr, He, Ht. unfold authorized_reviewer.
    replace ((session_user_globalRole s =? "REVIEWER")%string
             || (session_user_globalRole s =? "ADMIN")%string) with true
      by (destruct Hrole as [-> | ->]; simpl; auto using orb_true_r).
    rewrite Hdes, Hprior. simpl. split; reflexivity.
  - intros s' b input e t Hnone Hid Hb He Ht Hauth Huser Hfresh row db' after.
    assert (Hrun : POST_review g (Some s') id evidenceId (Some b) db
                   = (Json200 (include_reviewer db' row), db')).
    { rewrite (POST_review_run g s' id evidenceId b input db Hid Hb).
      pose proof Hauth as Hauth'.
      unfold authorized_reviewer in Hauth'.
      apply andb_true_iff in Hauth' as [Hrole Hdes].
      apply orb_true_iff in Hrole.
      assert (Hr : negb (session_user_globalRole s' =? "REVIEWER")%string
                   && negb (session_user_globalRole s' =? "ADMIN")%string = false).
      { destruct Hrole as [-> | ->]; simpl; auto using andb_false_r. }
      rewrite Hr, He, Ht, Hauth, Hnone, Hfresh, Huser. reflexivity. }
    split; [exact Hrun|].
    unfold after. rewrite Hrun. cbn [snd]. unfold db'.
    cbn [reviews users meetings ttfus evidences with_reviews].
    split; [reflexivity|].
    unfold review_findFirst. cbn [reviews with_reviews]. rewrite !find_snoc.
    split; [|split; [|repeat split]].
    + unfold review_findFirst in Hnone.
      destruct (find _ (reviews db)); [discriminate|].
      unfold row. cbn [new_review review_evidenceId review_reviewerId].
      rewrite !String.eqb_refl. reflexivity.
    + unfold review_findFirst in Hprior.
      destruct (find _ (reviews db)); [reflexivity|discriminate].
Qed.

(** C3, as the route has it. A submit-review call by an authenticated caller whose
    global role is neither reviewer nor admin never writes; it is answered
    with the authorization error (403) when the body passes the schema,
    with the validation error when the schema refuses it, and with an
    internal error when the body is not JSON at all: the body is read and
    validated before the role is looked at. *)
Theorem C3_role_checked_after_validation
    (g : Gen) (id evidenceId : string) (db : DB) (s : Session) (body : option Json)
    (Hid : truthy (session_user_id s) = true)
    (Hrev : session_user_globalRole s <> "REVIEWER")
    (Hadm : session_user_globalRole s <> "ADMIN") :
  POST_review g (Some s) id evidenceId body db =
    (match body with
     | None => JsonError 500 "Internal server error"
                 (Message "Unexpected end of JSON input")
     | Some b =>
         match createReviewSchema b with
         | inl issues => JsonError 400 "Validation error" (Issues issues)
         | inr _ => JsonError 403 "Only reviewers and admins can review evidence"
                      NoDetails
         end
     end, db).
Proof.
  rewrite POST_review_early, Hid.
  destruct body as [b|]; [|reflexivity].
  destruct (createReviewSchema b) as [issues|input] eqn:Hb; [reflexivity|].
  rewrite (POST_review_run g s id evidenceId b input db Hid Hb).
  apply String.eqb_neq in Hrev, Hadm. rewrite Hrev, Hadm. reflexivity.
Qed.

(** C8. A successful submit-review call appends its Review row and leaves
    the TTFU table as it was, so every TTFU, the parent of the reviewed
    evidence among them, reads after the call exactly as before, status
    included, whatever the decision. *)
Theorem C8_review_leaves_ttfu_unchanged
    (g : Gen) (session : option Session) (id evidenceId : string)
    (body : option Json) (db db' : DB) (data : ReviewView)
    (Hok : POST_review g session id evidenceId body db = (Json200 data, db')) :
  ttfus db' = ttfus db
  /\ (forall tid, ttfu_findUnique tid db' = ttfu_findUnique tid db)
  /\ (forall e t,
        evidence_findUnique evidenceId db = Some e ->
        ttfu_findUnique (evidence_ttfuId e) db = Some t ->
        ttfu_findUnique (evidence_ttfuId e) db' = Some t)
  /\ reviews db' = (reviews db ++ [rv_review data])%list.
Proof.
  pose proof (POST_review_frame g session id evidenceId body db) as Hframe.
  rewrite Hok in Hframe. simpl in Hframe.
  destruct Hframe as (_ & _ & Ht & _ & _).
  assert (Hfind : forall tid, ttfu_findUnique tid db' = ttfu_findUnique tid db).
  { intros tid. unfold ttfu_findUnique. rewrite Ht. reflexivity. }
  repeat split; auto.
  - intros e t _ H. rewrite Hfind. exact H.
  - rewrite POST_review_early in Hok.
    destruct session as [s|]; [|discriminate].
    destruct (truthy (session_user_id s)) eqn:Hid; [|discriminate].
    destruct body as [b|]; [|discriminate].
    destruct (createReviewSchema b) as [issues|input] eqn:Hb; [discriminate|].
    rewrite (POST_review_run g s id evidenceId b input db Hid Hb) in Hok.
    repeat case_match; try discriminate.
    inversion Hok; subst. reflexivity.
Qed.

(** C10. Self-review goes through: when the caller submitted the evidence
    and is also the designated reviewer of its TTFU, a submit-review call
    with a reviewer or admin role and no earlier review of theirs on that
    evidence succeeds and appends the Review row. *)
Theorem C10_self_review_permitted
    (g : Gen) (id evidenceId : string) (db : DB) (s : Session)
    (b : Json) (input : ReviewInput) (e : Evidence) (t : TTFU)
    (Hid : truthy (session_user_id s) = true)
    (Hb : createReviewSchema b = inr input)
    (He : evidence_findUnique evidenceId db = Some e)
    (Hsubmitter : evidence_submittedById e = session_user_id s)
    (Ht : ttfu_findUnique (evidence_ttfuId e) db = Some t)
    (Hdesignated : ttfu_reviewerId t = session_user_id s)
    (Hrole : session_user_globalRole s = "REVIEWER"
             \/ session_user_globalRole s = "ADMIN")
    (Hnone : is_some (review_findFirst evidenceId (session_user_id s) db) = false)
    (Huser : is_some (user_findUnique (session_user_id s) db) = true)
    (Hfresh : is_some (review_findUnique (cuid g) db) = false) :
  let row := new_review g s evidenceId input in
  let db' := with_reviews db (reviews db ++ [row]) in
  POST_review g (Some s) id evidenceId (Some b) db =
    (Json200 (include_reviewer db' row), db')
  /\ review_reviewerId row = evidence_submittedById e.
Proof.
  intros row db'. split; [|symmetry; exact Hsubmitter].
  rewrite (POST_review_run g s id evidenceId b input db Hid Hb).
  rewrite He, Ht. unfold authorized_reviewer.
  rewrite Hdesignated, String.eqb_refl, Hnone, Hfresh, Huser.
  destruct Hrole as [-> | ->]; reflexivity.
Qed.

(* ------------------------------------------------------------------ *)
(** *** Creating a TTFU *)

Lemma findUnique_user_id id db u :
  user_findUnique id db = Some u -> user_id u = id /\ In u (users db).
Proof.
  unfold user_findUnique. intros H. apply find_some in H as [Hin Heq].
  apply String.eqb_eq in Heq. auto.
Qed.

Lemma In_user_findUnique u db :
  In u (users db) -> is_some (user_findUnique (user_id u) db) = true.
Proof.
  intros Hin. unfold user_findUnique. rewrite find_some_iff_is_some.
  apply existsb_exists. exists u. split; [exact Hin|apply String.eqb_refl].
Qed.

Lemma existsb_false_In {A} (f : A -> bool) (l : list A) :
  existsb f l = false -> forall x, In x l -> f x = false.
Proof.
  intros H x Hx. destruct (f x) eqn:Hfx; [|reflexivity].
  rewrite <- H. symmetry. apply existsb_exists. exists x. auto.
Qed.

Lemma falsy_or_else a b : falsy a = true -> or_else a b = b.
Proof.
  destruct a as [x|]; simpl; [|reflexivity].
  destruct (truthy x); simpl; [discriminate|reflexivity].
Qed.

Lemma truthy_or_else b : truthy b = true -> or_else (Some b) "" = b.
Proof. simpl. intros ->. reflexivity. Qed.

Lemma truthy_not_falsy b : truthy b = true -> falsy (Some b) = false.
Proof. simpl. intros ->. reflexivity. Qed.

(** The auto assignment for a supervisor or user. *)
Lemma auto_assign_spv_or_user {R} cu a r db :
  spv_or_user (Some cu) = true ->
  falsy a || falsy r = true ->
  @auto_assign R (Some cu) a r db =
    (Val (Some (user_id cu),
          Some (or_else
                  (option_map user_id
                     (user_findFirst_globalRole_in [REVIEWER; ADMIN] db))
                  (user_id cu))), db).
Proof.
  intros Hrole Hf. unfold auto_assign. rewrite Hf, Hrole. reflexivity.
Qed.

(** The auto assignment for the other roles. *)
Lemma auto_assign_reviewer_or_admin {R} cu a r db :
  spv_or_user (Some cu) = false ->
  falsy a || falsy r = true ->
  @auto_assign R (Some cu) a r db =
    (Val (Some (or_else a (or_else (Some (user_id cu)) "")),
          Some (or_else r (or_else (Some (user_id cu)) ""))), db).
Proof.
  intros Hrole Hf. unfold auto_assign. rewrite Hf, Hrole. reflexivity.
Qed.

Section TTFU_creation.

Variable parseDate : string -> option Z.

(** What [POST_ttfu] does for an authenticated caller with a body that
    passes the schema, once the assignment is known. *)
Lemma POST_ttfu_run g s b input db ids :
  truthy (session_user_id s) = true ->
  createTTFUSchema b = inr input ->
  @auto_assign TTFUView (user_findUnique (session_user_id s) db)
     (in_assigneeId input) (in_reviewerId input) db = (Val ids, db) ->
  POST_ttfu parseDate g (Some s) (Some b) db =
    if falsy (fst ids) || falsy (snd ids)
    then (JsonError 400 "Unable to assign TTFU. No valid assignee or reviewer found."
            NoDetails, db)
    else
      match new_Date_or_null parseDate (in_dueDate input) with
      | None =>
          (JsonError 500 "Internal server error"
             (Message "Invalid value for argument `dueDate`: Provided Date object is invalid. Expected Date."),
           db)
      | Some d =>
          if is_some (ttfu_findUnique (cuid g) db)
          then (JsonError 500 "Internal server error"
                  (Message "Unique constraint failed on the fields: (`id`)"), db)
          else if negb (is_some (meeting_findUnique (in_meetingId input) db))
                  || negb (is_some (user_findUnique (or_else (fst ids) "") db))
                  || negb (is_some (user_findUnique (or_else (snd ids) "") db))
          then (JsonError 500 "Internal server error"
                  (Message "Foreign key constraint violated"), db)
          else
            let row := new_ttfu g input (or_else (fst ids) "")
                         (or_else (snd ids) "") d in
            let db' := with_ttfus db (ttfus db ++ [row]) in
            (Json200 (include_ttfu db' row), db')
      end.
Proof.
  intros Hid Hb Hassign.
  unfold POST_ttfu, dueDate_of, ttfu_create. unfold_monad.
  rewrite Hid, Hb, Hassign.
  destruct (falsy (fst ids) || falsy (snd ids)); [reflexivity|].
  destruct (new_Date_or_null parseDate (in_dueDate input)) as [d|]; [|reflexivity].
  destruct (is_some (ttfu_findUnique (cuid g) db)); [reflexivity|].
  destruct (negb (is_some (meeting_findUnique (in_meetingId input) db))
            || negb (is_some (user_findUnique (or_else (fst ids) "") db))
            || negb (is_some (user_findUnique (or_else (snd ids) "") db)));
    reflexivity.
Qed.

(** The same when the assignment gives two non-empty ids [x] and [y]: a
    success creates the row with assignee [x] and reviewer [y]; the call
    succeeds when the meeting exists, the due date reads, both users exist
    and the new id is free; the answer is never that no assignee or
    reviewer was found. *)
Lemma POST_ttfu_assigned g s b input db x y :
  truthy (session_user_id s) = true ->
  createTTFUSchema b = inr input ->
  @auto_assign TTFUView (user_findUnique (session_user_id s) db)
     (in_assigneeId input) (in_reviewerId input) db = (Val (Some x, Some y), db) ->
  truthy x = true -> truthy y = true ->
  (forall data db',
      POST_ttfu parseDate g (Some s) (Some b) db = (Json200 data, db') ->
      ttfu_assigneeId (tv_ttfu data) = x
      /\ ttfu_reviewerId (tv_ttfu data) = y
      /\ ttfus db' = (ttfus db ++ [tv_ttfu data])%list)
  /\ (forall d,
         is_some (meeting_findUnique (in_meetingId input) db) = true ->
         new_Date_or_null parseDate (in_dueDate input) = Some d ->
         is_some (ttfu_findUnique (cuid g) db) = false ->
         is_some (user_findUnique x db) = true ->
         is_some (user_findUnique y db) = true ->
         let row := new_ttfu g input x y d in
         let db' := with_ttfus db (ttfus db ++ [row]) in
         POST_ttfu parseDate g (Some s) (Some b) db =
           (Json200 (include_ttfu db' row), db'))
  /\ is_validation_error (fst (POST_ttfu parseDate g (Some s) (Some b) db)) = false.
Proof.
  intros Hid Hb Hassign Hx Hy.
  rewrite (POST_ttfu_run g s b input db _ Hid Hb Hassign).
  cbn [fst snd]. rewrite (truthy_not_falsy x Hx), (truthy_not_falsy y Hy).
  rewrite (truthy_or_else x Hx), (truthy_or_else y Hy). cbn [orb].
  split; [|split].
  - intros data db' H.
    repeat case_match; try discriminate.
    inversion H; subst. simpl. auto.
  - intros d Hm Hd Hfresh Hux Huy. rewrite Hd, Hfresh, Hm, Hux, Huy. reflexivity.
  - repeat case_match; reflexivity.
Qed.

(** C6. When a reviewer or an admin creates a TTFU and gives neither an
    assignee nor a reviewer, the TTFU that is created has the creator as
    assignee and as reviewer; and the creation does succeed when the
    meeting exists, the due date (if any) reads as a date and the new id
    is free. *)
Theorem C6_reviewer_or_admin_assigned_both
    (g : Gen) (s : Session) (b : Json) (input : TTFUInput) (db : DB) (cu : User)
    (Hid : truthy (session_user_id s) = true)
    (Hb : createTTFUSchema b = inr input)
    (Hcu : user_findUnique (session_user_id s) db = Some cu)
    (Hrole : user_globalRole cu = REVIEWER \/ user_globalRole cu = ADMIN)
    (Ha : falsy (in_assigneeId input) = true)
    (Hr : falsy (in_reviewerId input) = true) :
  (forall data db',
      POST_ttfu parseDate g (Some s) (Some b) db = (Json200 data, db') ->
      ttfu_assigneeId (tv_ttfu data) = session_user_id s
      /\ ttfu_reviewerId (tv_ttfu data) = session_user_id s
      /\ ttfus db' = (ttfus db ++ [tv_ttfu data])%list)
  /\ (forall d,
         is_some (meeting_findUnique (in_meetingId input) db) = true ->
         new_Date_or_null parseDate (in_dueDate input) = Some d ->
         is_some (ttfu_findUnique (cuid g) db) = false ->
         let row := new_ttfu g input (session_user_id s) (session_user_id s) d in
         let db' := with_ttfus db (ttfus db ++ [row]) in
         POST_ttfu parseDate g (Some s) (Some b) db =
           (Json200 (include_ttfu db' row), db')).
Proof.
  destruct (findUnique_user_id _ _ _ Hcu) as [Hcuid Hin].
  assert (Hassign :
    @auto_assign TTFUView (user_findUnique (session_user_id s) db)
      (in_assigneeId input) (in_reviewerId input) db
    = (Val (Some (session_user_id s), Some (session_user_id s)), db)).
  { rewrite Hcu, auto_assign_reviewer_or_admin.
    - rewrite (falsy_or_else _ _ Ha), (falsy_or_else _ _ Hr), Hcuid.
      rewrite (truthy_or_else _ Hid). reflexivity.
    - unfold spv_or_user. destruct Hrole as [-> | ->]; reflexivity.
    - rewrite Ha. reflexivity. }
  destruct (POST_ttfu_assigned g s b input db _ _ Hid Hb Hassign Hid Hid)
    as (Hinv & Hrun & _).
  split; [exact Hinv|].
  intros d Hm Hd Hfresh. apply Hrun; auto.
  all: rewrite <- Hcuid; apply In_user_findUnique; exact Hin.
Qed.

(** C5, as the route has it. When a supervisor or a user creates a TTFU and gives
    neither an assignee nor a reviewer, the TTFU that is created has the
    creator as assignee; its reviewer is the first user the lookup finds
    with role reviewer or admin when there is one, and the creator when
    the directory has none. The creation succeeds when the meeting exists,
    the due date (if any) reads as a date and the new id is free. *)
Theorem C5_spv_or_user_auto_assignment
    (g : Gen) (s : Session) (b : Json) (input : TTFUInput) (db : DB) (cu : User)
    (Hid : truthy (session_user_id s) = true)
    (Hb : createTTFUSchema b = inr input)
    (Hcu : user_findUnique (session_user_id s) db = Some cu)
    (Hrole : user_globalRole cu = SPV \/ user_globalRole cu = USER)
    (Ha : falsy (in_assigneeId input) = true)
    (Hr : falsy (in_reviewerId input) = true)
    (Hnonempty : forallb (fun u => truthy (user_id u)) (users db) = true) :
  let found := user_findFirst_globalRole_in [REVIEWER; ADMIN] db in
  let reviewerId :=
    match found with
    | Some r => user_id r
    | None => session_user_id s
    end in
  (forall data db',
      POST_ttfu parseDate g (Some s) (Some b) db = (Json200 data, db') ->
      ttfu_assigneeId (tv_ttfu data) = session_user_id s
      /\ ttfu_reviewerId (tv_ttfu data) = reviewerId
      /\ ttfus db' = (ttfus db ++ [tv_ttfu data])%list)
  /\ (forall r, found = Some r ->
        In r (users db) /\ reviewer_or_admin (user_globalRole r) = true)
  /\ (found = None ->
        forall u, In u (users db) -> reviewer_or_admin (user_globalRole u) = false)
  /\ (forall d,
         is_some (meeting_findUnique (in_meetingId input) db) = true ->
         new_Date_or_null parseDate (in_dueDate input) = Some d ->
         is_some (ttfu_findUnique (cuid g) db) = false ->
         let row := new_ttfu g input (session_user_id s) reviewerId d in
         let db' := with_ttfus db (ttfus db ++ [row]) in
         POST_ttfu parseDate g (Some s) (Some b) db =
           (Json200 (include_ttfu db' row), db')).
Proof.
  intros found reviewerId.
  assert (Hids : forall u, In u (users db) -> truthy (user_id u) = true).
  { intros u Hu. exact (proj1 (forallb_forall _ _) Hnonempty u Hu). }
  destruct (findUnique_user_id _ _ _ Hcu) as [Hcuid Hin].
  assert (Hfound : forall r, found = Some r ->
            In r (users db) /\ reviewer_or_admin (user_globalRole r) = true).
  { intros r H. apply find_some in H as [Hr_in Hr_role]. split; [exact Hr_in|].
    simpl in Hr_role. rewrite orb_false_r in Hr_role. exact Hr_role. }
  assert (Hrev : truthy reviewerId = true
                 /\ is_some (user_findUnique reviewerId db) = true
                 /\ or_else (option_map user_id found) (user_id cu) = reviewerId).
  { unfold reviewerId. destruct found as [r|] eqn:Hf.
    - destruct (Hfound r eq_refl) as [Hr_in _].
      split; [apply Hids; exact Hr_in|].
      split; [apply In_user_findUnique; exact Hr_in|].
      simpl. rewrite (Hids r Hr_in). reflexivity.
    - split; [exact Hid|]. rewrite <- Hcuid.
      split; [apply In_user_findUnique; exact Hin|reflexivity]. }
  destruct Hrev as (Hrev_truthy & Hrev_user & Hrev_eq).
  assert (Hassign :
    @auto_assign TTFUView (user_findUnique (session_user_id s) db)
      (in_assigneeId input) (in_reviewerId input) db
    = (Val (Some (session_user_id s), Some reviewerId), db)).
  { rewrite Hcu, auto_assign_spv_or_user.
    - fold found. rewrite Hrev_eq, Hcuid. reflexivity.
    - unfold spv_or_user. destruct Hrole as [-> | ->]; reflexivity.
    - rewrite Ha. reflexivity. }
  destruct (POST_ttfu_assigned g s b input db _ _ Hid Hb Hassign Hid Hrev_truthy)
    as (Hinv & Hrun & _).
  split; [exact Hinv|]. split; [exact Hfound|]. split.
  - intros Hnone u Hu. unfold found, user_findFirst_globalRole_in in Hnone.
    pose proof (find_none _ _ Hnone u Hu) as H. simpl in H.
    rewrite orb_false_r in H. exact H.
  - intros d Hm Hd Hfresh. apply Hrun; auto.
    rewrite <- Hcuid. apply In_user_findUnique. exact Hin.
Qed.

(** C2, as the route has it. When a supervisor or a user creates a TTFU without
    assignee and reviewer and no user of the directory has role reviewer
    or admin, the creation is not refused for want of a reviewer: the
    creator becomes the reviewer as well as the assignee, no validation
    error is answered, and the TTFU row is created when the meeting
    exists, the due date (if any) reads as a date and the new id is
    free. *)
Theorem C2_no_reviewer_falls_back_to_creator
    (g : Gen) (s : Session) (b : Json) (input : TTFUInput) (db : DB) (cu : User)
    (Hid : truthy (session_user_id s) = true)
    (Hb : createTTFUSchema b = inr input)
    (Hcu : user_findUnique (session_user_id s) db = Some cu)
    (Hrole : user_globalRole cu = SPV \/ user_globalRole cu = USER)
    (Ha : falsy (in_assigneeId input) = true)
    (Hr : falsy (in_reviewerId input) = true)
    (Hnone : existsb (fun u => reviewer_or_admin (user_globalRole u)) (users db)
             = false) :
  is_validation_error (fst (POST_ttfu parseDate g (Some s) (Some b) db)) = false
  /\ (forall data db',
         POST_ttfu parseDate g (Some s) (Some b) db = (Json200 data, db') ->
         ttfu_assigneeId (tv_ttfu data) = session_user_id s
         /\ ttfu_reviewerId (tv_ttfu data) = session_user_id s
         /\ ttfus db' = (ttfus db ++ [tv_ttfu data])%list)
  /\ (forall d,
         is_some (meeting_findUnique (in_meetingId input) db) = true ->
         new_Date_or_null parseDate (in_dueDate input) = Some d ->
         is_some (ttfu_findUnique (cuid g) db) = false ->
         let row := new_ttfu g input (session_user_id s) (session_user_id s) d in
         let db' := with_ttfus db (ttfus db ++ [row]) in
         POST_ttfu parseDate g (Some s) (Some b) db =
           (Json200 (include_ttfu db' row), db')).
Proof.
  destruct (findUnique_user_id _ _ _ Hcu) as [Hcuid Hin].
  assert (Hfind : user_findFirst_globalRole_in [REVIEWER; ADMIN] db = None).
  { unfold user_findFirst_globalRole_in.
    destruct (find _ (users db)) as [r|] eqn:Hf; [|reflexivity].
    apply find_some in Hf as [Hr_in Hr_role].
    simpl in Hr_role. rewrite orb_false_r in Hr_role.
    pose proof (existsb_false_In _ _ Hnone r Hr_in) as Hno.
    unfold reviewer_or_admin in Hno. simpl in Hno. rewrite Hno in Hr_role.
    discriminate. }
  assert (Hassign :
    @auto_assign TTFUView (user_findUnique (session_user_id s) db)
      (in_assigneeId input) (in_reviewerId input) db
    = (Val (Some (session_user_id s), Some (session_user_id s)), db)).
  { rewrite Hcu, auto_assign_spv_or_user.
    - rewrite Hfind, Hcuid. reflexivity.
    - unfold spv_or_user. destruct Hrole as [-> | ->]; reflexivity.
    - rewrite Ha. reflexivity. }
  destruct (POST_ttfu_assigned g s b input db _ _ Hid Hb Hassign Hid Hid)
    as (Hinv & Hrun & Hnoval).
  split; [exact Hnoval|]. split; [exact Hinv|].
  intros d Hm Hd Hfresh. apply Hrun; auto.
  all: rewrite <- Hcuid; apply In_user_findUnique; exact Hin.
Qed.

End TTFU_creation.

(* ------------------------------------------------------------------ *)
(** *** The order of an evidence list *)

Lemma insert_desc_perm {A} (key : A -> Z) a l :
  Permutation (a :: l) (insert_desc key a l).
Proof.
  induction l as [|x l IH]; simpl; [reflexivity|].
  destruct (key x <=? key a); [reflexivity|].
  rewrite perm_swap. apply perm_skip. exact IH.
Qed.

Lemma orderBy_desc_perm {A} (key : A -> Z) l :
  Permutation l (orderBy_desc key l).
Proof.
  induction l as [|x l IH]; simpl; [reflexivity|].
  rewrite <- insert_desc_perm. apply perm_skip. exact IH.
Qed.

Lemma insert_desc_sorted {A} (key : A -> Z) a l :
  StronglySorted (fun x y => key y <= key x) l ->
  StronglySorted (fun x y => key y <= key x) (insert_desc key a l).
Proof.
  induction 1 as [|x l Hs IH Hall]; simpl.
  - constructor; constructor.
  - destruct (key x <=? key a) eqn:Hle.
    + apply Z.leb_le in Hle. constructor.
      * constructor; assumption.
      * constructor; [exact Hle|].
        eapply Forall_impl; [|exact Hall]. simpl. intros; lia.
    + apply Z.leb_gt in Hle. constructor; [exact IH|].
      eapply Permutation_Forall; [apply insert_desc_perm|].
      constructor; [lia|exact Hall].
Qed.

Lemma orderBy_desc_sorted {A} (key : A -> Z) l :
  StronglySorted (fun x y => key y <= key x) (orderBy_desc key l).
Proof.
  induction l as [|x l IH]; simpl; [constructor|].
  apply insert_desc_sorted. exact IH.
Qed.

(** A row newer than all the others comes first. *)
Lemma orderBy_desc_newest {A} (key : A -> Z) l a :
  (forall x, In x l -> key x < key a) ->
  orderBy_desc key (l ++ [a]) = a :: orderBy_desc key l.
Proof.
  unfold orderBy_desc. induction l as [|x l IH]; intros Hnew; simpl.
  - reflexivity.
  - rewrite IH by (intros y Hy; apply Hnew; right; exact Hy). simpl.
    assert (key x < key a) as Hx by (apply Hnew; left; reflexivity).
    apply Z.leb_gt in Hx. rewrite Hx. reflexivity.
Qed.

Lemma StronglySorted_map {A B} (f : A -> B) (R : B -> B -> Prop) l :
  StronglySorted (fun x y => R (f x) (f y)) l -> StronglySorted R (map f l).
Proof.
  induction 1 as [|x l Hs IH Hall]; simpl; constructor; [exact IH|].
  apply Forall_map. exact Hall.
Qed.

Lemma include_ttfu_detail_newest_first db t :
  newest_first (td_evidences (include_ttfu_detail db t)).
Proof.
  unfold newest_first, include_ttfu_detail. simpl.
  set (f := include_evidence db).
  apply (StronglySorted_map f
           (fun x y => evidence_createdAt (ev_evidence y)
                       <= evidence_createdAt (ev_evidence x))).
  simpl. apply orderBy_desc_sorted.
Qed.

(** What [GET_ttfu] answers to an authenticated caller. *)
Lemma GET_ttfu_run s id db :
  truthy (session_user_id s) = true ->
  GET_ttfu (Some s) id db =
    (match ttfu_findUnique id db with
     | Some t => Json200 (include_ttfu_detail db t)
     | None => JsonError 404 "TTFU not found" NoDetails
     end, db).
Proof.
  intros Hid. unfold GET_ttfu. unfold_monad. rewrite Hid.
  destruct (ttfu_findUnique id db); reflexivity.
Qed.

Lemma findUnique_ttfu_id id db t :
  ttfu_findUnique id db = Some t -> ttfu_id t = id /\ In t (ttfus db).
Proof.
  unfold ttfu_findUnique. intros H. apply find_some in H as [Hin Heq].
  apply String.eqb_eq in Heq. auto.
Qed.

(* ------------------------------------------------------------------ *)
(** *** Submitting evidence *)

Section Evidence_submission.

Variable isURL : string -> bool.

(** What [POST_evidence] answers before it looks for the TTFU. *)
Lemma POST_evidence_early g session id body db :
  POST_evidence isURL g session id body db =
    match session with
    | None => (JsonError 401 "Unauthorized" NoDetails, db)
    | Some s =>
        if truthy (session_user_id s) then
          match body with
          | None =>
              (JsonError 500 "Internal server error"
                 (Message "Unexpected end of JSON input"), db)
          | Some b =>
              match createEvidenceSchema isURL b with
              | inl issues => (JsonError 400 "Validation error" (Issues issues), db)
              | inr _ => POST_evidence isURL g session id body db
              end
          end
        else (JsonError 401 "Unauthorized" NoDetails, db)
    end.
Proof.
  destruct session as [s|]; [|reflexivity].
  destruct (truthy (session_user_id s)) eqn:Hid.
  2:{ unfold POST_evidence. unfold_monad. rewrite Hid. reflexivity. }
  destruct body as [b|].
  2:{ unfold POST_evidence. unfold_monad. rewrite Hid. reflexivity. }
  destruct (createEvidenceSchema isURL b) eqn:Hb; [|reflexivity].
  unfold POST_evidence. unfold_monad. rewrite Hid, Hb. reflexivity.
Qed.

(** What it does for an authenticated caller with a body that passes the
    schema, check after check. *)
Lemma POST_evidence_run g s id b input db :
  truthy (session_user_id s) = true ->
  createEvidenceSchema isURL b = inr input ->
  POST_evidence isURL g (Some s) id (Some b) db =
    if negb (is_some (ttfu_findUnique id db))
    then (JsonError 404 "TTFU not found" NoDetails, db)
    else if EvidenceType_eqb (ein_type input) link && falsy (ein_url input)
    then (JsonError 400 "URL is required for link evidence" NoDetails, db)
    else if EvidenceType_eqb (ein_type input) file && falsy (ein_filePath input)
    then (JsonError 400 "File path is required for file evidence" NoDetails, db)
    else if is_some (evidence_findUnique (cuid g) db)
    then (JsonError 500 "Internal server error"
            (Message "Unique constraint failed on the fields: (`id`)"), db)
    else if negb (is_some (ttfu_findUnique id db))
            || negb (is_some (user_findUnique (session_user_id s) db))
    then (JsonError 500 "Internal server error"
            (Message "Foreign key constraint violated"), db)
    else
      let row := new_evidence g s id input in
      let db' := with_evidences db (evidences db ++ [row]) in
      (Json200 (include_evidence db' row), db').
Proof.
  intros Hid Hb.
  unfold POST_evidence, evidence_create. unfold_monad. rewrite Hid, Hb.
  destruct (is_some (ttfu_findUnique id db)) eqn:Ht; [|reflexivity].
  cbn [negb orb].
  destruct (EvidenceType_eqb (ein_type input) link && falsy (ein_url input));
    [reflexivity|].
  destruct (EvidenceType_eqb (ein_type input) file && falsy (ein_filePath input));
    [reflexivity|].
  cbv beta iota zeta.
  destruct (is_some (evidence_findUnique (cuid g) db)); [reflexivity|].
  rewrite Ht. cbn [negb orb].
  destruct (is_some (user_findUnique (session_user_id s) db)); reflexivity.
Qed.

Lemma schema_url_checked b input u :
  createEvidenceSchema isURL b = inr input ->
  ein_url input = Some u -> isURL u = true.
Proof.
  unfold createEvidenceSchema, z_string_url_optional. intros H Hu.
  destruct b as [| | | | |o]; try discriminate.
  destruct (z_enum _ (prop o "type")); [|discriminate].
  destruct (prop o "url") as [[| | |x| |]|] eqn:Hurl;
    try (repeat case_match; discriminate).
  - destruct (isURL x) eqn:Hx; [|repeat case_match; discriminate].
    repeat case_match; try discriminate.
    inversion H; subst. simpl in Hu. inversion Hu; subst. exact Hx.
  - repeat case_match; try discriminate.
    inversion H; subst. simpl in Hu. discriminate.
Qed.

Lemma not_falsy_or_null v :
  falsy v = false -> exists x, v = Some x /\ or_null v = Some x /\ truthy x = true.
Proof.
  destruct v as [x|]; simpl; [|discriminate].
  destruct (truthy x) eqn:Hx; simpl; [|discriminate].
  intros _. exists x. auto.
Qed.

(** C4, as the route has it. Every Evidence row the submit-evidence operation
    produces has the field its kind requires: a link has its url, which
    passed the URL check, and a file has its file reference. The other
    field is stored as the request gave it (left empty only when the
    request omitted it or gave the empty string), so at least one of the
    two is populated, not exactly one. *)
Theorem C4_required_field_populated
    (g : Gen) (session : option Session) (id : string) (body : option Json)
    (db db' : DB) (data : EvidenceView)
    (Hok : POST_evidence isURL g session id body db = (Json200 data, db')) :
  let e := ev_evidence data in
  (evidence_type e = link ->
     exists u, evidence_url e = Some u /\ truthy u = true /\ isURL u = true)
  /\ (evidence_type e = file ->
        exists f, evidence_filePath e = Some f /\ truthy f = true)
  /\ (exists b input,
        body = Some b /\ createEvidenceSchema isURL b = inr input
        /\ evidence_type e = ein_type input
        /\ evidence_url e = or_null (ein_url input)
        /\ evidence_filePath e = or_null (ein_filePath input))
  /\ is_some (evidence_url e) || is_some (evidence_filePath e) = true
  /\ evidences db' = (evidences db ++ [e])%list.
Proof.
  rewrite POST_evidence_early in Hok.
  destruct session as [s|]; [|discriminate].
  destruct (truthy (session_user_id s)) eqn:Hid; [|discriminate].
  destruct body as [b|]; [|discriminate].
  destruct (createEvidenceSchema isURL b) as [issues|input] eqn:Hb; [discriminate|].
  rewrite (POST_evidence_run g s id b input db Hid Hb) in Hok.
  destruct (negb (is_some (ttfu_findUnique id db))); [discriminate|].
  destruct (EvidenceType_eqb (ein_type input) link && falsy (ein_url input))
    eqn:Hlink; [discriminate|].
  destruct (EvidenceType_eqb (ein_type input) file && falsy (ein_filePath input))
    eqn:Hfile; [discriminate|].
  destruct (is_some (evidence_findUnique (cuid g) db)); [discriminate|].
  destruct (_ || _); [discriminate|].
  inversion Hok; subst. cbn [ev_evidence include_evidence].
  assert (Hl : evidence_type (new_evidence g s id input) = link ->
               exists u, evidence_url (new_evidence g s id input) = Some u
                         /\ truthy u = true /\ isURL u = true).
  { simpl. intros Ht. rewrite Ht in Hlink. simpl in Hlink.
    destruct (not_falsy_or_null _ Hlink) as (u & Hu & Hnull & Htruthy).
    exists u. repeat split; auto. eapply schema_url_checked; eauto. }
  assert (Hf : evidence_type (new_evidence g s id input) = file ->
               exists f, evidence_filePath (new_evidence g s id input) = Some f
                         /\ truthy f = true).
  { simpl. intros Ht. rewrite Ht in Hfile. simpl in Hfile.
    destruct (not_falsy_or_null _ Hfile) as (f & Hfp & Hnull & Htruthy).
    exists f. auto. }
  split; [exact Hl|]. split; [exact Hf|]. split.
  - exists b, input. simpl. auto.
  - split; [|reflexivity].
    destruct (evidence_type (new_evidence g s id input)) eqn:Ht.
    + destruct (Hl eq_refl) as (u & -> & _). reflexivity.
    + destruct (Hf eq_refl) as (f & -> & _). apply orb_true_r.
Qed.

Lemma schema_accepts_link o u f d :
  prop o "type" = Some (JStr "link") ->
  prop o "url" = Some (JStr u) ->
  isURL u = true ->
  z_string_optional (prop o "filePath") = Some f ->
  z_string_optional (prop o "description") = Some d ->
  createEvidenceSchema isURL (JObj o) =
    inr {| ein_type := link; ein_url := Some u; ein_filePath := f;
           ein_description := d |}.
Proof.
  intros Ht Hu Hok Hf Hd. unfold createEvidenceSchema, z_string_url_optional.
  rewrite Ht, Hu, Hok, Hf, Hd. reflexivity.
Qed.

Lemma schema_refuses_malformed_url o u :
  prop o "url" = Some (JStr u) ->
  isURL u = false ->
  exists issues,
    createEvidenceSchema isURL (JObj o) = inl issues /\ In "url" issues.
Proof.
  intros Hu Hbad. unfold createEvidenceSchema, z_string_url_optional.
  rewrite Hu, Hbad.
  destruct (z_enum _ (prop o "type")); simpl;
    destruct (z_string_optional (prop o "filePath"));
    destruct (z_string_optional (prop o "description")); simpl;
    eexists; (split; [reflexivity|]); simpl; auto.
Qed.

Lemma evidences_of_appended db id row :
  evidence_ttfuId row = id ->
  evidences_of (with_evidences db (evidences db ++ [row])) id
  = (evidences_of db id ++ [row])%list.
Proof.
  intros Hrow. unfold evidences_of. simpl. rewrite filter_app. simpl.
  rewrite Hrow, String.eqb_refl. reflexivity.
Qed.

(** C9. Submitting evidence of kind link, as an authenticated caller:
    with a url that fails the URL check the call is refused with the
    validation error and writes nothing; with a url that passes it (the
    other fields being strings or absent), an existing TTFU, the caller in
    the directory and a free id, the call succeeds and appends one
    Evidence row attributed to the caller, and reading the TTFU then
    lists that row among its evidences, the list being ordered newest
    first (the new row at its head when it is strictly the newest); with
    such a body and no TTFU of that id the call answers not-found and
    writes nothing. *)
Theorem C9_link_evidence
    (Hempty : isURL "" = false)
    (g : Gen) (s : Session) (id : string) (db : DB)
    (Hid : truthy (session_user_id s) = true) :
  (forall o u,
      prop o "type" = Some (JStr "link") ->
      prop o "url" = Some (JStr u) ->
      isURL u = false ->
      exists issues,
        POST_evidence isURL g (Some s) id (Some (JObj o)) db =
          (JsonError 400 "Validation error" (Issues issues), db)
        /\ In "url" issues)
  /\ (forall o u f d t,
         prop o "type" = Some (JStr "link") ->
         prop o "url" = Some (JStr u) ->
         isURL u = true ->
         z_string_optional (prop o "filePath") = Some f ->
         z_string_optional (prop o "description") = Some d ->
         ttfu_findUnique id db = Some t ->
         is_some (user_findUnique (session_user_id s) db) = true ->
         is_some (evidence_findUnique (cuid g) db) = false ->
         let input := {| ein_type := link; ein_url := Some u;
                         ein_filePath := f; ein_description := d |} in
         let row := new_evidence g s id input in
         let db' := with_evidences db (evidences db ++ [row]) in
         POST_evidence isURL g (Some s) id (Some (JObj o)) db =
           (Json200 (include_evidence db' row), db')
         /\ evidence_submittedById row = session_user_id s
         /\ evidence_url row = Some u
         /\ exists detail,
              GET_ttfu (Some s) id db' = (Json200 detail, db')
              /\ In (include_evidence db' row) (td_evidences detail)
              /\ newest_first (td_evidences detail)
              /\ ((forall e, In e (evidences_of db id) ->
                             evidence_createdAt e < now g) ->
                  hd_error (td_evidences detail)
                  = Some (include_evidence db' row)))
  /\ (forall o u f d,
         prop o "type" = Some (JStr "link") ->
         prop o "url" = Some (JStr u) ->
         isURL u = true ->
         z_string_optional (prop o "filePath") = Some f ->
         z_string_optional (prop o "description") = Some d ->
         ttfu_findUnique id db = None ->
         POST_evidence isURL g (Some s) id (Some (JObj o)) db =
           (JsonError 404 "TTFU not found" NoDetails, db)).
Proof.
  split; [|split].
  - intros o u Ht Hu Hbad.
    destruct (schema_refuses_malformed_url o u Hu Hbad) as (issues & Hs & Hin).
    exists issues. split; [|exact Hin].
    rewrite POST_evidence_early, Hid, Hs. reflexivity.
  - intros o u f d t Ht Hu Hok Hf Hd Hfound Huser Hfresh input row db'.
    pose proof (schema_accepts_link o u f d Ht Hu Hok Hf Hd) as Hs.
    assert (Htruthy : truthy u = true).
    { unfold truthy. destruct (u =? "")%string eqn:Hu0; [|reflexivity].
      apply String.eqb_eq in Hu0. subst u. congruence. }
    split.
    { rewrite (POST_evidence_run g s id (JObj o) _ db Hid Hs).
      rewrite Hfound, Hfresh, Huser. simpl. rewrite Htruthy. reflexivity. }
    split; [reflexivity|].
    split; [simpl; rewrite Htruthy; reflexivity|].
    destruct (findUnique_ttfu_id _ _ _ Hfound) as [Htid _].
    exists (include_ttfu_detail db' t).
    assert (Hof : evidences_of db' (ttfu_id t)
                  = (evidences_of db id ++ [row])%list).
    { rewrite Htid. apply evidences_of_appended. reflexivity. }
    split.
    { rewrite (GET_ttfu_run s id db' Hid).
      replace (ttfu_findUnique id db') with (ttfu_findUnique id db) by reflexivity.
      rewrite Hfound. reflexivity. }
    split.
    { unfold include_ttfu_detail. cbn [td_evidences]. apply in_map.
      eapply Permutation_in; [apply orderBy_desc_perm|].
      rewrite Hof. apply in_or_app. right. left. reflexivity. }
    split; [apply include_ttfu_detail_newest_first|].
    intros Hnew. unfold include_ttfu_detail. cbn [td_evidences].
    rewrite Hof, orderBy_desc_newest; [reflexivity|].
    intros e He. apply Hnew. exact He.
  - intros o u f d Ht Hu Hok Hf Hd Hnone.
    pose proof (schema_accepts_link o u f d Ht Hu Hok Hf Hd) as Hs.
    rewrite (POST_evidence_run g s id (JObj o) _ db Hid Hs).
    rewrite Hnone. reflexivity.
Qed.

End Evidence_submission.

(* ------------------------------------------------------------------ *)
(** *** Updating the status of a TTFU *)

(** The module of the route does not bind [z]: whatever an authenticated
    caller sends, building the schema throws a [ReferenceError], naming
    [z.ZodError] in the [catch] throws it again, and nothing is written. *)
Lemma PATCH_ttfu_unbound_z g s id body db :
  truthy (session_user_id s) = true ->
  PATCH_ttfu g (Some s) id body db = (Uncaught (JsError "z is not defined"), db).
Proof.
  intros Hid. unfold PATCH_ttfu, PATCH_ttfu_in, reference. unfold_monad.
  rewrite Hid. destruct body; reflexivity.
Qed.

Lemma z_enum_status st :
  z_enum [("OPEN", OPEN); ("IN_PROGRESS", IN_PROGRESS);
          ("DONE", DONE); ("REJECTED", REJECTED)]
    (Some (JStr (TtfuStatus_name st))) = Some st.
Proof. destruct st; reflexivity. Qed.

Lemma find_updated_status g id st l :
  find (fun t => (ttfu_id t =? id)%string)
    (map (fun t' => if (ttfu_id t' =? id)%string
                    then set_status st (now g) t' else t') l)
  = option_map (set_status st (now g))
      (find (fun t => (ttfu_id t =? id)%string) l).
Proof.
  induction l as [|x l IH]; simpl; [reflexivity|].
  destruct (ttfu_id x =? id)%string eqn:Hx; simpl; rewrite Hx; auto.
Qed.

(** With [z] bound to zod, as in the modules of the other routes, the
    handler does what the status update is meant to do: any of the four
    statuses is stored over the old one, whatever that was, and is what
    the TTFU reads as afterwards; a status outside the enumeration is a
    validation error and an unknown id is not-found, neither of which
    writes. *)
Lemma PATCH_ttfu_with_zod scope g s id db :
  bound scope "z" = true ->
  truthy (session_user_id s) = true ->
  (forall o st n t,
      prop o "status" = Some (JStr (TtfuStatus_name st)) ->
      z_string_optional (prop o "notes") = Some n ->
      ttfu_findUnique id db = Some t ->
      let db' := ttfus_with_status g id st db in
      PATCH_ttfu_in scope g (Some s) id (Some (JObj o)) db =
        (Json200 (include_ttfu_detail db' (set_status st (now g) t)), db')
      /\ exists detail,
           GET_ttfu (Some s) id db' = (Json200 detail, db')
           /\ ttfu_status (tv_ttfu (td_ttfu detail)) = st)
  /\ (forall o,
         z_enum [("OPEN", OPEN); ("IN_PROGRESS", IN_PROGRESS);
                 ("DONE", DONE); ("REJECTED", REJECTED)] (prop o "status") = None ->
         exists issues,
           PATCH_ttfu_in scope g (Some s) id (Some (JObj o)) db =
             (JsonError 400 "Validation error" (Issues issues), db)
           /\ In "status" issues)
  /\ (forall o st n,
         prop o "status" = Some (JStr (TtfuStatus_name st)) ->
         z_string_optional (prop o "notes") = Some n ->
         ttfu_findUnique id db = None ->
         PATCH_ttfu_in scope g (Some s) id (Some (JObj o)) db =
           (JsonError 404 "TTFU not found" NoDetails, db)).
Proof.
  intros Hz Hid. split; [|split].
  - intros o st n t Hst Hn Hfound db'. split.
    + unfold PATCH_ttfu_in, reference, ttfu_update_status, updateSchema.
      unfold_monad. rewrite Hid, Hz, Hst, z_enum_status, Hn, Hfound.
      cbn [is_some negb]. cbv beta iota. rewrite Hfound. reflexivity.
    + exists (include_ttfu_detail db' (set_status st (now g) t)).
      rewrite (GET_ttfu_run s id db' Hid). split; [|reflexivity].
      unfold db', ttfus_with_status, ttfu_findUnique. simpl.
      rewrite find_updated_status.
      unfold ttfu_findUnique in Hfound. rewrite Hfound. reflexivity.
  - intros o Hbad. unfold PATCH_ttfu_in, reference, updateSchema.
    unfold_monad. rewrite Hid, Hz, Hbad.
    destruct (z_string_optional (prop o "notes")); simpl;
      eexists; (split; [reflexivity|]); simpl; auto.
  - intros o st n Hst Hn Hnone.
    unfold PATCH_ttfu_in, reference, ttfu_update_status, updateSchema.
    unfold_monad. rewrite Hid, Hz, Hst, z_enum_status, Hn, Hnone. reflexivity.
Qed.

(* ------------------------------------------------------------------ *)
(** ** The handlers on the seeded database *)

Import Seed.

(** C7. The status update as the route has it: an authenticated caller
    sets the open TTFU of the seed to [DONE]; the handler throws, the
    exception leaves it uncaught, and the TTFU stays open. *)
Theorem C7_status_update_throws_on_unbound_z :
  PATCH_ttfu g_new (Some (session_of user)) "t_docs" (Some done_body) db
  = (Uncaught (JsError "z is not defined"), db)
  /\ bound route_imports "z" = false
  /\ fst (GET_ttfu (Some (session_of user)) "t_docs" db)
     = Json200 (include_ttfu_detail db ttfu1)
  /\ ttfu_status ttfu1 = OPEN.
Proof. repeat split. Qed.

(** C1 on the seed: the reviewer has reviewed the seeded evidence, the
    admin has not. *)
Lemma C1_witness :
  POST_review g_new (Some (session_of reviewer)) "t_docs" "e_docs" (Some approve) db
  = (JsonError 400 "You have already reviewed this evidence" NoDetails, db)
  /\ POST_review g_new (Some (session_of admin)) "t_docs" "e_docs" (Some approve) db
     = (let row := new_review g_new (session_of admin) "e_docs" approve_input in
        let db' := with_reviews db (reviews db ++ [row]) in
        (Json200 (include_reviewer db' row), db'))
  /\ reviews (snd (POST_review g_new (Some (session_of admin)) "t_docs" "e_docs"
                     (Some approve) db))
     = [review; new_review g_new (session_of admin) "e_docs" approve_input].
Proof.
  destruct (C1_duplicate_review_conflict g_new "t_docs" "e_docs" db
              (session_of reviewer) eq_refl) as (_ & Hsame & Hother).
  destruct (Hother (session_of admin) approve approve_input evidence ttfu1
              eq_refl eq_refl eq_refl eq_refl eq_refl eq_refl eq_refl eq_refl)
    as (Hrun & Hreviews & _).
  split; [|split].
  - exact (proj1 (Hsame approve approve_input evidence ttfu1
                    eq_refl eq_refl eq_refl eq_refl eq_refl)).
  - exact Hrun.
  - exact Hreviews.
Defined.

(** C3 fails for a body the schema refuses: the plain user gets the
    validation error, which is no authorization error. *)
Lemma C3_counterexample :
  session_user_globalRole (session_of user) <> "REVIEWER"
  /\ session_user_globalRole (session_of user) <> "ADMIN"
  /\ fst (POST_review g_new (Some (session_of user)) "t_docs" "e_docs"
            (Some undecided) db)
     = JsonError 400 "Validation error" (Issues ["status"])
  /\ is_authorization_error
       (fst (POST_review g_new (Some (session_of user)) "t_docs" "e_docs"
               (Some undecided) db)) = false.
Proof. repeat split; discriminate. Qed.

(** C3 on the seed: the plain user with a valid and with a refused body. *)
Lemma C3_witness :
  POST_review g_new (Some (session_of user)) "t_docs" "e_docs" (Some approve) db
  = (JsonError 403 "Only reviewers and admins can review evidence" NoDetails, db)
  /\ POST_review g_new (Some (session_of user)) "t_docs" "e_docs" (Some undecided) db
     = (JsonError 400 "Validation error" (Issues ["status"]), db).
Proof.
  split.
  - apply (C3_role_checked_after_validation g_new "t_docs" "e_docs" db
             (session_of user) (Some approve)); [reflexivity | discriminate | discriminate].
  - apply (C3_role_checked_after_validation g_new "t_docs" "e_docs" db
             (session_of user) (Some undecided)); [reflexivity | discriminate | discriminate].
Defined.

(** C8 on the seed: the admin approves the seeded evidence and its TTFU is
    still the open one. *)
Lemma C8_witness :
  is_success (fst (POST_review g_new (Some (session_of admin)) "t_docs" "e_docs"
                     (Some approve) db)) = true
  /\ ttfu_findUnique "t_docs"
       (snd (POST_review g_new (Some (session_of admin)) "t_docs" "e_docs"
               (Some approve) db)) = Some ttfu1
  /\ ttfu_status ttfu1 = OPEN.
Proof.
  split; [reflexivity|]. split; [|reflexivity].
  refine (proj1 (proj2 (proj2
            (C8_review_leaves_ttfu_unchanged g_new (Some (session_of admin))
               "t_docs" "e_docs" (Some approve) db _ _ eq_refl)))
          evidence ttfu1 eq_refl eq_refl).
Defined.

(** C10 on the seed: the reviewer reviews the evidence they submitted for
    the TTFU they created. *)
Lemma C10_witness :
  evidence_findUnique "c_evidence" db_submitted
  = Some (new_evidence g_evidence (session_of reviewer) "c_new"
            {| ein_type := link; ein_url := Some "https://example.com/report";
               ein_filePath := None; ein_description := None |})
  /\ is_success
       (fst (POST_review g_review (Some (session_of reviewer)) "c_new"
               "c_evidence" (Some approve) db_submitted)) = true.
Proof.
  split; [reflexivity|].
  rewrite (proj1 (C10_self_review_permitted g_review "c_new" "c_evidence"
                    db_submitted (session_of reviewer) approve approve_input
                    (new_evidence g_evidence (session_of reviewer) "c_new"
                       {| ein_type := link;
                          ein_url := Some "https://example.com/report";
                          ein_filePath := None; ein_description := None |})
                    (new_ttfu g_new new_ttfu_input "u_reviewer" "u_reviewer" None)
                    eq_refl eq_refl eq_refl eq_refl eq_refl eq_refl
                    (or_introl eq_refl) eq_refl eq_refl eq_refl)).
  reflexivity.
Defined.

(** C2 fails on a directory of a supervisor and a user: the supervisor
    creates a TTFU, reviewed by themselves. *)
Lemma C2_counterexample :
  session_user_globalRole (session_of spv) = "SPV"
  /\ existsb (fun u => reviewer_or_admin (user_globalRole u))
       (users db_no_reviewer) = false
  /\ POST_ttfu parseDate g_new (Some (session_of spv)) (Some new_ttfu_body)
       db_no_reviewer
     = (let row := new_ttfu g_new new_ttfu_input "u_spv" "u_spv" None in
        let db' := with_ttfus db_no_reviewer [row] in
        (Json200 (include_ttfu db' row), db'))
  /\ is_validation_error
       (fst (POST_ttfu parseDate g_new (Some (session_of spv))
               (Some new_ttfu_body) db_no_reviewer)) = false
  /\ ttfus (snd (POST_ttfu parseDate g_new (Some (session_of spv))
                   (Some new_ttfu_body) db_no_reviewer))
     <> ttfus db_no_reviewer.
Proof. repeat split. discriminate. Qed.

(** C2 on the same directory, for the user. *)
Lemma C2_witness :
  POST_ttfu parseDate g_new (Some (session_of user)) (Some new_ttfu_body)
    db_no_reviewer
  = (let row := new_ttfu g_new new_ttfu_input "u_user" "u_user" None in
     let db' := with_ttfus db_no_reviewer [row] in
     (Json200 (include_ttfu db' row), db')).
Proof.
  exact (proj2 (proj2
           (C2_no_reviewer_falls_back_to_creator parseDate g_new
              (session_of user) new_ttfu_body new_ttfu_input db_no_reviewer user
              eq_refl eq_refl eq_refl (or_intror eq_refl) eq_refl eq_refl eq_refl))
         None eq_refl eq_refl eq_refl).
Defined.

(** C5 fails on the same directory: the reviewer of the TTFU the user
    creates is the user, who is neither reviewer nor admin. *)
Lemma C5_counterexample :
  user_findUnique "u_user" db_no_reviewer = Some user
  /\ user_globalRole user = USER
  /\ POST_ttfu parseDate g_new (Some (session_of user)) (Some new_ttfu_body)
       db_no_reviewer
     = (Json200
          (include_ttfu
             (with_ttfus db_no_reviewer
                [new_ttfu g_new new_ttfu_input "u_user" "u_user" None])
             (new_ttfu g_new new_ttfu_input "u_user" "u_user" None)),
        with_ttfus db_no_reviewer
          [new_ttfu g_new new_ttfu_input "u_user" "u_user" None])
  /\ ttfu_reviewerId (new_ttfu g_new new_ttfu_input "u_user" "u_user" None)
     = user_id user
  /\ reviewer_or_admin (user_globalRole user) = false
  /\ existsb (fun u => (user_id u =? "u_user")%string
                       && reviewer_or_admin (user_globalRole u))
       (users db_no_reviewer) = false.
Proof. repeat split. Qed.

(** C5 on the seed: the first reviewer or admin of the user table is the
    admin. *)
Lemma C5_witness :
  user_findFirst_globalRole_in [REVIEWER; ADMIN] db = Some admin
  /\ POST_ttfu parseDate g_new (Some (session_of spv)) (Some new_ttfu_body) db
     = (let row := new_ttfu g_new new_ttfu_input "u_spv" "u_admin" None in
        let db' := with_ttfus db (ttfus db ++ [row]) in
        (Json200 (include_ttfu db' row), db')).
Proof.
  split; [reflexivity|].
  exact (proj2 (proj2 (proj2
           (C5_spv_or_user_auto_assignment parseDate g_new
              (session_of spv) new_ttfu_body new_ttfu_input db spv
              eq_refl eq_refl eq_refl (or_introl eq_refl) eq_refl eq_refl eq_refl)))
         None eq_refl eq_refl eq_refl).
Defined.

(** C6 on the seed, for the reviewer and for the admin. *)
Lemma C6_witness :
  POST_ttfu parseDate g_new (Some (session_of reviewer)) (Some new_ttfu_body) db
  = (let row := new_ttfu g_new new_ttfu_input "u_reviewer" "u_reviewer" None in
     let db' := with_ttfus db (ttfus db ++ [row]) in
     (Json200 (include_ttfu db' row), db'))
  /\ POST_ttfu parseDate g_new (Some (session_of admin)) (Some new_ttfu_body) db
     = (let row := new_ttfu g_new new_ttfu_input "u_admin" "u_admin" None in
        let db' := with_ttfus db (ttfus db ++ [row]) in
        (Json200 (include_ttfu db' row), db')).
Proof.
  split.
  - exact (proj2
             (C6_reviewer_or_admin_assigned_both parseDate g_new
                (session_of reviewer) new_ttfu_body new_ttfu_input db reviewer
                eq_refl eq_refl eq_refl (or_introl eq_refl) eq_refl eq_refl)
           None eq_refl eq_refl eq_refl).
  - exact (proj2
             (C6_reviewer_or_admin_assigned_both parseDate g_new
                (session_of admin) new_ttfu_body new_ttfu_input db admin
                eq_refl eq_refl eq_refl (or_intror eq_refl) eq_refl eq_refl)
           None eq_refl eq_refl eq_refl).
Defined.

(** C4 fails for a link that also carries a file path: both fields of
    the row are populated. *)
Lemma C4_counterexample :
  POST_evidence isURL g_new (Some (session_of user)) "t_docs"
    (Some (JObj link_and_file_props)) db
  = (Json200
       (include_evidence
          (with_evidences db
             (evidences db
              ++ [new_evidence g_new (session_of user) "t_docs" link_and_file_input]))
          (new_evidence g_new (session_of user) "t_docs" link_and_file_input)),
     with_evidences db
       (evidences db
        ++ [new_evidence g_new (session_of user) "t_docs" link_and_file_input]))
  /\ evidence_type (new_evidence g_new (session_of user) "t_docs" link_and_file_input)
     = link
  /\ evidence_url (new_evidence g_new (session_of user) "t_docs" link_and_file_input)
     = Some "https://example.com/report"
  /\ evidence_filePath
       (new_evidence g_new (session_of user) "t_docs" link_and_file_input)
     = Some "uploads/report.pdf"
  /\ exactly_one_populated
       (new_evidence g_new (session_of user) "t_docs" link_and_file_input) = false.
Proof. repeat split. Qed.

(** C4 on the seed: a link without file path. *)
Lemma C4_witness :
  fst (POST_evidence isURL g_new (Some (session_of user)) "t_docs"
         (Some (JObj link_props)) db)
  = Json200
      (include_evidence
         (with_evidences db
            (evidences db ++ [new_evidence g_new (session_of user) "t_docs" link_input]))
         (new_evidence g_new (session_of user) "t_docs" link_input))
  /\ evidence_url (new_evidence g_new (session_of user) "t_docs" link_input)
     = Some "https://example.com/report"
  /\ isURL "https://example.com/report" = true.
Proof.
  split; [reflexivity|].
  destruct (proj1
              (C4_required_field_populated isURL g_new (Some (session_of user))
                 "t_docs" (Some (JObj link_props)) db _ _ eq_refl) eq_refl)
    as (u & Hu & _ & Hok).
  cbn in Hu. inversion Hu; subst u. split; [reflexivity|exact Hok].
Defined.

(** C9 on the seed: a malformed url, a well-formed one, and a TTFU that
    does not exist. *)
Lemma C9_witness :
  (exists issues,
      POST_evidence isURL g_new (Some (session_of user)) "t_docs"
        (Some (JObj malformed_link_props)) db
      = (JsonError 400 "Validation error" (Issues issues), db)
      /\ In "url" issues)
  /\ POST_evidence isURL g_new (Some (session_of user)) "t_docs"
       (Some (JObj link_props)) db
     = (Json200
          (include_evidence
             (with_evidences db
                (evidences db
                 ++ [new_evidence g_new (session_of user) "t_docs" link_input]))
             (new_evidence g_new (session_of user) "t_docs" link_input)),
        with_evidences db
          (evidences db
           ++ [new_evidence g_new (session_of user) "t_docs" link_input]))
  /\ POST_evidence isURL g_new (Some (session_of user)) "t_gone"
       (Some (JObj link_props)) db
     = (JsonError 404 "TTFU not found" NoDetails, db).
Proof.
  destruct (C9_link_evidence isURL eq_refl g_new (session_of user) "t_docs" db
              eq_refl) as (Hbad & Hgood & _).
  destruct (C9_link_evidence isURL eq_refl g_new (session_of user) "t_gone" db
              eq_refl) as (_ & _ & Hgone).
  split; [|split].
  - exact (Hbad malformed_link_props "not a url" eq_refl eq_refl eq_refl).
  - exact (proj1 (Hgood link_props "https://example.com/report" None None ttfu1
                    eq_refl eq_refl eq_refl eq_refl eq_refl eq_refl eq_refl
                    eq_refl)).
  - exact (Hgone link_props "https://example.com/report" None None
             eq_refl eq_refl eq_refl eq_refl eq_refl eq_refl).
Defined.

(* ------------------------------------------------------------------ *)
(** ** Further properties of the routes *)

(** *** Requests without a session *)

(** X1. Without a session, or with a session whose user id is empty,
    each route answers 401 "Unauthorized" before it reads the body or the
    tables, and writes nothing. *)
Theorem unauthenticated_is_401
    (isURL : string -> bool) (parseDate : string -> option Z)
    (g : Gen) (session : option Session) (id evidenceId : string)
    (body : option Json) (db : DB)
    (Hno : unauthenticated session = true) :
  POST_ttfu parseDate g session body db
  = (JsonError 401 "Unauthorized" NoDetails, db)
  /\ POST_evidence isURL g session id body db
     = (JsonError 401 "Unauthorized" NoDetails, db)
  /\ POST_review g session id evidenceId body db
     = (JsonError 401 "Unauthorized" NoDetails, db)
  /\ GET_ttfu session id db = (JsonError 401 "Unauthorized" NoDetails, db)
  /\ PATCH_ttfu g session id body db
     = (JsonError 401 "Unauthorized" NoDetails, db).
Proof.
  destruct session as [s|]; simpl in Hno.
  - apply negb_true_iff in Hno.
    unfold POST_ttfu, POST_evidence, POST_review, GET_ttfu, PATCH_ttfu,
      PATCH_ttfu_in.
    unfold_monad. rewrite Hno. repeat split.
  - repeat split.
Qed.

(** *** What a recorded review says about the call *)

(** What a success of [POST_review] says about the call. *)
Lemma POST_review_success
    (g : Gen) (session : option Session) (id evidenceId : string)
    (body : option Json) (db db' : DB) (data : ReviewView)
    (Hok : POST_review g session id evidenceId body db = (Json200 data, db')) :
  exists s b input e t,
    session = Some s /\ truthy (session_user_id s) = true
    /\ body = Some b /\ createReviewSchema b = inr input
    /\ evidence_findUnique evidenceId db = Some e
    /\ ttfu_findUnique (evidence_ttfuId e) db = Some t
    /\ authorized_reviewer s t = true
    /\ review_findFirst evidenceId (session_user_id s) db = None
    /\ rv_review data = new_review g s evidenceId input
    /\ db' = with_reviews db (reviews db ++ [new_review g s evidenceId input]).
Proof.
  rewrite POST_review_early in Hok.
  destruct session as [s|]; [|discriminate].
  destruct (truthy (session_user_id s)) eqn:Hid; [|discriminate].
  destruct body as [b|]; [|discriminate].
  destruct (createReviewSchema b) as [issues|input] eqn:Hb; [discriminate|].
  rewrite (POST_review_run g s id evidenceId b input db Hid Hb) in Hok.
  destruct (negb (session_user_globalRole s =? "REVIEWER")%string
            && negb (session_user_globalRole s =? "ADMIN")%string);
    [discriminate|].
  destruct (evidence_findUnique evidenceId db) as [e|] eqn:He; [|discriminate].
  destruct (ttfu_findUnique (evidence_ttfuId e) db) as [t|] eqn:Ht; [|discriminate].
  destruct (authorized_reviewer s t) eqn:Hauth; [|discriminate]. simpl in Hok.
  destruct (review_findFirst evidenceId (session_user_id s) db) eqn:Hfirst;
    [discriminate|]. simpl in Hok.
  destruct (is_some (review_findUnique (cuid g) db)); [discriminate|].
  destruct (negb (is_some (user_findUnique (session_user_id s) db)));
    [discriminate|].
  inversion Hok; subst.
  exists s, b, input, e, t. repeat split; auto.
Qed.

(** X2. A submit-review call succeeds only for an authenticated caller
    with a body the schema accepts, on an evidence that exists, when the
    caller is authorized for the TTFU of that evidence and has no review
    of it yet; the row it writes carries the caller's id, the evidence of
    the path and the decision and comment of the body. *)
Theorem review_success_only_if_authorized
    (g : Gen) (session : option Session) (id evidenceId : string)
    (body : option Json) (db db' : DB) (data : ReviewView)
    (Hok : POST_review g session id evidenceId body db = (Json200 data, db')) :
  exists s b input e t,
    session = Some s /\ truthy (session_user_id s) = true
    /\ body = Some b /\ createReviewSchema b = inr input
    /\ evidence_findUnique evidenceId db = Some e
    /\ ttfu_findUnique (evidence_ttfuId e) db = Some t
    /\ authorized_reviewer s t = true
    /\ review_findFirst evidenceId (session_user_id s) db = None
    /\ rv_review data = new_review g s evidenceId input
    /\ db' = with_reviews db (reviews db ++ [new_review g s evidenceId input]).
Proof. exact (POST_review_success g session id evidenceId body db db' data Hok). Qed.

Lemma NoDup_snoc {A} (l : list A) (a : A) :
  NoDup l -> ~ In a l -> NoDup (l ++ [a]).
Proof.
  intros Hl Ha. apply NoDup_app; [exact Hl|repeat constructor; intros []|].
  intros x Hx [<-|[]]. exact (Ha Hx).
Qed.

(** The two parts, run with nothing in between, are the handler. *)
Lemma POST_review_in_two_parts g session id evidenceId body db :
  POST_review g session id evidenceId body db
  = review_resume g evidenceId
      (fst (review_checks session id evidenceId body db))
      (snd (review_checks session id evidenceId body db)).
Proof.
  unfold POST_review, review_resume, review_checks, review_insert,
    ttfu_reviewerId_of.
  unfold_monad.
  destruct session as [s|]; [|reflexivity]. cbn [fst snd].
  destruct (truthy (session_user_id s)); [|reflexivity].
  destruct body as [b|]; [|reflexivity].
  destruct (createReviewSchema b) as [issues|input]; [reflexivity|].
  destruct (negb (session_user_globalRole s =? "REVIEWER")%string
            && negb (session_user_globalRole s =? "ADMIN")%string);
    [reflexivity|].
  destruct (evidence_findUnique evidenceId db) as [e|]; [|reflexivity].
  destruct (ttfu_findUnique (evidence_ttfuId e) db) as [t|]; [|reflexivity].
  destruct (negb (ttfu_reviewerId t =? session_user_id s)%string
            && negb (session_user_globalRole s =? "ADMIN")%string);
    [reflexivity|].
  destruct (is_some (review_findFirst evidenceId (session_user_id s) db));
    reflexivity.
Qed.

Lemma review_checks_pass s id evidenceId b input e t db :
  truthy (session_user_id s) = true ->
  createReviewSchema b = inr input ->
  evidence_findUnique evidenceId db = Some e ->
  ttfu_findUnique (evidence_ttfuId e) db = Some t ->
  authorized_reviewer s t = true ->
  review_findFirst evidenceId (session_user_id s) db = None ->
  review_checks (Some s) id evidenceId (Some b) db = (Val (s, input), db).
Proof.
  intros Hid Hb He Ht Hauth Hnone.
  unfold authorized_reviewer in Hauth.
  apply andb_true_iff in Hauth as [Hrole Hdes].
  unfold review_checks, ttfu_reviewerId_of. unfold_monad.
  rewrite Hid, Hb.
  replace (negb (session_user_globalRole s =? "REVIEWER")%string
           && negb (session_user_globalRole s =? "ADMIN")%string) with false
    by (apply orb_true_iff in Hrole as [-> | ->]; simpl;
        auto using andb_false_r).
  rewrite He, Ht.
  replace (negb (ttfu_reviewerId t =? session_user_id s)%string
           && negb (session_user_globalRole s =? "ADMIN")%string) with false
    by (apply orb_true_iff in Hdes as [-> | ->]; simpl;
        auto using andb_false_r).
  rewrite Hnone. reflexivity.
Qed.

Lemma review_resume_inserts g s evidenceId input db :
  is_some (review_findUnique (cuid g) db) = false ->
  is_some (evidence_findUnique evidenceId db) = true ->
  is_some (user_findUnique (session_user_id s) db) = true ->
  let row := new_review g s evidenceId input in
  let db' := with_reviews db (reviews db ++ [row]) in
  review_resume g evidenceId (Val (s, input)) db
  = (Json200 (include_reviewer db' row), db').
Proof.
  intros Hfresh He Hu. unfold review_resume, review_insert, review_create.
  unfold_monad. cbn [fst snd]. rewrite Hfresh, He, Hu. reflexivity.
Qed.

(** X3. Reviews stay one per evidence and reviewer only as long as the
    calls do not overlap. A call that is served on its own, nothing being
    written between its lookup and its insert, keeps them so, and after it
    a second call of the same reviewer for the same evidence gets the
    conflict error. But nothing in the table refuses a second row: when
    two calls of one authorized reviewer for one evidence overlap, the
    second making its lookup before the first inserts, both are answered
    with a success, both rows are in the table, and the reviews are no
    longer one per evidence and reviewer. *)
Theorem reviews_one_each_unless_calls_overlap
    (db : DB)
    (Hone : one_review_each db) :
  (forall g session id evidenceId body,
      one_review_each (snd (POST_review g session id evidenceId body db)))
  /\ (forall g1 g2 s id1 id2 evidenceId b1 b2 input1 input2 e t,
         truthy (session_user_id s) = true ->
         createReviewSchema b1 = inr input1 ->
         createReviewSchema b2 = inr input2 ->
         evidence_findUnique evidenceId db = Some e ->
         ttfu_findUnique (evidence_ttfuId e) db = Some t ->
         authorized_reviewer s t = true ->
         review_findFirst evidenceId (session_user_id s) db = None ->
         is_some (user_findUnique (session_user_id s) db) = true ->
         is_some (review_findUnique (cuid g1) db) = false ->
         is_some (review_findUnique (cuid g2) db) = false ->
         cuid g1 <> cuid g2 ->
         let row1 := new_review g1 s evidenceId input1 in
         let row2 := new_review g2 s evidenceId input2 in
         let first := POST_review g1 (Some s) id1 evidenceId (Some b1) db in
         let second := POST_review g2 (Some s) id2 evidenceId (Some b2) (snd first) in
         let both := overlapping_reviews g1 g2 (Some s) (Some s) id1 id2
                       evidenceId evidenceId (Some b1) (Some b2) db in
         (is_success (fst first) = true
          /\ second = (JsonError 400 "You have already reviewed this evidence"
                         NoDetails, snd first)
          /\ reviews (snd second) = (reviews db ++ [row1])%list
          /\ one_review_each (snd second))
         /\ (is_success (fst (fst both)) = true
             /\ is_success (snd (fst both)) = true
             /\ reviews (snd both) = (reviews db ++ [row1; row2])%list
             /\ ~ one_review_each (snd both))).
Proof.
  assert (Halone : forall g session id evidenceId body,
             one_review_each (snd (POST_review g session id evidenceId body db))).
  { intros g session id evidenceId body.
    destruct (POST_review g session id evidenceId body db) as [reply db'] eqn:Hrun.
    destruct reply as [data|st err det|exn].
    - destruct (POST_review_success _ _ _ _ _ _ _ _ Hrun)
        as (s & b & input & e & t & _ & _ & _ & _ & _ & _ & _ & Hnone & _ & ->).
      simpl. unfold one_review_each in *. simpl.
      rewrite map_app. simpl.
      apply NoDup_snoc; [exact Hone|].
      intros Hin. apply in_map_iff in Hin as (r & Hr & Hin).
      inversion Hr as [[He Hs]].
      unfold review_findFirst in Hnone.
      pose proof (find_none _ _ Hnone r Hin) as Hf. simpl in Hf.
      rewrite He, Hs, !String.eqb_refl in Hf. discriminate.
    - pose proof (POST_review_frame g session id evidenceId body db) as Hf.
      rewrite Hrun in Hf. simpl in Hf.
      destruct Hf as (_ & _ & _ & _ & Hsame). rewrite Hsame by reflexivity.
      exact Hone.
    - pose proof (POST_review_frame g session id evidenceId body db) as Hf.
      rewrite Hrun in Hf. simpl in Hf.
      destruct Hf as (_ & _ & _ & _ & Hsame). rewrite Hsame by reflexivity.
      exact Hone. }
  split; [exact Halone|].
  intros g1 g2 s id1 id2 evidenceId b1 b2 input1 input2 e t
    Hid Hb1 Hb2 He Ht Hauth Hnone Huser Hfresh1 Hfresh2 Hdistinct
    row1 row2 first second both.
  set (db1 := with_reviews db (reviews db ++ [row1])).
  assert (He_some : is_some (evidence_findUnique evidenceId db) = true)
    by (rewrite He; reflexivity).
  assert (Hfirst : first = (Json200 (include_reviewer db1 row1), db1)).
  { unfold first. rewrite POST_review_in_two_parts.
    rewrite (review_checks_pass s id1 evidenceId b1 input1 e t db)
      by assumption.
    cbn [fst snd].
    exact (review_resume_inserts g1 s evidenceId input1 db Hfresh1 He_some Huser). }
  assert (Hfound1 : review_findFirst evidenceId (session_user_id s) db1 = Some row1).
  { unfold review_findFirst, db1. cbn [reviews with_reviews]. rewrite find_snoc.
    unfold review_findFirst in Hnone. rewrite Hnone.
    unfold row1. cbn [new_review review_evidenceId review_reviewerId].
    rewrite !String.eqb_refl. reflexivity. }
  split.
  - (* one after the other *)
    assert (Hsecond : second
              = (JsonError 400 "You have already reviewed this evidence"
                   NoDetails, db1)).
    { unfold second. rewrite Hfirst. cbn [snd].
      rewrite (POST_review_run g2 s id2 evidenceId b2 input2 db1 Hid Hb2).
      pose proof Hauth as Hauth'. unfold authorized_reviewer in Hauth'.
      apply andb_true_iff in Hauth' as [Hrole _].
      replace (negb (session_user_globalRole s =? "REVIEWER")%string
               && negb (session_user_globalRole s =? "ADMIN")%string) with false
        by (apply orb_true_iff in Hrole as [-> | ->]; simpl;
            auto using andb_false_r).
      change (evidence_findUnique evidenceId db1)
        with (evidence_findUnique evidenceId db).
      rewrite He.
      change (ttfu_findUnique (evidence_ttfuId e) db1)
        with (ttfu_findUnique (evidence_ttfuId e) db).
      rewrite Ht, Hauth, Hfound1. reflexivity. }
    rewrite Hsecond. rewrite Hfirst. cbn [fst snd is_success].
    repeat split.
    pose proof (Halone g1 (Some s) id1 evidenceId (Some b1)) as H1.
    fold first in H1. rewrite Hfirst in H1. exact H1.
  - (* overlapping *)
    set (db2 := with_reviews db1 (reviews db1 ++ [row2])).
    assert (Hboth : both
              = ((Json200 (include_reviewer db1 row1),
                  Json200 (include_reviewer db2 row2)), db2)).
    { unfold both, overlapping_reviews. cbv zeta.
      rewrite (review_checks_pass s id1 evidenceId b1 input1 e t db)
        by assumption.
      cbn [fst snd].
      rewrite (review_checks_pass s id2 evidenceId b2 input2 e t db)
        by assumption.
      cbn [fst snd].
      rewrite (review_resume_inserts g1 s evidenceId input1 db
                 Hfresh1 He_some Huser).
      cbn [fst snd]. fold row1. fold db1.
      rewrite (review_resume_inserts g2 s evidenceId input2 db1).
      - reflexivity.
      - unfold review_findUnique, db1. cbn [reviews with_reviews].
        rewrite find_snoc. unfold review_findUnique in Hfresh2.
        destruct (find _ (reviews db)); [discriminate|].
        unfold row1. cbn [new_review review_id].
        apply String.eqb_neq in Hdistinct. rewrite Hdistinct. reflexivity.
      - exact He_some.
      - exact Huser. }
    rewrite Hboth. cbn [fst snd is_success].
    assert (Hrows : reviews db2 = (reviews db ++ [row1; row2])%list).
    { unfold db2, db1. cbn [reviews with_reviews].
      rewrite <- app_assoc. reflexivity. }
    repeat split; [exact Hrows|].
    unfold one_review_each. rewrite Hrows, map_app. intros Hnodup.
    apply NoDup_app_remove_l in Hnodup. cbn [map] in Hnodup.
    inversion Hnodup as [|k l Hnotin _]; subst. apply Hnotin. left. reflexivity.
Qed.

(* ------------------------------------------------------------------ *)
(** *** Creating a TTFU with ids in the body *)

Lemma auto_assign_both_given {R} cu a r db :
  falsy a || falsy r = false ->
  @auto_assign R cu a r db = (Val (a, r), db).
Proof. intros H. unfold auto_assign. rewrite H. reflexivity. Qed.

Lemma auto_assign_unknown_user {R} a r db :
  falsy a || falsy r = true ->
  @auto_assign R None a r db = (Val (Some (or_else a ""), Some (or_else r "")), db).
Proof. intros H. unfold auto_assign. rewrite H. reflexivity. Qed.

Lemma or_else_truthy a b : truthy b = true -> truthy (or_else a b) = true.
Proof.
  intros Hb. destruct a as [x|]; simpl; [|exact Hb].
  destruct (truthy x) eqn:Hx; [exact Hx|exact Hb].
Qed.

Lemma not_falsy_or_else a b : falsy a = false -> a = Some (or_else a b).
Proof.
  destruct a as [x|]; simpl; [|discriminate].
  destruct (truthy x); simpl; [reflexivity|discriminate].
Qed.

Lemma falsy_Some_or_else_empty a : falsy a = true -> falsy (Some (or_else a "")) = true.
Proof. intros H. rewrite (falsy_or_else a "" H). reflexivity. Qed.

Section TTFU_creation_with_ids.

Variable parseDate : string -> option Z.

(** X4. When the body names both an assignee and a reviewer, nothing is
    assigned automatically: whatever the caller's role, and even when the
    caller is not in the directory, a TTFU that is created has exactly the
    two named users; it is created when the meeting and both users exist,
    the due date reads and the id is free; and when one of the named
    users is not in the directory the insert fails on the foreign key,
    which the route answers with a 500 and no write. *)
Theorem named_ids_are_stored
    (g : Gen) (s : Session) (b : Json) (input : TTFUInput) (db : DB)
    (a r : string)
    (Hid : truthy (session_user_id s) = true)
    (Hb : createTTFUSchema b = inr input)
    (Ha : in_assigneeId input = Some a) (Hr : in_reviewerId input = Some r)
    (Hta : truthy a = true) (Htr : truthy r = true) :
  (forall data db',
      POST_ttfu parseDate g (Some s) (Some b) db = (Json200 data, db') ->
      ttfu_assigneeId (tv_ttfu data) = a /\ ttfu_reviewerId (tv_ttfu data) = r)
  /\ (forall d,
         is_some (meeting_findUnique (in_meetingId input) db) = true ->
         new_Date_or_null parseDate (in_dueDate input) = Some d ->
         is_some (ttfu_findUnique (cuid g) db) = false ->
         is_some (user_findUnique a db) = true ->
         is_some (user_findUnique r db) = true ->
         let row := new_ttfu g input a r d in
         let db' := with_ttfus db (ttfus db ++ [row]) in
         POST_ttfu parseDate g (Some s) (Some b) db =
           (Json200 (include_ttfu db' row), db'))
  /\ (forall d,
         new_Date_or_null parseDate (in_dueDate input) = Some d ->
         is_some (ttfu_findUnique (cuid g) db) = false ->
         is_some (user_findUnique a db) && is_some (user_findUnique r db) = false ->
         exists message,
           POST_ttfu parseDate g (Some s) (Some b) db =
             (JsonError 500 "Internal server error" (Message message), db)).
Proof.
  assert (Hassign :
    @auto_assign TTFUView (user_findUnique (session_user_id s) db)
      (in_assigneeId input) (in_reviewerId input) db
    = (Val (Some a, Some r), db)).
  { rewrite Ha, Hr. apply auto_assign_both_given.
    simpl. rewrite Hta, Htr. reflexivity. }
  destruct (POST_ttfu_assigned parseDate g s b input db a r Hid Hb Hassign Hta Htr)
    as (Hinv & Hrun & _).
  split; [|split].
  - intros data db' H. destruct (Hinv data db' H) as (H1 & H2 & _). auto.
  - exact Hrun.
  - intros d Hd Hfresh Hmissing.
    rewrite (POST_ttfu_run parseDate g s b input db _ Hid Hb Hassign).
    cbn [fst snd]. rewrite (truthy_not_falsy a Hta), (truthy_not_falsy r Htr).
    rewrite (truthy_or_else a Hta), (truthy_or_else r Htr). cbn [orb].
    rewrite Hd, Hfresh.
    apply andb_false_iff in Hmissing.
    eexists.
    destruct Hmissing as [-> | ->]; simpl; rewrite ?orb_true_r; reflexivity.
Qed.

(** X5. When the body leaves out the assignee or the reviewer (or gives
    it empty) the other one, if given, is treated by role: for a
    supervisor or user it is discarded, the creator becoming the assignee
    and the first reviewer or admin, or else the creator, the reviewer;
    for a reviewer or admin it is kept and only the missing one is filled
    with the creator. *)
Theorem one_named_id_by_role
    (g : Gen) (s : Session) (b : Json) (input : TTFUInput) (db : DB) (cu : User)
    (Hid : truthy (session_user_id s) = true)
    (Hb : createTTFUSchema b = inr input)
    (Hcu : user_findUnique (session_user_id s) db = Some cu)
    (Hmissing : falsy (in_assigneeId input) || falsy (in_reviewerId input) = true)
    (data : TTFUView) (db' : DB)
    (Hok : POST_ttfu parseDate g (Some s) (Some b) db = (Json200 data, db')) :
  (spv_or_user (Some cu) = true ->
     ttfu_assigneeId (tv_ttfu data) = session_user_id s
     /\ ttfu_reviewerId (tv_ttfu data)
        = or_else (option_map user_id
                     (user_findFirst_globalRole_in [REVIEWER; ADMIN] db))
                  (session_user_id s))
  /\ (spv_or_user (Some cu) = false ->
        ttfu_assigneeId (tv_ttfu data)
        = or_else (in_assigneeId input) (session_user_id s)
        /\ ttfu_reviewerId (tv_ttfu data)
           = or_else (in_reviewerId input) (session_user_id s)).
Proof.
  destruct (findUnique_user_id _ _ _ Hcu) as [Hcuid Hin].
  split; intros Hrole.
  - assert (Hassign :
      @auto_assign TTFUView (user_findUnique (session_user_id s) db)
        (in_assigneeId input) (in_reviewerId input) db
      = (Val (Some (session_user_id s),
              Some (or_else (option_map user_id
                               (user_findFirst_globalRole_in [REVIEWER; ADMIN] db))
                            (session_user_id s))), db)).
    { rewrite Hcu, (auto_assign_spv_or_user cu _ _ db Hrole Hmissing), Hcuid.
      reflexivity. }
    destruct (POST_ttfu_assigned parseDate g s b input db _ _ Hid Hb Hassign Hid
                (or_else_truthy _ _ Hid)) as (Hinv & _ & _).
    destruct (Hinv data db' Hok) as (H1 & H2 & _). auto.
  - assert (Hassign :
      @auto_assign TTFUView (user_findUnique (session_user_id s) db)
        (in_assigneeId input) (in_reviewerId input) db
      = (Val (Some (or_else (in_assigneeId input) (session_user_id s)),
              Some (or_else (in_reviewerId input) (session_user_id s))), db)).
    { rewrite Hcu, (auto_assign_reviewer_or_admin cu _ _ db Hrole Hmissing), Hcuid.
      rewrite (truthy_or_else _ Hid). reflexivity. }
    destruct (POST_ttfu_assigned parseDate g s b input db _ _ Hid Hb Hassign
                (or_else_truthy _ _ Hid) (or_else_truthy _ _ Hid))
      as (Hinv & _ & _).
    destruct (Hinv data db' Hok) as (H1 & H2 & _). auto.
Qed.

(** X6. For an authenticated caller with a body the schema accepts, the
    route answers that no assignee or reviewer was found exactly when the
    caller is not in the user table and the body leaves out the assignee
    or the reviewer; it writes nothing then. *)
Theorem unable_to_assign_iff_unknown_caller
    (g : Gen) (s : Session) (b : Json) (input : TTFUInput) (db : DB)
    (Hid : truthy (session_user_id s) = true)
    (Hb : createTTFUSchema b = inr input) :
  POST_ttfu parseDate g (Some s) (Some b) db
  = (JsonError 400 "Unable to assign TTFU. No valid assignee or reviewer found."
       NoDetails, db)
  <-> (user_findUnique (session_user_id s) db = None
       /\ falsy (in_assigneeId input) || falsy (in_reviewerId input) = true).
Proof.
  destruct (falsy (in_assigneeId input) || falsy (in_reviewerId input)) eqn:Hmissing.
  - destruct (user_findUnique (session_user_id s) db) as [cu|] eqn:Hcu.
    + split; [|intros [H _]; discriminate].
      intros Hbad. exfalso.
      assert (Hval : is_validation_error
                (fst (POST_ttfu parseDate g (Some s) (Some b) db)) = false).
      { destruct (findUnique_user_id _ _ _ Hcu) as [Hcuid Hin].
        destruct (spv_or_user (Some cu)) eqn:Hrole.
        - refine (proj2 (proj2
                    (POST_ttfu_assigned parseDate g s b input db
                       (session_user_id s)
                       (or_else (option_map user_id
                                   (user_findFirst_globalRole_in [REVIEWER; ADMIN] db))
                                (session_user_id s))
                       Hid Hb _ Hid (or_else_truthy _ _ Hid)))).
          rewrite Hcu, (auto_assign_spv_or_user cu _ _ db Hrole Hmissing), Hcuid.
          reflexivity.
        - refine (proj2 (proj2
                    (POST_ttfu_assigned parseDate g s b input db
                       (or_else (in_assigneeId input) (session_user_id s))
                       (or_else (in_reviewerId input) (session_user_id s))
                       Hid Hb _ (or_else_truthy _ _ Hid) (or_else_truthy _ _ Hid)))).
          rewrite Hcu, (auto_assign_reviewer_or_admin cu _ _ db Hrole Hmissing).
          rewrite Hcuid, (truthy_or_else _ Hid). reflexivity. }
      rewrite Hbad in Hval. discriminate.
    + split; [intros _; auto|]. intros _.
      rewrite (POST_ttfu_run parseDate g s b input db _ Hid Hb
                 ltac:(rewrite Hcu; apply auto_assign_unknown_user; exact Hmissing)).
      cbn [fst snd]. apply orb_true_iff in Hmissing.
      destruct Hmissing as [H|H]; rewrite (falsy_Some_or_else_empty _ H);
        rewrite ?orb_true_r; reflexivity.
  - split; [|intros [_ H]; discriminate].
    intros Hbad. exfalso.
    apply orb_false_iff in Hmissing as [Hfa Hfr].
    assert (Hval : is_validation_error
              (fst (POST_ttfu parseDate g (Some s) (Some b) db)) = false).
    { destruct (in_assigneeId input) as [a|] eqn:Ha; [|discriminate].
      destruct (in_reviewerId input) as [r|] eqn:Hr; [|discriminate].
      simpl in Hfa, Hfr. apply negb_false_iff in Hfa, Hfr.
      refine (proj2 (proj2
                (POST_ttfu_assigned parseDate g s b input db a r Hid Hb _ Hfa Hfr))).
      rewrite Ha, Hr. apply auto_assign_both_given. simpl.
      rewrite Hfa, Hfr. reflexivity. }
    rewrite Hbad in Hval. discriminate.
Qed.

End TTFU_creation_with_ids.

(* ------------------------------------------------------------------ *)
(** *** Evidence of either kind *)

Section Evidence_of_either_kind.

Variable isURL : string -> bool.

(** X7. For an authenticated caller and a body the schema accepts: an
    unknown TTFU is answered first, with 404; then a link without url (or
    with the empty one) and a file without file path (or with the empty
    one) are refused with their own 400, nothing being written; and a
    file with a file path is stored, with the TTFU of the path, the caller
    as submitter and whatever url the body carried, when the caller is in
    the user table and the id is free. *)
Theorem evidence_required_field
    (g : Gen) (s : Session) (id : string) (b : Json) (input : EvidenceInput)
    (db : DB)
    (Hid : truthy (session_user_id s) = true)
    (Hb : createEvidenceSchema isURL b = inr input) :
  (ttfu_findUnique id db = None ->
     POST_evidence isURL g (Some s) id (Some b) db
     = (JsonError 404 "TTFU not found" NoDetails, db))
  /\ (is_some (ttfu_findUnique id db) = true ->
        ein_type input = link -> falsy (ein_url input) = true ->
        POST_evidence isURL g (Some s) id (Some b) db
        = (JsonError 400 "URL is required for link evidence" NoDetails, db))
  /\ (is_some (ttfu_findUnique id db) = true ->
        ein_type input = file -> falsy (ein_filePath input) = true ->
        POST_evidence isURL g (Some s) id (Some b) db
        = (JsonError 400 "File path is required for file evidence" NoDetails, db))
  /\ (forall f,
        is_some (ttfu_findUnique id db) = true ->
        ein_type input = file -> ein_filePath input = Some f -> truthy f = true ->
        is_some (user_findUnique (session_user_id s) db) = true ->
        is_some (evidence_findUnique (cuid g) db) = false ->
        let row := new_evidence g s id input in
        let db' := with_evidences db (evidences db ++ [row]) in
        POST_evidence isURL g (Some s) id (Some b) db
        = (Json200 (include_evidence db' row), db')
        /\ evidence_type row = file
        /\ evidence_filePath row = Some f
        /\ evidence_url row = or_null (ein_url input)).
Proof.
  rewrite (POST_evidence_run isURL g s id b input db Hid Hb).
  split; [|split; [|split]].
  - intros ->. reflexivity.
  - intros -> -> ->. reflexivity.
  - intros -> -> ->. reflexivity.
  - intros f -> Ht Hf Htf -> ->. rewrite Ht, Hf. simpl. rewrite Htf. simpl.
    repeat split; [exact Ht|]. rewrite Hf. simpl. rewrite Htf. reflexivity.
Qed.

(** X8. The url of a body is checked whatever the kind: a file evidence
    that carries a url the URL check refuses is a validation error, and
    nothing is written. *)
Theorem malformed_url_refused_for_any_kind
    (g : Gen) (s : Session) (id : string) (o : list (string * Json)) (u : string)
    (db : DB)
    (Hid : truthy (session_user_id s) = true)
    (Hu : prop o "url" = Some (JStr u))
    (Hbad : isURL u = false) :
  exists issues,
    POST_evidence isURL g (Some s) id (Some (JObj o)) db
    = (JsonError 400 "Validation error" (Issues issues), db)
    /\ In "url" issues.
Proof.
  destruct (schema_refuses_malformed_url isURL o u Hu Hbad) as (issues & Hs & Hin).
  exists issues. split; [|exact Hin].
  rewrite POST_evidence_early, Hid, Hs. reflexivity.
Qed.

Lemma evidence_is_append_only_failure g session id body db :
  is_success (fst (POST_evidence isURL g session id body db)) = false ->
  snd (POST_evidence isURL g session id body db) = db.
Proof.
  rewrite POST_evidence_early.
  destruct session as [s|]; [|reflexivity].
  destruct (truthy (session_user_id s)) eqn:Hid; [|reflexivity].
  destruct body as [b|]; [|reflexivity].
  destruct (createEvidenceSchema isURL b) as [issues|input] eqn:Hb; [reflexivity|].
  rewrite (POST_evidence_run isURL g s id b input db Hid Hb).
  repeat case_match; simpl; intros H; (reflexivity || discriminate).
Qed.

(** X9. The evidence route only ever adds to the evidence table: after
    any call the other tables are as before, the evidence table is the
    old one, unchanged, with at most one row after it, and it is the old
    one whenever the answer is not a success. *)
Theorem evidence_is_append_only
    (g : Gen) (session : option Session) (id : string) (body : option Json)
    (db : DB) :
  let out := POST_evidence isURL g session id body db in
  extends db (snd out)
  /\ ttfus (snd out) = ttfus db /\ reviews (snd out) = reviews db
  /\ (is_success (fst out) = false -> snd out = db)
  /\ (is_success (fst out) = true ->
      exists row, evidences (snd out) = (evidences db ++ [row])%list
                  /\ evidence_ttfuId row = id
                  /\ Some (evidence_submittedById row)
                     = option_map session_user_id session).
Proof.
  assert (Hsame : extends db db).
  { unfold extends. repeat split; exists []; symmetry; apply app_nil_r. }
  cbv zeta. rewrite POST_evidence_early.
  assert (Hfail : forall st err det,
            let out := (@JsonError EvidenceView st err det, db) in
            extends db (snd out)
            /\ ttfus (snd out) = ttfus db /\ reviews (snd out) = reviews db
            /\ (is_success (fst out) = false -> snd out = db)
            /\ (is_success (fst out) = true ->
                exists row, evidences (snd out) = (evidences db ++ [row])%list
                            /\ evidence_ttfuId row = id
                            /\ Some (evidence_submittedById row)
                               = option_map session_user_id session)).
  { intros st err det. simpl. split; [exact Hsame|].
    repeat split; auto. intros; discriminate. }
  destruct session as [s|]; [|apply Hfail].
  destruct (truthy (session_user_id s)) eqn:Hid; [|apply Hfail].
  destruct body as [b|]; [|apply Hfail].
  destruct (createEvidenceSchema isURL b) as [issues|input] eqn:Hb; [apply Hfail|].
  rewrite (POST_evidence_run isURL g s id b input db Hid Hb).
  repeat case_match; try apply Hfail.
  simpl. split.
  - unfold extends. simpl. repeat split; try (exists []; symmetry; apply app_nil_r).
    eexists. reflexivity.
  - repeat split; auto; try (intros; discriminate).
    intros _. eexists. repeat split.
Qed.

End Evidence_of_either_kind.

(* ------------------------------------------------------------------ *)
(** *** Reading a TTFU *)

Lemma map_ev_evidence_include db l :
  map ev_evidence (map (include_evidence db) l) = l.
Proof.
  induction l as [|e l IH]; simpl; [reflexivity|]. rewrite IH. reflexivity.
Qed.

Lemma map_rv_review_include db l :
  map rv_review (map (include_reviewer db) l) = l.
Proof.
  induction l as [|r l IH]; simpl; [reflexivity|]. rewrite IH. reflexivity.
Qed.

(** X10. Reading a TTFU writes nothing. For an authenticated caller it
    answers 404 for an id no TTFU has, and otherwise the TTFU of that id
    with exactly its evidences, each once, none of another TTFU, newest
    first, and each evidence with exactly the reviews made of it. *)
Theorem GET_ttfu_lists_exactly_its_evidence
    (s : Session) (id : string) (db : DB)
    (Hid : truthy (session_user_id s) = true) :
  (ttfu_findUnique id db = None ->
     GET_ttfu (Some s) id db = (JsonError 404 "TTFU not found" NoDetails, db))
  /\ (forall t,
        ttfu_findUnique id db = Some t ->
        exists detail,
          GET_ttfu (Some s) id db = (Json200 detail, db)
          /\ tv_ttfu (td_ttfu detail) = t
          /\ Permutation (evidences_of db id)
               (map ev_evidence (td_evidences detail))
          /\ newest_first (td_evidences detail)
          /\ (forall v, In v (td_evidences detail) ->
                evidence_ttfuId (ev_evidence v) = id
                /\ In (ev_evidence v) (evidences db)
                /\ map rv_review (ev_reviews v)
                   = reviews_of db (evidence_id (ev_evidence v)))).
Proof.
  rewrite (GET_ttfu_run s id db Hid). split.
  - intros ->. reflexivity.
  - intros t Ht. rewrite Ht. exists (include_ttfu_detail db t).
    destruct (findUnique_ttfu_id _ _ _ Ht) as [Htid _].
    split; [reflexivity|]. split; [reflexivity|].
    assert (Hperm : Permutation (evidences_of db id)
                      (map ev_evidence (td_evidences (include_ttfu_detail db t)))).
    { unfold include_ttfu_detail. cbn [td_evidences].
      rewrite map_ev_evidence_include, Htid. apply orderBy_desc_perm. }
    split; [exact Hperm|].
    split; [apply include_ttfu_detail_newest_first|].
    intros v Hv.
    assert (Hin : In (ev_evidence v) (evidences_of db id)).
    { eapply Permutation_in; [symmetry; exact Hperm|]. apply in_map. exact Hv. }
    unfold evidences_of in Hin. apply filter_In in Hin as [Hin Heq].
    apply String.eqb_eq in Heq.
    split; [exact Heq|]. split; [exact Hin|].
    unfold include_ttfu_detail in Hv. cbn [td_evidences] in Hv.
    apply in_map_iff in Hv as (e & <- & _). simpl.
    apply map_rv_review_include.
Qed.

(* ------------------------------------------------------------------ *)
(** *** The status update and the review path *)

(** X11. The status update never goes through: whoever calls it, with
    whatever id and body, the answer is 401 without a session and an
    uncaught [ReferenceError] with one, and no table changes; so a TTFU
    keeps the status it was created with. *)
Theorem status_update_never_succeeds
    (g : Gen) (session : option Session) (id : string) (body : option Json)
    (db : DB) :
  PATCH_ttfu g session id body db
  = (if unauthenticated session
     then JsonError 401 "Unauthorized" NoDetails
     else Uncaught (JsError "z is not defined"), db)
  /\ forall tid, ttfu_findUnique tid (snd (PATCH_ttfu g session id body db))
                 = ttfu_findUnique tid db.
Proof.
  assert (H : PATCH_ttfu g session id body db
              = (if unauthenticated session
                 then JsonError 401 "Unauthorized" NoDetails
                 else Uncaught (JsError "z is not defined"), db)).
  { destruct session as [s|]; [|reflexivity]. simpl.
    destruct (truthy (session_user_id s)) eqn:Hid; simpl.
    - apply PATCH_ttfu_unbound_z. exact Hid.
    - unfold PATCH_ttfu, PATCH_ttfu_in. unfold_monad. rewrite Hid. reflexivity. }
  split; [exact H|]. intros tid. rewrite H. reflexivity.
Qed.

(* ------------------------------------------------------------------ *)
(** *** Listing TTFUs *)

Lemma firstn_skipn_tiles {A} (n : nat) (m : nat) (l : list A) :
  (length l <= m * n)%nat ->
  concat (map (fun k => firstn n (skipn (k * n) l)) (seq 0 m)) = l.
Proof.
  revert l. induction m as [|m IH]; intros l Hlen.
  - simpl in Hlen. destruct l; [reflexivity|simpl in Hlen; lia].
  - rewrite <- cons_seq, <- seq_shift. simpl. rewrite map_map.
    transitivity (firstn n l ++ skipn n l)%list; [|apply firstn_skipn].
    f_equal.
    assert (Hrest : (length (skipn n l) <= m * n)%nat)
      by (rewrite length_skipn; simpl in Hlen; lia).
    etransitivity; [|exact (IH (skipn n l) Hrest)].
    apply f_equal. apply map_ext. intros k.
    rewrite skipn_skipn. f_equal. f_equal. lia.
Qed.

Lemma orderBy_desc_In {A} (key : A -> Z) (l : list A) x :
  In x (orderBy_desc key l) <-> In x l.
Proof.
  split; intros H.
  - eapply Permutation_in; [symmetry; apply orderBy_desc_perm|exact H].
  - eapply Permutation_in; [apply orderBy_desc_perm|exact H].
Qed.

Lemma In_firstn {A} n (l : list A) x : In x (firstn n l) -> In x l.
Proof.
  intros H. rewrite <- (firstn_skipn n l). apply in_or_app. left. exact H.
Qed.

Lemma In_skipn {A} n (l : list A) x : In x (skipn n l) -> In x l.
Proof.
  intros H. rewrite <- (firstn_skipn n l). apply in_or_app. right. exact H.
Qed.

Lemma StronglySorted_skipn {A} (R : A -> A -> Prop) n l :
  StronglySorted R l -> StronglySorted R (skipn n l).
Proof.
  revert l. induction n as [|n IH]; intros l Hs; simpl; [exact Hs|].
  destruct l; [constructor|]. apply IH. inversion Hs; assumption.
Qed.

Lemma StronglySorted_firstn {A} (R : A -> A -> Prop) n l :
  StronglySorted R l -> StronglySorted R (firstn n l).
Proof.
  revert l. induction n as [|n IH]; intros l Hs; simpl; [constructor|].
  destruct l as [|x l]; [constructor|]. inversion Hs; subst.
  constructor; [apply IH; assumption|].
  rewrite Forall_forall in *. intros y Hy. apply H2.
  eapply In_firstn. exact Hy.
Qed.

Lemma map_listed_include db l :
  map (fun item => tv_ttfu (li_ttfu item)) (map (include_list_item db) l) = l.
Proof.
  induction l as [|t l IH]; simpl; [reflexivity|]. rewrite IH. reflexivity.
Qed.

Lemma ceil_div_bounds total l :
  0 < l -> (- ((- total) / l) - 1) * l < total <= - ((- total) / l) * l.
Proof.
  intros Hl.
  pose proof (Z.div_mod (- total) l ltac:(lia)) as Hdm.
  pose proof (Z.mod_pos_bound (- total) l Hl) as Hmod.
  nia.
Qed.

Section Listing_properties.

Variable parseInt : string -> Num.
Variable findMany_irregular : Num -> Num -> list TTFU -> Exn + list TTFU.

(** What the route answers to an authenticated caller who asks for page
    [p >= 1] of [l >= 1] rows with a status that the enum has, or none. *)
Lemma GET_ttfus_run s q db status p l :
  truthy (session_user_id s) = true ->
  where_status (q_status q) = inr status ->
  parseInt (or_else (q_page q) "1") = Int p ->
  parseInt (or_else (q_limit q) "10") = Int l ->
  1 <= p -> 1 <= l -> l < 2 ^ 31 -> (p - 1) * l < 2 ^ 31 ->
  GET_ttfus parseInt findMany_irregular (Some s) q db =
    (Json200
       {| page_data :=
            map (include_list_item db)
              (firstn (Z.to_nat l)
                 (skipn (Z.to_nat ((p - 1) * l)) (selected q status db)));
          page_pagination :=
            {| pg_total :=
                 Z.of_nat (length (filter (where_matches q status) (ttfus db)));
               pg_page := Some p; pg_limit := Some l;
               pg_totalPages :=
                 Some (- ((- Z.of_nat (length (filter (where_matches q status)
                                                 (ttfus db)))) / l)) |} |},
     db).
Proof.
  intros Hid Hst Hp Hl Hp1 Hl1 Hlb Hsb.
  unfold GET_ttfus, ttfu_findMany, ttfu_count, selected. unfold_monad.
  rewrite Hid, Hp, Hl, Hst. cbn [num_pred num_mul row_count].
  assert (H1 : (0 <=? (p - 1) * l) && ((p - 1) * l <? 2 ^ 31) = true).
  { apply andb_true_iff. split; [apply Z.leb_le; nia|apply Z.ltb_lt; lia]. }
  assert (H2 : (0 <=? l) && (l <? 2 ^ 31) = true).
  { apply andb_true_iff. split; [apply Z.leb_le; lia|apply Z.ltb_lt; lia]. }
  rewrite H1, H2. cbn [ceil_div json_number].
  replace (l =? 0) with false by (symmetry; apply Z.eqb_neq; lia).
  reflexivity.
Qed.

(** X13. An authenticated caller who asks for page [p >= 1] of [l >= 1]
    rows gets a success that writes nothing and lists at most [l] TTFUs,
    newest first, each of them in the table and passing every filter the
    query gives (an empty parameter being no filter); [total] counts the
    rows that pass whatever the page, and [totalPages] is the least number
    of pages of [l] rows that hold them. *)
Theorem listing_respects_filters_and_limit
    (s : Session) (q : Query) (db : DB) (status : option TtfuStatus) (p l : Z)
    (Hid : truthy (session_user_id s) = true)
    (Hst : where_status (q_status q) = inr status)
    (Hp : parseInt (or_else (q_page q) "1") = Int p)
    (Hl : parseInt (or_else (q_limit q) "10") = Int l)
    (Hp1 : 1 <= p) (Hl1 : 1 <= l) (Hlb : l < 2 ^ 31) (Hsb : (p - 1) * l < 2 ^ 31) :
  exists pg,
    GET_ttfus parseInt findMany_irregular (Some s) q db = (Json200 pg, db)
    /\ Z.of_nat (length (page_data pg)) <= l
    /\ StronglySorted (fun x y => ttfu_createdAt y <= ttfu_createdAt x)
         (listed (Json200 pg))
    /\ (forall t, In t (listed (Json200 pg)) ->
          In t (ttfus db)
          /\ (forall m, or_null (q_meetingId q) = Some m -> ttfu_meetingId t = m)
          /\ (forall st, status = Some st -> ttfu_status t = st)
          /\ (forall a, or_null (q_assigneeId q) = Some a -> ttfu_assigneeId t = a)
          /\ (forall r, or_null (q_reviewerId q) = Some r -> ttfu_reviewerId t = r))
    /\ pg_total (page_pagination pg)
       = Z.of_nat (length (filter (where_matches q status) (ttfus db)))
    /\ exists tp,
         pg_totalPages (page_pagination pg) = Some tp
         /\ (tp - 1) * l < pg_total (page_pagination pg) <= tp * l.
Proof.
  eexists. split; [apply (GET_ttfus_run s q db status p l); assumption|].
  cbn [page_data page_pagination pg_total pg_totalPages listed].
  rewrite map_listed_include.
  split.
  { rewrite length_map.
    pose proof (firstn_le_length (Z.to_nat l)
                  (skipn (Z.to_nat ((p - 1) * l)) (selected q status db))). lia. }
  split.
  { apply StronglySorted_firstn, StronglySorted_skipn.
    unfold selected. apply orderBy_desc_sorted. }
  split.
  { intros t Ht. apply In_firstn, In_skipn in Ht.
    unfold selected in Ht. apply orderBy_desc_In in Ht.
    apply filter_In in Ht as [Hin Hm]. split; [exact Hin|].
    unfold where_matches, passes in Hm.
    apply andb_true_iff in Hm as [Hm Hr].
    apply andb_true_iff in Hm as [Hm Ha].
    apply andb_true_iff in Hm as [Hm Hs].
    repeat split.
    - intros m Hq. rewrite Hq in Hm. apply String.eqb_eq. exact Hm.
    - intros st ->. destruct (ttfu_status t), st; simpl in Hs;
        (reflexivity || discriminate).
    - intros a Hq. rewrite Hq in Ha. apply String.eqb_eq. exact Ha.
    - intros r Hq. rewrite Hq in Hr. apply String.eqb_eq. exact Hr. }
  split; [reflexivity|].
  eexists. split; [reflexivity|]. apply ceil_div_bounds. lia.
Qed.

(** X14. The pages tile the selection: for queries that differ only in
    the page, asking for the pages 1, 2, ... up to [totalPages] and putting
    the answers one after the other gives every TTFU that passes the
    filters exactly as often as the table has it, newest first. No two
    TTFUs are taken to be created at the same instant: the order of such
    rows is the database's choice, and need not be the same from one page
    to the next. *)
Theorem pages_tile_the_selection
    (s : Session) (q : Query) (ask : Z -> Query) (db : DB)
    (status : option TtfuStatus) (l : Z)
    (Hid : truthy (session_user_id s) = true)
    (Hst : where_status (q_status q) = inr status)
    (Hl1 : 1 <= l)
    (Hask : forall p,
        1 <= p <= - ((- Z.of_nat (length (filter (where_matches q status)
                                            (ttfus db)))) / l) ->
        same_filters q (ask p)
        /\ parseInt (or_else (q_page (ask p)) "1") = Int p
        /\ parseInt (or_else (q_limit (ask p)) "10") = Int l)
    (Hsmall : Z.of_nat (length (ttfus db)) + l < 2 ^ 31)
    (Hinstants : NoDup (map ttfu_createdAt (ttfus db))) :
  let total := Z.of_nat (length (filter (where_matches q status) (ttfus db))) in
  let totalPages := Z.to_nat (- ((- total) / l)) in
  concat
    (map (fun k =>
            listed (fst (GET_ttfus parseInt findMany_irregular (Some s)
                           (ask (Z.of_nat k + 1)) db)))
         (seq 0 totalPages))
  = selected q status db.
Proof.
  intros total totalPages.
  pose proof (filter_length_le (where_matches q status) (ttfus db)) as Hfl.
  pose proof (ceil_div_bounds total l ltac:(lia)) as Hceil.
  assert (Htp : 0 <= - ((- total) / l)) by (unfold total in *; nia).

  assert (Hlen : length (selected q status db)
                 = length (filter (where_matches q status) (ttfus db))).
  { unfold selected. symmetry. apply Permutation_length, orderBy_desc_perm. }
  assert (Hfit : (length (selected q status db) <= totalPages * Z.to_nat l)%nat).
  { rewrite Hlen. unfold totalPages. unfold total in *. nia. }
  etransitivity;
    [|exact (firstn_skipn_tiles (Z.to_nat l) totalPages (selected q status db) Hfit)].
  apply f_equal. apply map_ext_in. intros k Hk. apply in_seq in Hk.
  assert (Hk' : Z.of_nat k < - ((- total) / l)) by (unfold totalPages in Hk; lia).
  destruct (Hask (Z.of_nat k + 1) ltac:(unfold total in Hk'; lia))
    as ((H1 & H2 & H3 & H4) & Hp & Hl).
  assert (Hsel : selected (ask (Z.of_nat k + 1)) status db = selected q status db).
  { unfold selected, where_matches. rewrite H1, H3, H4. reflexivity. }
  rewrite (GET_ttfus_run s (ask (Z.of_nat k + 1)) db status (Z.of_nat k + 1) l);
    try assumption; try lia.
  - cbn [fst listed page_data]. rewrite map_listed_include, Hsel.
    f_equal. f_equal. nia.
  - rewrite H2. exact Hst.
  - unfold total in *. nia.
Qed.

(** X15. A page past the last one is no error: asked for a page whose
    rows would start after the last selected row, the route answers a
    success with no TTFU and the same total. *)
Theorem page_past_the_end_is_empty
    (s : Session) (q : Query) (db : DB) (status : option TtfuStatus) (p l : Z)
    (Hid : truthy (session_user_id s) = true)
    (Hst : where_status (q_status q) = inr status)
    (Hp : parseInt (or_else (q_page q) "1") = Int p)
    (Hl : parseInt (or_else (q_limit q) "10") = Int l)
    (Hp1 : 1 <= p) (Hl1 : 1 <= l) (Hlb : l < 2 ^ 31) (Hsb : (p - 1) * l < 2 ^ 31)
    (Hpast : Z.of_nat (length (filter (where_matches q status) (ttfus db)))
             <= (p - 1) * l) :
  exists pg,
    GET_ttfus parseInt findMany_irregular (Some s) q db = (Json200 pg, db)
    /\ page_data pg = []
    /\ pg_total (page_pagination pg)
       = Z.of_nat (length (filter (where_matches q status) (ttfus db))).
Proof.
  eexists. split; [apply (GET_ttfus_run s q db status p l); assumption|].
  cbn [page_data page_pagination pg_total]. split; [|reflexivity].
  rewrite skipn_all2; [rewrite firstn_nil; reflexivity|].
  unfold selected.
  rewrite <- (Permutation_length (orderBy_desc_perm ttfu_createdAt _)). lia.
Qed.

(** X16. A status the enum does not have is no validation error and no
    empty list: the client refuses the [where], and the route answers 500,
    whatever the page and the limit. *)
Theorem unknown_status_is_internal_error
    (s : Session) (q : Query) (db : DB) (name : string)
    (Hid : truthy (session_user_id s) = true)
    (Hname : or_null (q_status q) = Some name)
    (Hunknown : name <> "OPEN" /\ name <> "IN_PROGRESS"
                /\ name <> "DONE" /\ name <> "REJECTED") :
  GET_ttfus parseInt findMany_irregular (Some s) q db
  = (JsonError 500 "Internal server error" NoDetails, db).
Proof.
  destruct Hunknown as (H1 & H2 & H3 & H4).
  apply String.eqb_neq in H1, H2, H3, H4.
  assert (Hst : where_status (q_status q)
                = inl (JsError "Invalid value for argument `status`. Expected TtfuStatus.")).
  { unfold where_status. rewrite Hname. cbn [assoc].
    rewrite (String.eqb_sym "OPEN"), H1, (String.eqb_sym "IN_PROGRESS"), H2,
      (String.eqb_sym "DONE"), H3, (String.eqb_sym "REJECTED"), H4. reflexivity. }
  unfold GET_ttfus, ttfu_findMany. unfold_monad. rewrite Hid, Hst. reflexivity.
Qed.

Lemma or_null_idem v : or_null (or_null v) = or_null v.
Proof.
  destruct v as [x|]; simpl; [|reflexivity].
  destruct (truthy x) eqn:Hx; simpl; [rewrite Hx|]; reflexivity.
Qed.

Lemma or_else_or_null v d : or_else (or_null v) d = or_else v d.
Proof.
  destruct v as [x|]; simpl; [|reflexivity].
  destruct (truthy x) eqn:Hx; simpl; [rewrite Hx|]; reflexivity.
Qed.

(** X17. A search parameter given empty counts as not given: the answer
    is the one to the query without it, so an empty filter selects
    everything and an empty page or limit is page 1 or limit 10. *)
Theorem empty_parameter_is_absent
    (session : option Session) (q : Query) (db : DB) :
  GET_ttfus parseInt findMany_irregular session q db
  = GET_ttfus parseInt findMany_irregular session (without_empty q) db.
Proof.
  unfold GET_ttfus, ttfu_findMany, ttfu_count, where_status, where_matches, passes,
    without_empty.
  cbn [q_meetingId q_status q_assigneeId q_reviewerId q_page q_limit].
  rewrite !or_null_idem, !or_else_or_null. reflexivity.
Qed.

End Listing_properties.

(* ------------------------------------------------------------------ *)
(** *** The reviewer dashboard *)

Lemma filter_throwing_In {A} (f : A -> option bool) l kept :
  filter_throwing f l = Some kept ->
  forall x, In x kept -> In x l /\ f x = Some true.
Proof.
  revert kept. induction l as [|a l IH]; simpl; intros kept H x Hx.
  - inversion H; subst. destruct Hx.
  - destruct (f a) as [keep|] eqn:Hfa; [|discriminate].
    destruct (filter_throwing f l) as [k|]; [|discriminate].
    inversion H; subst. destruct keep.
    + destruct Hx as [<-|Hx]; [auto|]. destruct (IH k eq_refl x Hx). auto.
    + destruct (IH k eq_refl x Hx). auto.
Qed.

Lemma some_throwing_false {A} (f : A -> option bool) l :
  some_throwing f l = Some false -> forall x, In x l -> f x = Some false.
Proof.
  induction l as [|a l IH]; simpl; intros H x Hx; [destruct Hx|].
  destruct (f a) as [[|]|] eqn:Hfa; try discriminate.
  destruct Hx as [<-|Hx]; auto.
Qed.

Lemma findUnique_of_unique_key {A} (key : A -> string) (l : list A) x :
  NoDup (map key l) -> In x l ->
  find (fun y => (key y =? key x)%string) l = Some x.
Proof.
  induction l as [|a l IH]; simpl; intros Hnd Hin; [destruct Hin|].
  inversion Hnd as [|? ? Hnotin Hnd']; subst.
  destruct Hin as [->|Hin].
  - rewrite String.eqb_refl. reflexivity.
  - destruct (key a =? key x)%string eqn:Heq; [|apply IH; assumption].
    apply String.eqb_eq in Heq. exfalso. apply Hnotin. rewrite Heq.
    apply in_map. exact Hin.
Qed.

Lemma filter_true {A} (f : A -> bool) l :
  (forall x, f x = true) -> filter f l = l.
Proof.
  intros H. induction l as [|a l IH]; simpl; [reflexivity|].
  rewrite H, IH. reflexivity.
Qed.

Section Dashboard.

Variable parseInt : string -> Num.
Variable findMany_irregular : Num -> Num -> list TTFU -> Exn + list TTFU.

(** What the dashboard is given: the first ten of all TTFUs, newest
    first. *)
Lemma dashboard_fetch s db :
  truthy (session_user_id s) = true ->
  parseInt "1" = Int 1 -> parseInt "10" = Int 10 ->
  ttfuList_of (fst (GET_ttfus parseInt findMany_irregular (Some s) no_params db))
  = map (include_list_item db)
      (firstn 10 (orderBy_desc ttfu_createdAt (ttfus db))).
Proof.
  intros Hid H1 H10.
  rewrite (GET_ttfus_run parseInt findMany_irregular s no_params db None 1 10);
    try assumption; try reflexivity; try lia.
  cbn [fst ttfuList_of page_data]. unfold selected.
  rewrite filter_true by reflexivity. reflexivity.
Qed.

(** X18. What the dashboard of a reviewer or admin shows as pending can
    be reviewed: for a TTFU in its pending list and an evidence it counts
    as pending for that TTFU, a review by that user with a body the schema
    accepts is recorded by the review route (the user being in the user
    table, the ids of TTFUs and evidences being unique and the new id
    free). *)
Theorem dashboard_pending_is_reviewable
    (s : Session) (db : DB)
    (pending : list TTFUListItem) (item : TTFUListItem)
    (evs : list EvidenceReviews) (ev : EvidenceReviews)
    (g : Gen) (b : Json) (input : ReviewInput)
    (Hid : truthy (session_user_id s) = true)
    (Hrole : session_user_globalRole s = "REVIEWER"
             \/ session_user_globalRole s = "ADMIN")
    (H1 : parseInt "1" = Int 1) (H10 : parseInt "10" = Int 10)
    (Httfus : NoDup (map ttfu_id (ttfus db)))
    (Hevidences : NoDup (map evidence_id (evidences db)))
    (Huser : is_some (user_findUnique (session_user_id s) db) = true)
    (Hpending :
       pendingReviewTTFUs (session_user_globalRole s) (session_user_id s)
         (ttfuList_of
            (fst (GET_ttfus parseInt findMany_irregular (Some s) no_params db)))
       = Some pending)
    (Hitem : In item pending)
    (Hevs : pendingEvidences (session_user_id s) item = Some evs)
    (Hev : In ev evs)
    (Hb : createReviewSchema b = inr input)
    (Hfresh : is_some (review_findUnique (cuid g) db) = false) :
  let evidenceId := evidence_id (er_evidence ev) in
  let row := new_review g s evidenceId input in
  let db' := with_reviews db (reviews db ++ [row]) in
  POST_review g (Some s) (ttfu_id (tv_ttfu (li_ttfu item))) evidenceId (Some b) db
  = (Json200 (include_reviewer db' row), db').
Proof.
  intros evidenceId row db'.
  rewrite (dashboard_fetch s db Hid H1 H10) in Hpending.
  unfold pendingReviewTTFUs in Hpending.
  destruct (assignedTTFUs _ _ _) as [assigned|] eqn:Hassigned; [|discriminate].
  destruct (filter_throwing_In _ _ _ Hpending item Hitem) as [Hin_assigned _].
  destruct (filter_throwing_In _ _ _ Hassigned item Hin_assigned)
    as [Hlisted Hmine].
  apply in_map_iff in Hlisted as (t & <- & Ht).
  apply In_firstn, orderBy_desc_In in Ht.
  (* the evidence *)
  destruct (filter_throwing_In _ _ _ Hevs ev Hev) as [Hev_in Hnot].
  cbn [li_evidences include_list_item] in Hev_in.
  apply in_map_iff in Hev_in as (e & <- & He).
  unfold evidences_of in He. apply filter_In in He as [He_in He_ttfu].
  apply String.eqb_eq in He_ttfu.
  (* nobody reviewed it under the caller's id *)
  unfold not_reviewed_by, reviewed_by in Hnot.
  cbn [er_reviews include_reviews] in Hnot.
  destruct (some_throwing _ _) as [[|]|] eqn:Hsome; try discriminate.
  assert (Hnone : review_findFirst (evidence_id e) (session_user_id s) db = None).
  { unfold review_findFirst.
    destruct (find _ (reviews db)) as [r|] eqn:Hfind; [|reflexivity].
    apply find_some in Hfind as [Hr_in Hr].
    apply andb_true_iff in Hr as [Hr_e Hr_u].
    assert (Hr_of : In (include_reviewer db r)
                      (map (include_reviewer db) (reviews_of db (evidence_id e)))).
    { apply in_map. unfold reviews_of. apply filter_In. auto. }
    pose proof (some_throwing_false _ _ Hsome _ Hr_of) as Hf.
    cbn [rv_reviewer include_reviewer] in Hf.
    destruct (user_findUnique (review_reviewerId r) db) as [u|] eqn:Hu;
      [|discriminate].
    destruct (findUnique_user_id _ _ _ Hu) as [Huid _].
    rewrite Huid, Hr_u in Hf. discriminate. }
  (* the lookups of the route *)
  assert (Hfind_e : evidence_findUnique (evidence_id e) db = Some e).
  { apply (findUnique_of_unique_key evidence_id); assumption. }
  assert (Hfind_t : ttfu_findUnique (evidence_ttfuId e) db = Some t).
  { rewrite He_ttfu. apply (findUnique_of_unique_key ttfu_id); assumption. }
  assert (Hauth : authorized_reviewer s t = true).
  { unfold authorized_reviewer.
    destruct Hrole as [Hr|Hr]; rewrite Hr; simpl; [|apply orb_true_r].
    rewrite Hr in Hmine. simpl in Hmine.
    unfold reviewer_is in Hmine. cbn [tv_reviewer li_ttfu include_list_item
                                        include_ttfu] in Hmine.
    destruct (user_findUnique (ttfu_reviewerId t) db) as [u|] eqn:Hu;
      [|discriminate].
    destruct (findUnique_user_id _ _ _ Hu) as [Huid _].
    rewrite Huid in Hmine. inversion Hmine as [Heq]. rewrite Heq. reflexivity. }
  unfold evidenceId, row, db'. cbn [er_evidence include_reviews].
  rewrite (POST_review_run g s _ (evidence_id e) b input db Hid Hb).
  replace (negb (session_user_globalRole s =? "REVIEWER")%string
           && negb (session_user_globalRole s =? "ADMIN")%string) with false
    by (destruct Hrole as [-> | ->]; reflexivity).
  rewrite Hfind_e, Hfind_t, Hauth, Hnone, Hfresh, Huser. reflexivity.
Qed.

(** X19. The dashboard looks at one page only: every TTFU it lists as
    assigned, and so every one it lists as pending, is among the ten
    newest TTFUs of the table; a TTFU that waits for the reviewer but is
    older than ten others is not shown. *)
Theorem dashboard_sees_the_ten_newest_only
    (s : Session) (db : DB) (assigned : list TTFUListItem) (item : TTFUListItem)
    (Hid : truthy (session_user_id s) = true)
    (H1 : parseInt "1" = Int 1) (H10 : parseInt "10" = Int 10)
    (Hassigned :
       assignedTTFUs (session_user_globalRole s) (session_user_id s)
         (ttfuList_of
            (fst (GET_ttfus parseInt findMany_irregular (Some s) no_params db)))
       = Some assigned)
    (Hitem : In item assigned) :
  In (tv_ttfu (li_ttfu item))
     (firstn 10 (orderBy_desc ttfu_createdAt (ttfus db)))
  /\ (length assigned <= 10)%nat.
Proof.
  rewrite (dashboard_fetch s db Hid H1 H10) in Hassigned.
  destruct (filter_throwing_In _ _ _ Hassigned item Hitem) as [Hlisted _].
  apply in_map_iff in Hlisted as (t & <- & Ht). split; [exact Ht|].
  assert (Hlen : forall A (f : A -> option bool) l k,
            filter_throwing f l = Some k -> (length k <= length l)%nat).
  { intros A f l. induction l as [|a l IH]; simpl; intros k H.
    - inversion H. reflexivity.
    - destruct (f a) as [keep|]; [|discriminate].
      destruct (filter_throwing f l) as [k'|]; [|discriminate].
      inversion H; subst. specialize (IH k' eq_refl).
      destruct keep; simpl; lia. }
  apply Hlen in Hassigned. rewrite length_map in Hassigned.
  pose proof (firstn_le_length 10 (orderBy_desc ttfu_createdAt (ttfus db))).
  lia.
Qed.

End Dashboard.

(* ------------------------------------------------------------------ *)
(** *** The form that creates a TTFU *)

Lemma schema_reads_form_body data meetingId ids :
  truthy (form_title data) = true ->
  createTTFUSchema (form_body data meetingId ids) =
    inr {| in_meetingId := meetingId; in_title := form_title data;
           in_description := form_description data;
           in_assigneeId := Some (fst ids); in_reviewerId := Some (snd ids);
           in_dueDate := form_dueDate data |}.
Proof.
  intros Ht. unfold createTTFUSchema, form_body, optional_prop.
  destruct (form_description data), (form_dueDate data); simpl; rewrite Ht;
    reflexivity.
Qed.

Lemma GlobalRole_name_not_lowercase r :
  (GlobalRole_name r =? "supervisor")%string
  || (GlobalRole_name r =? "user")%string = false.
Proof. destruct r; reflexivity. Qed.

Section Create_form.

Variable parseDate : string -> option Z.

(** X20. Through the form, once the list of users has loaded, a TTFU
    never gets a reviewer of its own: the roles of the list are the names
    of the schema (ADMIN, SPV, REVIEWER, USER), which the form does not
    take for a supervisor or user, so it names the creator as assignee and
    as reviewer, and the route stores both as named, for a supervisor or
    user as for a reviewer or admin. *)
Theorem create_form_names_the_creator_twice
    (g : Gen) (s : Session) (db : DB) (users : list ListedUser) (lu : ListedUser)
    (role : GlobalRole) (data : TTFUForm) (meetingId : string)
    (Hid : truthy (session_user_id s) = true)
    (Hlisted : find (fun u => (lu_id u =? session_user_id s)%string) users = Some lu)
    (Hrole : lu_globalRole lu = GlobalRole_name role)
    (Htitle : truthy (form_title data) = true) :
  let ids := form_ids users (Some (session_user_id s)) in
  let body := form_body data meetingId ids in
  ids = (session_user_id s, session_user_id s)
  /\ (forall view db',
         POST_ttfu parseDate g (Some s) (Some body) db = (Json200 view, db') ->
         ttfu_assigneeId (tv_ttfu view) = session_user_id s
         /\ ttfu_reviewerId (tv_ttfu view) = session_user_id s)
  /\ (forall d,
         is_some (meeting_findUnique meetingId db) = true ->
         new_Date_or_null parseDate (form_dueDate data) = Some d ->
         is_some (ttfu_findUnique (cuid g) db) = false ->
         is_some (user_findUnique (session_user_id s) db) = true ->
         is_success (fst (POST_ttfu parseDate g (Some s) (Some body) db)) = true).
Proof.
  intros ids body.
  assert (Hlu : lu_id lu = session_user_id s).
  { apply find_some in Hlisted as [_ H]. apply String.eqb_eq. exact H. }
  assert (Hids : ids = (session_user_id s, session_user_id s)).
  { unfold ids, form_ids. rewrite Hlisted. cbn [option_map].
    assert (Hname : or_else (Some (lu_globalRole lu)) "user" = GlobalRole_name role).
    { rewrite Hrole. destruct role; reflexivity. }
    rewrite Hname, GlobalRole_name_not_lowercase, Hlu.
    rewrite (truthy_or_else _ Hid). reflexivity. }
  split; [exact Hids|].
  pose proof (schema_reads_form_body data meetingId ids Htitle) as Hb.
  fold body in Hb. rewrite Hids in Hb. cbn [fst snd] in Hb.
  set (input := {| in_meetingId := meetingId; in_title := form_title data;
                   in_description := form_description data;
                   in_assigneeId := Some (session_user_id s);
                   in_reviewerId := Some (session_user_id s);
                   in_dueDate := form_dueDate data |}) in Hb.
  assert (Hassign :
    @auto_assign TTFUView (user_findUnique (session_user_id s) db)
      (in_assigneeId input) (in_reviewerId input) db
    = (Val (Some (session_user_id s), Some (session_user_id s)), db)).
  { apply auto_assign_both_given. simpl. rewrite Hid. reflexivity. }
  destruct (POST_ttfu_assigned parseDate g s body input db _ _ Hid Hb Hassign Hid Hid)
    as (Hinv & Hrun & _).
  split.
  - intros view db' H. destruct (Hinv view db' H) as (H1 & H2 & _). auto.
  - intros d Hm Hd Hfresh Huser.
    rewrite (Hrun d Hm Hd Hfresh Huser Huser). reflexivity.
Qed.

(** X21. While the list of users has not loaded (or does not have the
    caller, and has nobody with the role names the form looks for), the
    form sends both ids empty, which the route reads as not given: the
    assignment is then the route's own. *)
Theorem create_form_without_users_leaves_it_to_the_route
    (users : list ListedUser) (sessionUserId : option string)
    (data : TTFUForm) (meetingId : string)
    (Hnot_listed :
       match sessionUserId with
       | Some id => find (fun u => (lu_id u =? id)%string) users = None
       | None => True
       end)
    (Hno_manager :
       find (fun u => (lu_globalRole u =? "manager")%string
                      || (lu_globalRole u =? "admin")%string) users = None)
    (Htitle : truthy (form_title data) = true) :
  form_ids users sessionUserId = ("", "")
  /\ exists input,
       createTTFUSchema (form_body data meetingId (form_ids users sessionUserId))
       = inr input
       /\ falsy (in_assigneeId input) = true
       /\ falsy (in_reviewerId input) = true
       /\ in_meetingId input = meetingId /\ in_title input = form_title data.
Proof.
  assert (Hids : form_ids users sessionUserId = ("", "")).
  { unfold form_ids.
    destruct sessionUserId as [id|]; [rewrite Hnot_listed|]; simpl;
      rewrite Hno_manager; reflexivity. }
  split; [exact Hids|].
  eexists. split; [apply schema_reads_form_body; exact Htitle|].
  rewrite Hids. repeat split.
Qed.

End Create_form.

(* ------------------------------------------------------------------ *)
(** *** The form that submits evidence *)

Section Evidence_form.

Variable isURL : string -> bool.

(** X22. An evidence submitted through the form is a link with its url
    and no file reference: the form sends the kind link with the url and
    the description it has, so the row the route writes has exactly one of
    the two fields, its description being kept unless empty. *)
Theorem evidence_form_populates_one_field
    (Hempty : isURL "" = false)
    (g : Gen) (s : Session) (id : string) (db : DB) (url description : string)
    (Hid : truthy (session_user_id s) = true)
    (Hurl : isURL url = true)
    (Httfu : is_some (ttfu_findUnique id db) = true)
    (Huser : is_some (user_findUnique (session_user_id s) db) = true)
    (Hfresh : is_some (evidence_findUnique (cuid g) db) = false) :
  let input := {| ein_type := link; ein_url := Some url; ein_filePath := None;
                  ein_description := Some description |} in
  let row := new_evidence g s id input in
  let db' := with_evidences db (evidences db ++ [row]) in
  POST_evidence isURL g (Some s) id (Some (evidence_form_body url description)) db
  = (Json200 (include_evidence db' row), db')
  /\ exactly_one_populated row = true
  /\ evidence_url row = Some url
  /\ evidence_filePath row = None
  /\ evidence_description row = or_null (Some description).
Proof.
  intros input row db'.
  assert (Htruthy : truthy url = true).
  { unfold truthy. destruct (url =? "")%string eqn:Hu0; [|reflexivity].
    apply String.eqb_eq in Hu0. subst url. congruence. }
  assert (Hs : createEvidenceSchema isURL (evidence_form_body url description)
               = inr input).
  { unfold createEvidenceSchema, evidence_form_body, z_string_url_optional.
    simpl. rewrite Hurl. reflexivity. }
  split.
  { rewrite (POST_evidence_run isURL g s id _ input db Hid Hs).
    rewrite Httfu, Hfresh, Huser. simpl. rewrite Htruthy. reflexivity. }
  unfold row, exactly_one_populated. simpl. rewrite Htruthy. repeat split.
Qed.

End Evidence_form.

(* ------------------------------------------------------------------ *)
(** *** The page that reviews an evidence *)

(** X23. The review page offers its form to every reviewer, the route
    accepts only the designated one: a caller with the reviewer role for
    whom the page finds the evidence under the TTFU, but who is not the
    reviewer of that TTFU, passes [canReview] and is refused by the route
    with its second 403, nothing being written. *)
Theorem review_page_offers_more_than_the_route_accepts
    (g : Gen) (s : Session) (id evidenceId : string) (db : DB)
    (v : EvidenceView) (t : TTFU) (b : Json) (input : ReviewInput)
    (Hid : truthy (session_user_id s) = true)
    (Hrole : session_user_globalRole s = "REVIEWER")
    (Httfus : NoDup (map ttfu_id (ttfus db)))
    (Hevidences : NoDup (map evidence_id (evidences db)))
    (Hpage : page_evidence (fst (GET_ttfu (Some s) id db)) evidenceId = Some v)
    (Ht : ttfu_findUnique id db = Some t)
    (Hother : ttfu_reviewerId t <> session_user_id s)
    (Hb : createReviewSchema b = inr input) :
  canReview (session_user_globalRole s) = true
  /\ evidence_ttfuId (ev_evidence v) = id
  /\ POST_review g (Some s) id evidenceId (Some b) db
     = (JsonError 403 "You are not the assigned reviewer for this TTFU"
          NoDetails, db).
Proof.
  split; [rewrite Hrole; reflexivity|].
  rewrite (GET_ttfu_run s id db Hid), Ht in Hpage. cbn [fst page_evidence] in Hpage.
  apply find_some in Hpage as [Hv Hvid]. apply String.eqb_eq in Hvid.
  unfold include_ttfu_detail in Hv. cbn [td_evidences] in Hv.
  apply in_map_iff in Hv as (e & <- & He). cbn [ev_evidence include_evidence] in *.
  apply orderBy_desc_In in He. unfold evidences_of in He.
  apply filter_In in He as [He_in He_ttfu]. apply String.eqb_eq in He_ttfu.
  destruct (findUnique_ttfu_id _ _ _ Ht) as [Htid Ht_in].
  split; [rewrite He_ttfu; exact Htid|].
  assert (Hfind_e : evidence_findUnique evidenceId db = Some e).
  { rewrite <- Hvid. apply (findUnique_of_unique_key evidence_id); assumption. }
  assert (Hfind_t : ttfu_findUnique (evidence_ttfuId e) db = Some t).
  { rewrite He_ttfu. apply (findUnique_of_unique_key ttfu_id); assumption. }
  rewrite (POST_review_run g s id evidenceId b input db Hid Hb).
  rewrite Hfind_e, Hfind_t. unfold authorized_reviewer. rewrite Hrole.
  apply String.eqb_neq in Hother. rewrite Hother. reflexivity.
Qed.

(** X12. The review route does not look at the TTFU id of its path: the
    evidence id alone decides. Under the path of a TTFU the evidence does
    not belong to (one that does not exist included) the page finds no
    such evidence, while the route answers as it does under the path of
    the evidence's own TTFU, for every session and body. *)
Theorem review_ignores_the_ttfu_of_the_path
    (g : Gen) (s : Session) (id evidenceId : string) (db : DB) (e : Evidence)
    (Hid : truthy (session_user_id s) = true)
    (Hevidences : NoDup (map evidence_id (evidences db)))
    (He : evidence_findUnique evidenceId db = Some e)
    (Hwrong : evidence_ttfuId e <> id) :
  page_evidence (fst (GET_ttfu (Some s) id db)) evidenceId = None
  /\ forall session body,
       POST_review g session id evidenceId body db
       = POST_review g session (evidence_ttfuId e) evidenceId body db.
Proof.
  split; [|reflexivity].
  rewrite (GET_ttfu_run s id db Hid).
  destruct (ttfu_findUnique id db) as [t|] eqn:Ht; [|reflexivity].
  cbn [fst page_evidence].
  destruct (find _ (td_evidences (include_ttfu_detail db t))) as [v|] eqn:Hv;
    [|reflexivity].
  exfalso. apply find_some in Hv as [Hv Hvid]. apply String.eqb_eq in Hvid.
  unfold include_ttfu_detail in Hv. cbn [td_evidences] in Hv.
  apply in_map_iff in Hv as (e' & <- & He'). cbn [ev_evidence include_evidence] in *.
  apply orderBy_desc_In in He'. unfold evidences_of in He'.
  apply filter_In in He' as [He_in He_ttfu]. apply String.eqb_eq in He_ttfu.
  destruct (findUnique_ttfu_id _ _ _ Ht) as [Htid _].
  pose proof (findUnique_of_unique_key evidence_id (evidences db) e'
                Hevidences He_in) as Hfind.
  rewrite Hvid in Hfind. unfold evidence_findUnique in He.
  rewrite He in Hfind. inversion Hfind; subst e'.
  apply Hwrong. rewrite He_ttfu. exact Htid.
Qed.

(* ------------------------------------------------------------------ *)
(** *** The badges *)

(** X24. The colour of a status badge tells the statuses of a TTFU apart,
    and those of a review; a done TTFU and an approved review share the
    green, the two rejections the red; and anything that is no status,
    a status in another case among them, gets the grey of an open TTFU. *)
Theorem status_colours_tell_statuses_apart :
  (forall a b, getStatusColor (TtfuStatus_name a) = getStatusColor (TtfuStatus_name b)
               -> a = b)
  /\ (forall a b, getStatusColor (ReviewStatus_name a)
                  = getStatusColor (ReviewStatus_name b) -> a = b)
  /\ getStatusColor (TtfuStatus_name DONE) = getStatusColor (ReviewStatus_name approved)
  /\ getStatusColor (TtfuStatus_name REJECTED)
     = getStatusColor (ReviewStatus_name rejected)
  /\ (forall s,
        (forall st, s <> TtfuStatus_name st) ->
        (forall st, s <> ReviewStatus_name st) ->
        getStatusColor s = getStatusColor (TtfuStatus_name OPEN)).
Proof.
  split; [|split; [|split; [|split]]].
  - intros [] []; simpl; intros H; (reflexivity || discriminate H).
  - intros [] []; simpl; intros H; (reflexivity || discriminate H).
  - reflexivity.
  - reflexivity.
  - intros s Ht Hr. unfold getStatusColor.
    pose proof (Ht OPEN) as H1. pose proof (Ht IN_PROGRESS) as H2.
    pose proof (Ht DONE) as H3. pose proof (Ht REJECTED) as H4.
    pose proof (Hr approved) as H5. pose proof (Hr rejected) as H6.
    pose proof (Hr needs_revision) as H7.
    apply String.eqb_neq in H1, H2, H3, H4, H5, H6, H7.
    cbn [TtfuStatus_name ReviewStatus_name] in *.
    rewrite H1, H2, H3, H4, H5, H6, H7. reflexivity.
Qed.

(* ------------------------------------------------------------------ *)
(** *** Signing in *)

Section Sign_in.

Variable passwordHash : User -> option string.
Variable bcrypt_compare : string -> string -> bool.

(** Whom [authorize] lets in. *)
Lemma authorize_lets_in (credentials : option Credentials) (db : DB) (au : AuthUser) :
  authorize passwordHash bcrypt_compare credentials db = Some au ->
  exists c email password u hash,
    credentials = Some c
    /\ cred_email c = Some email /\ truthy email = true
    /\ cred_password c = Some password /\ truthy password = true
    /\ user_findUnique_email email db = Some u
    /\ In u (users db) /\ user_email u = email
    /\ passwordHash u = Some hash /\ bcrypt_compare password hash = true
    /\ au = {| au_id := user_id u; au_email := user_email u;
               au_name := user_name u;
               au_globalRole := GlobalRole_name (user_globalRole u) |}.
Proof.
  intros H. unfold authorize in H.
  destruct credentials as [c|]; [|discriminate].
  destruct (falsy (cred_email c) || falsy (cred_password c)) eqn:Hf;
    [discriminate|].
  apply orb_false_iff in Hf as [He Hp].
  destruct (not_falsy_or_null _ He) as (email & Hemail & _ & Htemail).
  destruct (not_falsy_or_null _ Hp) as (password & Hpassword & _ & Htpassword).
  rewrite Hemail, Hpassword in H. simpl in H.
  rewrite Htemail, Htpassword in H.
  destruct (user_findUnique_email email db) as [u|] eqn:Hu; [|discriminate].
  destruct (falsy (passwordHash u)) eqn:Hh; [discriminate|].
  destruct (not_falsy_or_null _ Hh) as (hash & Hhash & _ & Hthash).
  rewrite Hhash in H. simpl in H. rewrite Hthash in H.
  destruct (bcrypt_compare password hash) eqn:Hc; [|discriminate].
  inversion H; subst.
  pose proof Hu as Hu'. unfold user_findUnique_email in Hu'.
  apply find_some in Hu' as [Hin Heq]. apply String.eqb_eq in Heq.
  exists c, email, password, u, hash. repeat split; auto.
Qed.

(** X25. [authorize] lets in nobody but a user of the table, found by
    the email given, who has a password hash that the password given
    matches; what it returns is that user's id, email, name and role.
    Without an email or a password, for an unknown email, for a user
    without hash and for a wrong password it returns nothing. *)
Theorem authorize_needs_the_matching_password
    (credentials : option Credentials) (db : DB) :
  (forall au,
      authorize passwordHash bcrypt_compare credentials db = Some au ->
      exists c email password u hash,
        credentials = Some c
        /\ cred_email c = Some email /\ truthy email = true
        /\ cred_password c = Some password /\ truthy password = true
        /\ user_findUnique_email email db = Some u
        /\ In u (users db) /\ user_email u = email
        /\ passwordHash u = Some hash /\ bcrypt_compare password hash = true
        /\ au = {| au_id := user_id u; au_email := user_email u;
                   au_name := user_name u;
                   au_globalRole := GlobalRole_name (user_globalRole u) |})
  /\ (forall c,
        credentials = Some c ->
        falsy (cred_email c) || falsy (cred_password c) = true ->
        authorize passwordHash bcrypt_compare credentials db = None)
  /\ (forall c u,
        credentials = Some c ->
        user_findUnique_email (or_else (cred_email c) "") db = Some u ->
        bcrypt_compare (or_else (cred_password c) "")
          (or_else (passwordHash u) "") = false ->
        authorize passwordHash bcrypt_compare credentials db = None).
Proof.
  split; [|split].
  - intros au H. exact (authorize_lets_in credentials db au H).
  - intros c -> Hf. unfold authorize. rewrite Hf. reflexivity.
  - intros c u -> Hu Hwrong. unfold authorize.
    destruct (falsy (cred_email c) || falsy (cred_password c)); [reflexivity|].
    rewrite Hu. destruct (falsy (passwordHash u)); [reflexivity|].
    rewrite Hwrong. reflexivity.
Qed.

(** X26. The session carries the user and the role of the moment of
    signing in: after [authorize] let a user in and the token was given
    that user's id, the session the routes read has that id and the name
    of the role the user had in the table then, however often the token
    is refreshed afterwards. *)
Theorem session_carries_the_role_of_sign_in
    (credentials : option Credentials) (db : DB) (au : AuthUser)
    (token : Token) (user : SessionUser) (refreshes : nat)
    (Hin : authorize passwordHash bcrypt_compare credentials db = Some au)
    (Hsub : token_sub token = Some (au_id au)) :
  let signed_in := jwt token (Some au) in
  let later := Nat.iter refreshes (fun t => jwt t None) signed_in in
  let s := session_for_routes (session_callback user (Some later)) in
  session_user_id s = au_id au
  /\ session_user_globalRole s = au_globalRole au
  /\ exists u, In u (users db) /\ session_user_id s = user_id u
               /\ session_user_globalRole s = GlobalRole_name (user_globalRole u).
Proof.
  intros signed_in later s.
  assert (Hlater : later = signed_in).
  { unfold later. generalize signed_in. intros t.
    induction refreshes as [|n IH]; [reflexivity|].
    change (jwt (Nat.iter n (fun t => jwt t None) t) None = t).
    rewrite IH. reflexivity. }
  assert (H1 : session_user_id s = au_id au).
  { unfold s. rewrite Hlater. simpl. rewrite Hsub. reflexivity. }
  assert (H2 : session_user_globalRole s = au_globalRole au).
  { unfold s. rewrite Hlater. reflexivity. }
  split; [exact H1|]. split; [exact H2|].
  destruct (authorize_lets_in credentials db au Hin)
    as (c & email & password & u & hash & _ & _ & _ & _ & _ & _ & Hu & _ & _ & _ & ->).
  exists u. rewrite H1, H2. simpl. auto.
Qed.

End Sign_in.

(* ------------------------------------------------------------------ *)
(** *** Joining a meeting *)

Lemma participant_findUnique_None meetingId userId st :
  participant_findUnique meetingId userId st = None ->
  ~ In (meetingId, userId)
       (map (fun p => (mp_meetingId p, mp_userId p)) (participants st)).
Proof.
  intros Hnone Hin. apply in_map_iff in Hin as (p & Hp & Hin).
  inversion Hp as [[Hm Hu]].
  pose proof (find_none _ _ Hnone p Hin) as Hf. simpl in Hf.
  rewrite Hm, Hu, !String.eqb_refl in Hf. discriminate.
Qed.

(** What a success of [POST_join] says about the call. *)
Lemma POST_join_success g session id body st view st' :
  POST_join g session id body st = (Json200 view, st') ->
  exists s b role,
    session = Some s /\ body = Some b /\ joinMeetingSchema b = inr role
    /\ participant_findUnique id (session_user_id s) st = None
    /\ is_some (meeting_findUnique id (store_db st)) = true
    /\ is_some (user_findUnique (session_user_id s) (store_db st)) = true
    /\ pv_participant view
       = {| mp_id := cuid g; mp_meetingId := id; mp_userId := session_user_id s;
            mp_role := role; mp_createdAt := now g |}
    /\ st' = {| store_db := store_db st;
                participants := participants st ++ [pv_participant view] |}.
Proof.
  unfold POST_join, participant_create. intros H.
  destruct session as [s|]; [|discriminate].
  destruct body as [b|]; [|discriminate].
  destruct (joinMeetingSchema b) as [issues|role] eqn:Hb; [discriminate|].
  destruct (participant_findUnique id (session_user_id s) st) eqn:Hp;
    [discriminate|].
  cbn [is_some] in H.
  destruct (existsb _ (participants st)); [discriminate|].
  destruct (is_some (meeting_findUnique id (store_db st))) eqn:Hm;
    [|discriminate].
  destruct (is_some (user_findUnique (session_user_id s) (store_db st))) eqn:Hu;
    [|discriminate].
  simpl in H. inversion H; subst.
  exists s, b, role. repeat split; auto.
Qed.

Lemma POST_join_failure g session id body st :
  is_success (fst (POST_join g session id body st)) = false ->
  snd (POST_join g session id body st) = st.
Proof.
  unfold POST_join. repeat case_match; simpl; intros H;
    (reflexivity || discriminate).
Qed.

(** X27. Joining keeps every user at most once in a meeting, and touches
    no other table: if no two participant rows share meeting and user,
    none do after any call of the join route. *)
Theorem join_keeps_each_user_once
    (g : Gen) (session : option Session) (id : string) (body : option Json)
    (st : Store)
    (Honce : joined_once st) :
  joined_once (snd (POST_join g session id body st))
  /\ store_db (snd (POST_join g session id body st)) = store_db st.
Proof.
  destruct (POST_join g session id body st) as [reply st'] eqn:Hrun.
  destruct reply as [view|code err det|exn].
  - destruct (POST_join_success _ _ _ _ _ _ _ Hrun)
      as (s & b & role & _ & _ & _ & Hnone & _ & _ & Hrow & ->).
    simpl. split; [|reflexivity].
    unfold joined_once in *. simpl. rewrite map_app. simpl.
    apply NoDup_snoc; [exact Honce|]. rewrite Hrow. simpl.
    apply participant_findUnique_None. exact Hnone.
  - pose proof (POST_join_failure g session id body st) as Hf.
    rewrite Hrun in Hf. simpl in Hf. rewrite Hf by reflexivity. auto.
  - pose proof (POST_join_failure g session id body st) as Hf.
    rewrite Hrun in Hf. simpl in Hf. rewrite Hf by reflexivity. auto.
Qed.

(** X28. A user who has joined a meeting cannot join it again: after a
    successful join, every further join of that meeting under the same
    session, with a body the schema accepts, whatever the role asked for,
    is refused with "Already a participant in this meeting" and writes
    nothing. *)
Theorem second_join_is_refused
    (g g' : Gen) (s : Session) (id : string) (body : option Json) (st st' : Store)
    (view : ParticipantView) (b' : Json) (role' : MeetingRole)
    (Hjoined : POST_join g (Some s) id body st = (Json200 view, st'))
    (Hb' : joinMeetingSchema b' = inr role') :
  POST_join g' (Some s) id (Some b') st'
  = (JsonError 400 "Already a participant in this meeting" NoDetails, st').
Proof.
  destruct (POST_join_success _ _ _ _ _ _ _ Hjoined)
    as (s0 & b & role & Hs & _ & _ & _ & _ & _ & Hrow & ->).
  inversion Hs; subst s0.
  unfold POST_join. rewrite Hb'.
  assert (Hfound : is_some
            (participant_findUnique id (session_user_id s)
               {| store_db := store_db st;
                  participants := participants st ++ [pv_participant view] |})
            = true).
  { unfold participant_findUnique. rewrite find_some_iff_is_some. simpl.
    rewrite existsb_app. apply orb_true_iff. right.
    rewrite Hrow. simpl. rewrite !String.eqb_refl. reflexivity. }
  rewrite Hfound. reflexivity.
Qed.

(** X29. The join route asks nothing of the caller but a session: any
    user of the table who is not yet in an existing meeting joins it in
    the role they ask for, supervisor included, whatever their global
    role; and for a meeting that does not exist the answer is no 404 but
    the 500 of the failed insert, nothing being written. *)
Theorem join_takes_any_role_asked_for
    (g : Gen) (s : Session) (id : string) (b : Json) (role : MeetingRole)
    (st : Store)
    (Hb : joinMeetingSchema b = inr role)
    (Hnew : participant_findUnique id (session_user_id s) st = None)
    (Hfresh : existsb (fun p => (mp_id p =? cuid g)%string) (participants st)
              = false) :
  (is_some (meeting_findUnique id (store_db st)) = true ->
   is_some (user_findUnique (session_user_id s) (store_db st)) = true ->
   let row := {| mp_id := cuid g; mp_meetingId := id;
                 mp_userId := session_user_id s; mp_role := role;
                 mp_createdAt := now g |} in
   POST_join g (Some s) id (Some b) st
   = (Json200 {| pv_participant := row;
                 pv_user := user_findUnique (session_user_id s) (store_db st) |},
      {| store_db := store_db st; participants := participants st ++ [row] |}))
  /\ (meeting_findUnique id (store_db st) = None ->
      POST_join g (Some s) id (Some b) st
      = (JsonError 500 "Internal server error" NoDetails, st)).
Proof.
  unfold POST_join, participant_create. rewrite Hb, Hnew, Hfresh. cbn [is_some].
  split.
  - intros -> ->. reflexivity.
  - intros ->. reflexivity.
Qed.

(* ------------------------------------------------------------------ *)
(** *** The keys of the schema *)

Lemma fresh_key_not_in {A} (key : A -> string) (l : list A) k :
  is_some (find (fun x => (key x =? k)%string) l) = false ->
  ~ In k (map key l).
Proof.
  rewrite find_some_iff_is_some. intros Hnone Hin.
  apply in_map_iff in Hin as (x & Hx & Hin).
  pose proof (existsb_false_In _ _ Hnone x Hin) as Hf. simpl in Hf.
  rewrite Hx, String.eqb_refl in Hf. discriminate.
Qed.

Lemma is_some_find_app {A} (f : A -> bool) (l extra : list A) :
  is_some (find f l) = true -> is_some (find f (l ++ extra)) = true.
Proof.
  rewrite !find_some_iff_is_some, existsb_app. intros ->. reflexivity.
Qed.

Lemma auto_assign_value {R} cu a r db :
  exists ids, @auto_assign R cu a r db = (Val ids, db).
Proof.
  unfold auto_assign. destruct (falsy a || falsy r); [|eexists; reflexivity].
  destruct cu as [u|]; [|eexists; reflexivity].
  destruct (spv_or_user (Some u)); eexists; reflexivity.
Qed.

Section Keys.

Variable isURL : string -> bool.
Variable parseDate : string -> option Z.

(** What a success of [POST_ttfu] and of [POST_evidence] says about the
    keys of the row. *)
Lemma POST_ttfu_success g session body db view db' :
  POST_ttfu parseDate g session body db = (Json200 view, db') ->
  db' = with_ttfus db (ttfus db ++ [tv_ttfu view])
  /\ ttfu_id (tv_ttfu view) = cuid g
  /\ is_some (ttfu_findUnique (cuid g) db) = false
  /\ is_some (meeting_findUnique (ttfu_meetingId (tv_ttfu view)) db) = true
  /\ is_some (user_findUnique (ttfu_assigneeId (tv_ttfu view)) db) = true
  /\ is_some (user_findUnique (ttfu_reviewerId (tv_ttfu view)) db) = true.
Proof.
  intros H.
  destruct session as [s|]; [|discriminate].
  destruct (truthy (session_user_id s)) eqn:Hid.
  2:{ unfold POST_ttfu in H. unfold_monad. rewrite Hid in H. discriminate. }
  destruct body as [b|].
  2:{ unfold POST_ttfu in H. unfold_monad. rewrite Hid in H. discriminate. }
  destruct (createTTFUSchema b) as [issues|input] eqn:Hb.
  { unfold POST_ttfu in H. unfold_monad. rewrite Hid, Hb in H. discriminate. }
  destruct (@auto_assign_value TTFUView (user_findUnique (session_user_id s) db)
              (in_assigneeId input) (in_reviewerId input) db) as [ids Hids].
  rewrite (POST_ttfu_run parseDate g s b input db ids Hid Hb Hids) in H.
  destruct (falsy (fst ids) || falsy (snd ids)); [discriminate|].
  destruct (new_Date_or_null parseDate (in_dueDate input)); [|discriminate].
  destruct (is_some (ttfu_findUnique (cuid g) db)) eqn:Hfresh; [discriminate|].
  destruct (is_some (meeting_findUnique (in_meetingId input) db)) eqn:Hm;
    [|discriminate].
  destruct (is_some (user_findUnique (or_else (fst ids) "") db)) eqn:Ha;
    [|discriminate].
  destruct (is_some (user_findUnique (or_else (snd ids) "") db)) eqn:Hr;
    [|discriminate].
  simpl in H. inversion H; subst. simpl. repeat split; auto.
Qed.

Lemma POST_ttfu_failure g session body db :
  is_success (fst (POST_ttfu parseDate g session body db)) = false ->
  snd (POST_ttfu parseDate g session body db) = db.
Proof.
  destruct session as [s|]; [|reflexivity].
  destruct (truthy (session_user_id s)) eqn:Hid.
  2:{ unfold POST_ttfu. unfold_monad. rewrite Hid. reflexivity. }
  destruct body as [b|].
  2:{ unfold POST_ttfu. unfold_monad. rewrite Hid. reflexivity. }
  destruct (createTTFUSchema b) as [issues|input] eqn:Hb.
  { unfold POST_ttfu. unfold_monad. rewrite Hid, Hb. reflexivity. }
  destruct (@auto_assign_value TTFUView (user_findUnique (session_user_id s) db)
              (in_assigneeId input) (in_reviewerId input) db) as [ids Hids].
  rewrite (POST_ttfu_run parseDate g s b input db ids Hid Hb Hids).
  repeat case_match; simpl; intros H; (reflexivity || discriminate).
Qed.

Lemma POST_evidence_success g session id body db view db' :
  POST_evidence isURL g session id body db = (Json200 view, db') ->
  db' = with_evidences db (evidences db ++ [ev_evidence view])
  /\ evidence_id (ev_evidence view) = cuid g
  /\ is_some (evidence_findUnique (cuid g) db) = false
  /\ is_some (ttfu_findUnique (evidence_ttfuId (ev_evidence view)) db) = true
  /\ is_some (user_findUnique (evidence_submittedById (ev_evidence view)) db) = true.
Proof.
  intros H. rewrite POST_evidence_early in H.
  destruct session as [s|]; [|discriminate].
  destruct (truthy (session_user_id s)) eqn:Hid; [|discriminate].
  destruct body as [b|]; [|discriminate].
  destruct (createEvidenceSchema isURL b) as [issues|input] eqn:Hb; [discriminate|].
  rewrite (POST_evidence_run isURL g s id b input db Hid Hb) in H.
  destruct (is_some (ttfu_findUnique id db)) eqn:Ht; [|discriminate].
  cbn [negb orb] in H.
  destruct (EvidenceType_eqb (ein_type input) link && falsy (ein_url input));
    [discriminate|].
  destruct (EvidenceType_eqb (ein_type input) file && falsy (ein_filePath input));
    [discriminate|].
  destruct (is_some (evidence_findUnique (cuid g) db)) eqn:Hfresh; [discriminate|].
  destruct (is_some (user_findUnique (session_user_id s) db)) eqn:Hu;
    [|discriminate].
  simpl in H. inversion H; subst. simpl. repeat split; auto.
Qed.

Lemma POST_review_success_keys g session id evidenceId body db view db' :
  POST_review g session id evidenceId body db = (Json200 view, db') ->
  db' = with_reviews db (reviews db ++ [rv_review view])
  /\ review_id (rv_review view) = cuid g
  /\ is_some (review_findUnique (cuid g) db) = false
  /\ is_some (evidence_findUnique (review_evidenceId (rv_review view)) db) = true
  /\ is_some (user_findUnique (review_reviewerId (rv_review view)) db) = true.
Proof.
  intros H. rewrite POST_review_early in H.
  destruct session as [s|]; [|discriminate].
  destruct (truthy (session_user_id s)) eqn:Hid; [|discriminate].
  destruct body as [b|]; [|discriminate].
  destruct (createReviewSchema b) as [issues|input] eqn:Hb; [discriminate|].
  rewrite (POST_review_run g s id evidenceId b input db Hid Hb) in H.
  destruct (negb (session_user_globalRole s =? "REVIEWER")%string
            && negb (session_user_globalRole s =? "ADMIN")%string);
    [discriminate|].
  destruct (evidence_findUnique evidenceId db) as [e|] eqn:He; [|discriminate].
  destruct (ttfu_findUnique (evidence_ttfuId e) db) as [t|]; [|discriminate].
  destruct (negb (authorized_reviewer s t)); [discriminate|].
  destruct (is_some (review_findFirst evidenceId (session_user_id s) db));
    [discriminate|].
  destruct (is_some (review_findUnique (cuid g) db)) eqn:Hfresh; [discriminate|].
  destruct (is_some (user_findUnique (session_user_id s) db)) eqn:Hu;
    [|discriminate].
  simpl in H. inversion H; subst. simpl. rewrite He. repeat split; auto.
Qed.

(** X30. The three routes that write keep the keys of the schema: if the
    primary keys are unique and every TTFU, evidence and review refers to
    rows that exist, the same holds after any call that creates a TTFU,
    submits an evidence or submits a review. *)
Theorem writing_routes_keep_the_keys
    (g : Gen) (session : option Session) (id evidenceId : string)
    (body : option Json) (db : DB)
    (Hkeys : integrity db) :
  integrity (snd (POST_ttfu parseDate g session body db))
  /\ integrity (snd (POST_evidence isURL g session id body db))
  /\ integrity (snd (POST_review g session id evidenceId body db)).
Proof.
  destruct Hkeys as [Hu Hm Ht He Hr Htfk Hefk Hrfk].
  split; [|split].
  - destruct (POST_ttfu parseDate g session body db) as [reply db'] eqn:Hrun.
    destruct reply as [view|code err det|exn];
      try (pose proof (POST_ttfu_failure g session body db) as Hf;
           rewrite Hrun in Hf; simpl in Hf; rewrite Hf by reflexivity;
           constructor; assumption).
    destruct (POST_ttfu_success _ _ _ _ _ _ Hrun)
      as (-> & Hid & Hfresh & Hfm & Hfa & Hfr).
    simpl. constructor; simpl; try assumption.
    + rewrite map_app. simpl. apply NoDup_snoc; [exact Ht|].
      rewrite Hid. apply (fresh_key_not_in ttfu_id). exact Hfresh.
    + intros t Hin. apply in_app_or in Hin as [Hin|[<-|[]]];
        [apply (Htfk t Hin)|auto].
    + intros e Hin. destruct (Hefk e Hin) as [H1 H2]. split; [|exact H2].
      unfold ttfu_findUnique. simpl. apply is_some_find_app. exact H1.
  - destruct (POST_evidence isURL g session id body db) as [reply db'] eqn:Hrun.
    destruct reply as [view|code err det|exn];
      try (pose proof (evidence_is_append_only_failure isURL g session id body db) as Hf;
           rewrite Hrun in Hf; simpl in Hf; rewrite Hf by reflexivity;
           constructor; assumption).
    destruct (POST_evidence_success _ _ _ _ _ _ _ Hrun)
      as (-> & Hid & Hfresh & Hft & Hfu).
    simpl. constructor; simpl; try assumption.
    + rewrite map_app. simpl. apply NoDup_snoc; [exact He|].
      rewrite Hid. apply (fresh_key_not_in evidence_id). exact Hfresh.
    + intros e Hin. apply in_app_or in Hin as [Hin|[<-|[]]];
        [apply (Hefk e Hin)|auto].
    + intros r Hin. destruct (Hrfk r Hin) as [H1 H2]. split; [|exact H2].
      unfold evidence_findUnique. simpl. apply is_some_find_app. exact H1.
  - destruct (POST_review g session id evidenceId body db) as [reply db'] eqn:Hrun.
    destruct reply as [view|code err det|exn];
      try (pose proof (POST_review_frame g session id evidenceId body db) as Hf;
           rewrite Hrun in Hf; simpl in Hf;
           destruct Hf as (_ & _ & _ & _ & Hsame); rewrite Hsame by reflexivity;
           constructor; assumption).
    destruct (POST_review_success_keys _ _ _ _ _ _ _ _ Hrun)
      as (-> & Hid & Hfresh & Hfe & Hfu).
    simpl. constructor; simpl; try assumption.
    + rewrite map_app. simpl. apply NoDup_snoc; [exact Hr|].
      rewrite Hid. apply (fresh_key_not_in review_id). exact Hfresh.
    + intros r Hin. apply in_app_or in Hin as [Hin|[<-|[]]];
        [apply (Hrfk r Hin)|auto].
Qed.

End Keys.

(* ------------------------------------------------------------------ *)
(** ** The further properties on the seeded database *)

Import Examples.

Lemma unauthenticated_is_401_witness :
  POST_review g_new None "t_docs" "e_docs" (Some approve) db
  = (JsonError 401 "Unauthorized" NoDetails, db)
  /\ POST_ttfu parseDate g_new
       (Some {| session_user_id := ""; session_user_globalRole := "ADMIN" |})
       (Some new_ttfu_body) db
     = (JsonError 401 "Unauthorized" NoDetails, db).
Proof.
  split.
  - exact (proj1 (proj2 (proj2
             (unauthenticated_is_401 isURL parseDate g_new None "t_docs" "e_docs"
                (Some approve) db eq_refl)))).
  - exact (proj1
             (unauthenticated_is_401 isURL parseDate g_new
                (Some {| session_user_id := ""; session_user_globalRole := "ADMIN" |})
                "t_docs" "e_docs" (Some new_ttfu_body) db eq_refl)).
Defined.

Lemma review_success_only_if_authorized_witness :
  exists t,
    ttfu_findUnique "t_docs" db = Some t
    /\ authorized_reviewer (session_of admin) t = true
    /\ review_findFirst "e_docs" "u_admin" db = None.
Proof.
  destruct (review_success_only_if_authorized g_new (Some (session_of admin))
              "t_docs" "e_docs" (Some approve) db _ _ eq_refl)
    as (s & b & input & e & t & Hs & _ & _ & _ & He & Ht & Hauth & Hnone & _).
  inversion Hs; subst s. cbn in He. inversion He; subst e.
  exists t. auto.
Defined.

Lemma reviews_one_each_unless_calls_overlap_witness :
  one_review_each db
  /\ reviews (snd (overlapping_reviews g_new g_review
                     (Some (session_of admin)) (Some (session_of admin))
                     "t_docs" "t_docs" "e_docs" "e_docs"
                     (Some approve) (Some approve) db))
     = [review; new_review g_new (session_of admin) "e_docs" approve_input;
        new_review g_review (session_of admin) "e_docs" approve_input]
  /\ ~ one_review_each
        (snd (overlapping_reviews g_new g_review
                (Some (session_of admin)) (Some (session_of admin))
                "t_docs" "t_docs" "e_docs" "e_docs"
                (Some approve) (Some approve) db))
  /\ POST_review g_review (Some (session_of admin)) "t_docs" "e_docs" (Some approve)
       (snd (POST_review g_new (Some (session_of admin)) "t_docs" "e_docs"
               (Some approve) db))
     = (JsonError 400 "You have already reviewed this evidence" NoDetails,
        snd (POST_review g_new (Some (session_of admin)) "t_docs" "e_docs"
               (Some approve) db)).
Proof.
  assert (Hone : one_review_each db).
  { unfold one_review_each. simpl. repeat constructor. intros []. }
  split; [exact Hone|].
  destruct (proj2 (reviews_one_each_unless_calls_overlap db Hone)
              g_new g_review (session_of admin) "t_docs" "t_docs" "e_docs"
              approve approve approve_input approve_input evidence ttfu1
              eq_refl eq_refl eq_refl eq_refl eq_refl eq_refl eq_refl eq_refl
              eq_refl eq_refl ltac:(discriminate))
    as ((_ & Hsecond & _ & _) & (_ & _ & Hrows & Hbroken)).
  split; [exact Hrows|]. split; [exact Hbroken|exact Hsecond].
Defined.

Lemma named_ids_are_stored_witness :
  POST_ttfu parseDate g_new (Some (session_of spv)) (Some named_body) db
  = (let row := new_ttfu g_new named_input "u_user" "u_reviewer" None in
     let db' := with_ttfus db (ttfus db ++ [row]) in
     (Json200 (include_ttfu db' row), db')).
Proof.
  exact (proj1 (proj2
           (named_ids_are_stored parseDate g_new (session_of spv) named_body
              named_input db "u_user" "u_reviewer"
              eq_refl eq_refl eq_refl eq_refl eq_refl eq_refl))
         None eq_refl eq_refl eq_refl eq_refl eq_refl).
Defined.

Lemma one_named_id_by_role_witness :
  ttfu_assigneeId
    (new_ttfu g_new assignee_only_input "u_spv" "u_admin" None) = "u_spv"
  /\ POST_ttfu parseDate g_new (Some (session_of spv)) (Some assignee_only_body) db
     = (let row := new_ttfu g_new assignee_only_input "u_spv" "u_admin" None in
        let db' := with_ttfus db (ttfus db ++ [row]) in
        (Json200 (include_ttfu db' row), db')).
Proof.
  split; [|reflexivity].
  exact (proj1 (proj1
           (one_named_id_by_role parseDate g_new (session_of spv)
              assignee_only_body assignee_only_input db spv
              eq_refl eq_refl eq_refl eq_refl _ _ eq_refl) eq_refl)).
Defined.

Lemma unable_to_assign_iff_unknown_caller_witness :
  POST_ttfu parseDate g_new (Some nobody) (Some new_ttfu_body) db
  = (JsonError 400 "Unable to assign TTFU. No valid assignee or reviewer found."
       NoDetails, db).
Proof.
  apply (proj2 (unable_to_assign_iff_unknown_caller parseDate g_new nobody
                  new_ttfu_body new_ttfu_input db eq_refl eq_refl)).
  split; reflexivity.
Defined.

Lemma evidence_required_field_witness :
  POST_evidence isURL g_new (Some (session_of user)) "t_docs"
    (Some file_without_path) db
  = (JsonError 400 "File path is required for file evidence" NoDetails, db)
  /\ POST_evidence isURL g_new (Some (session_of user)) "t_gone"
       (Some file_without_path) db
     = (JsonError 404 "TTFU not found" NoDetails, db).
Proof.
  split.
  - exact (proj1 (proj2 (proj2
             (evidence_required_field isURL g_new (session_of user) "t_docs"
                file_without_path file_without_path_input db eq_refl eq_refl)))
           eq_refl eq_refl eq_refl).
  - exact (proj1
             (evidence_required_field isURL g_new (session_of user) "t_gone"
                file_without_path file_without_path_input db eq_refl eq_refl)
           eq_refl).
Defined.

Lemma malformed_url_refused_for_any_kind_witness :
  exists issues,
    POST_evidence isURL g_new (Some (session_of user)) "t_docs"
      (Some (JObj file_with_bad_url)) db
    = (JsonError 400 "Validation error" (Issues issues), db)
    /\ In "url" issues.
Proof.
  exact (malformed_url_refused_for_any_kind isURL g_new (session_of user) "t_docs"
           file_with_bad_url "see attachment" db eq_refl eq_refl eq_refl).
Defined.

Lemma GET_ttfu_lists_exactly_its_evidence_witness :
  GET_ttfu (Some (session_of user)) "t_gone" db
  = (JsonError 404 "TTFU not found" NoDetails, db)
  /\ exists detail,
       GET_ttfu (Some (session_of user)) "t_docs" db = (Json200 detail, db)
       /\ Permutation (evidences_of db "t_docs")
            (map ev_evidence (td_evidences detail)).
Proof.
  destruct (GET_ttfu_lists_exactly_its_evidence (session_of user) "t_gone" db
              eq_refl) as [Hgone _].
  destruct (GET_ttfu_lists_exactly_its_evidence (session_of user) "t_docs" db
              eq_refl) as [_ Hthere].
  split; [exact (Hgone eq_refl)|].
  destruct (Hthere ttfu1 eq_refl) as (detail & Hget & _ & Hperm & _).
  exists detail. auto.
Defined.

Lemma listing_respects_filters_and_limit_witness :
  exists pg,
    GET_ttfus parseInt findMany_irregular (Some (session_of user))
      (open_page "1") db = (Json200 pg, db)
    /\ Z.of_nat (length (page_data pg)) <= 1
    /\ pg_total (page_pagination pg) = 2
    /\ pg_totalPages (page_pagination pg) = Some 2.
Proof.
  destruct (listing_respects_filters_and_limit parseInt findMany_irregular
              (session_of user) (open_page "1") db None 1 1
              eq_refl eq_refl eq_refl eq_refl)
    as (pg & Hget & Hlen & _ & _ & Htotal & tp & Htp & Hbounds);
    try lia.
  exists pg. split; [exact Hget|]. split; [exact Hlen|].
  split; [exact Htotal|].
  rewrite Htp. f_equal. rewrite Htotal in Hbounds. simpl in Hbounds. lia.
Defined.

Lemma pages_tile_the_selection_witness :
  concat
    (map (fun k =>
            listed (fst (GET_ttfus parseInt findMany_irregular
                           (Some (session_of user)) (ask (Z.of_nat k + 1)) db)))
         (seq 0 2))
  = [ttfu2; ttfu1].
Proof.
  refine (pages_tile_the_selection parseInt findMany_irregular
            (session_of user) (open_page "1") ask db None 1
            eq_refl eq_refl _ _ _ _).
  - lia.
  - intros p Hp. assert (Hp' : 1 <= p <= 2) by exact Hp.
    assert (p = 1 \/ p = 2) as [-> | ->] by lia; repeat split.
  - simpl. lia.
  - simpl. repeat constructor; simpl; intuition discriminate.
Defined.

Lemma page_past_the_end_is_empty_witness :
  exists pg,
    GET_ttfus parseInt findMany_irregular (Some (session_of user))
      (open_page "3") db = (Json200 pg, db)
    /\ page_data pg = [] /\ pg_total (page_pagination pg) = 2.
Proof.
  destruct (page_past_the_end_is_empty parseInt findMany_irregular
              (session_of user) (open_page "3") db None 3 1
              eq_refl eq_refl eq_refl eq_refl)
    as (pg & Hget & Hdata & Htotal); try (simpl; lia).
  exists pg. auto.
Defined.

Lemma unknown_status_is_internal_error_witness :
  GET_ttfus parseInt findMany_irregular (Some (session_of user))
    lowercase_status db
  = (JsonError 500 "Internal server error" NoDetails, db).
Proof.
  apply (unknown_status_is_internal_error parseInt findMany_irregular
           (session_of user) lowercase_status db "done" eq_refl eq_refl).
  repeat split; discriminate.
Defined.

Lemma dashboard_pending_is_reviewable_witness :
  POST_review g_new (Some (session_of admin)) "t_docs" "e_docs" (Some approve) db
  = (let row := new_review g_new (session_of admin) "e_docs" approve_input in
     let db' := with_reviews db (reviews db ++ [row]) in
     (Json200 (include_reviewer db' row), db')).
Proof.
  assert (Httfus : NoDup (map ttfu_id (ttfus db))).
  { simpl. repeat constructor; simpl; intuition discriminate. }
  assert (Hevidences : NoDup (map evidence_id (evidences db))).
  { simpl. repeat constructor; simpl; intuition discriminate. }
  exact (dashboard_pending_is_reviewable parseInt findMany_irregular
           (session_of admin) db [include_list_item db ttfu1]
           (include_list_item db ttfu1) [include_reviews db evidence]
           (include_reviews db evidence) g_new approve approve_input
           eq_refl (or_intror eq_refl) eq_refl eq_refl Httfus Hevidences
           eq_refl eq_refl (or_introl eq_refl) eq_refl (or_introl eq_refl)
           eq_refl eq_refl).
Defined.

Lemma dashboard_sees_the_ten_newest_only_witness :
  In ttfu1 (firstn 10 (orderBy_desc ttfu_createdAt (ttfus db))).
Proof.
  refine (proj1
            (dashboard_sees_the_ten_newest_only parseInt findMany_irregular
               (session_of reviewer) db [include_list_item db ttfu1]
               (include_list_item db ttfu1) eq_refl eq_refl eq_refl eq_refl
               (or_introl eq_refl))).
Defined.

Lemma create_form_names_the_creator_twice_witness :
  form_ids listed_users (Some "u_spv") = ("u_spv", "u_spv")
  /\ is_success
       (fst (POST_ttfu parseDate g_new (Some (session_of spv))
               (Some (form_body filled_form "m_weekly"
                        (form_ids listed_users (Some "u_spv")))) db)) = true.
Proof.
  destruct (create_form_names_the_creator_twice parseDate g_new (session_of spv)
              db listed_users (as_listed spv) SPV filled_form "m_weekly"
              eq_refl eq_refl eq_refl eq_refl) as (Hids & _ & Hrun).
  split; [exact Hids|].
  exact (Hrun None eq_refl eq_refl eq_refl eq_refl).
Defined.

Lemma create_form_without_users_leaves_it_to_the_route_witness :
  form_ids [] (Some "u_spv") = ("", "").
Proof.
  exact (proj1
           (create_form_without_users_leaves_it_to_the_route [] (Some "u_spv")
              filled_form "m_weekly" eq_refl eq_refl eq_refl)).
Defined.

Lemma evidence_form_populates_one_field_witness :
  exactly_one_populated
    (new_evidence g_new (session_of user) "t_docs"
       {| ein_type := link; ein_url := Some "https://example.com/report";
          ein_filePath := None; ein_description := Some "" |}) = true.
Proof.
  exact (proj1 (proj2
           (evidence_form_populates_one_field isURL eq_refl g_new
              (session_of user) "t_docs" db "https://example.com/report" ""
              eq_refl eq_refl eq_refl eq_refl eq_refl))).
Defined.

Lemma review_page_offers_more_than_the_route_accepts_witness :
  canReview (session_user_globalRole (session_of reviewer)) = true
  /\ POST_review g_review (Some (session_of reviewer)) "t_code" "c_evidence"
       (Some approve) db_code_evidence
     = (JsonError 403 "You are not the assigned reviewer for this TTFU"
          NoDetails, db_code_evidence).
Proof.
  destruct (review_page_offers_more_than_the_route_accepts g_review
              (session_of reviewer) "t_code" "c_evidence" db_code_evidence
              (include_evidence db_code_evidence
                 (new_evidence g_evidence (session_of reviewer) "t_code" link_input))
              ttfu2 approve approve_input eq_refl eq_refl)
    as (Hcan & _ & Hrefused).
  - simpl. repeat constructor; simpl; intuition discriminate.
  - simpl. repeat constructor; simpl; intuition discriminate.
  - reflexivity.
  - reflexivity.
  - discriminate.
  - reflexivity.
  - split; [exact Hcan|exact Hrefused].
Defined.

Lemma authorize_needs_the_matching_password_witness :
  authorize passwordHash bcrypt_compare (Some admin_credentials) db
  = Some admin_auth
  /\ authorize passwordHash bcrypt_compare
       (Some {| cred_email := Some "admin@example.com";
                cred_password := Some "guess" |}) db = None.
Proof.
  split; [reflexivity|].
  exact (proj2 (proj2
           (authorize_needs_the_matching_password passwordHash bcrypt_compare
              (Some {| cred_email := Some "admin@example.com";
                       cred_password := Some "guess" |}) db))
         _ admin eq_refl eq_refl eq_refl).
Defined.

Lemma session_carries_the_role_of_sign_in_witness :
  authorize passwordHash bcrypt_compare (Some admin_credentials) db
  = Some admin_auth
  /\ (let s := session_for_routes
                 (session_callback blank_user
                    (Some (jwt (jwt (jwt fresh_token (Some admin_auth)) None)
                             None))) in
      session_user_id s = "u_admin" /\ session_user_globalRole s = "ADMIN").
Proof.
  split; [reflexivity|].
  destruct (session_carries_the_role_of_sign_in passwordHash bcrypt_compare
              (Some admin_credentials) db admin_auth fresh_token blank_user 2
              eq_refl eq_refl) as (Hid & Hrole & _).
  split; [exact Hid|exact Hrole].
Defined.

Lemma join_keeps_each_user_once_witness :
  joined_once
    (snd (POST_join g_new (Some (session_of admin)) "m_weekly"
            (Some join_as_participant) store)).
Proof.
  apply (join_keeps_each_user_once g_new (Some (session_of admin)) "m_weekly"
           (Some join_as_participant) store).
  unfold joined_once. simpl. repeat constructor; simpl;
    intuition discriminate.
Defined.

Lemma second_join_is_refused_witness :
  POST_join g_evidence (Some (session_of admin)) "m_weekly" (Some join_as_spv)
    (snd (POST_join g_new (Some (session_of admin)) "m_weekly"
            (Some join_as_participant) store))
  = (JsonError 400 "Already a participant in this meeting" NoDetails,
     snd (POST_join g_new (Some (session_of admin)) "m_weekly"
            (Some join_as_participant) store)).
Proof.
  exact (second_join_is_refused g_new g_evidence (session_of admin) "m_weekly"
           (Some join_as_participant) store _ _ join_as_spv spv_role
           eq_refl eq_refl).
Defined.

Lemma join_takes_any_role_asked_for_witness :
  is_success
    (fst (POST_join g_new (Some (session_of admin)) "m_weekly"
            (Some join_as_spv) store)) = true
  /\ POST_join g_new (Some (session_of admin)) "m_none" (Some join_as_spv) store
     = (JsonError 500 "Internal server error" NoDetails, store).
Proof.
  split.
  - rewrite (proj1 (join_takes_any_role_asked_for g_new (session_of admin)
                      "m_weekly" join_as_spv spv_role store
                      eq_refl eq_refl eq_refl) eq_refl eq_refl).
    reflexivity.
  - exact (proj2 (join_takes_any_role_asked_for g_new (session_of admin)
                    "m_none" join_as_spv spv_role store
                    eq_refl eq_refl eq_refl) eq_refl).
Defined.

Lemma seed_integrity : integrity db.
Proof.
  constructor; simpl;
    try (repeat constructor; simpl; intuition discriminate).
  - intros t [<-|[<-|[]]]; repeat split.
  - intros e [<-|[]]; repeat split.
  - intros r [<-|[]]; repeat split.
Defined.

Lemma writing_routes_keep_the_keys_witness :
  integrity
    (snd (POST_review g_new (Some (session_of admin)) "t_docs" "e_docs"
            (Some approve) db))
  /\ integrity
       (snd (POST_ttfu parseDate g_new (Some (session_of spv))
               (Some new_ttfu_body) db)).
Proof.
  split.
  - exact (proj2 (proj2
             (writing_routes_keep_the_keys isURL parseDate g_new
                (Some (session_of admin)) "t_docs" "e_docs" (Some approve) db
                seed_integrity))).
  - exact (proj1
             (writing_routes_keep_the_keys isURL parseDate g_new
                (Some (session_of spv)) "t_docs" "e_docs" (Some new_ttfu_body) db
                seed_integrity)).
Defined.

Lemma review_ignores_the_ttfu_of_the_path_witness :
  page_evidence (fst (GET_ttfu (Some (session_of admin)) "t_code" db)) "e_docs"
  = None
  /\ POST_review g_new (Some (session_of admin)) "t_code" "e_docs" (Some approve) db
     = POST_review g_new (Some (session_of admin)) "t_docs" "e_docs" (Some approve)
         db.
Proof.
  assert (Hevidences : NoDup (map evidence_id (evidences db))).
  { simpl. repeat constructor; simpl; intuition discriminate. }
  destruct (review_ignores_the_ttfu_of_the_path g_new (session_of admin) "t_code"
              "e_docs" db evidence eq_refl Hevidences eq_refl
              ltac:(discriminate)) as [Hpage Hroute].
  split; [exact Hpage|exact (Hroute _ _)].
Defined.
